(** * RagPOC: the Streamlit chat script [app.py], embedded and verified

    The script is orchestration code: it keeps four entries in Streamlit's
    session state (the chat history and three handles), calls the hosted
    assistant service through [client], and renders widgets.  The embedding
    keeps that shape:

    - [SessionState] is [st.session_state];
    - the hosted service is a [Client W]: one function per endpoint the script
      calls, acting on an abstract service state [W] and either returning a
      value or raising;
    - the script's functions live in the monad [M], which threads the session
      state and the service state, propagates Python exceptions and
      Streamlit's script-control signals, and records every externally
      visible action (service call, sleep, widget) in an event log;
    - the [while] loop of [get_assistant_response] takes a fuel argument that
      bounds the number of iterations of the model; running out of it is the
      separate outcome [OutOfFuel], which no [except] clause can catch.

    The [st.spinner] context managers only decorate the page while their
    body runs and are not modelled. *)

From Stdlib Require Import String Ascii List Bool Arith Lia.
From Stdlib Require Import Strings.Byte.
From Stdlib Require DecimalString.
Import ListNotations.
Local Open Scope string_scope.
Local Open Scope list_scope.

Set Implicit Arguments.

(** ** Values exchanged with the service *)

Inductive Exception : Type :=
| APIError (msg : string)        (* any exception raised by a client call *)
| IndexError (msg : string)      (* [xs[0]] on an empty list *)
| AttributeError (msg : string). (* [.text] on a block that has none *)

(** [str(e)], as interpolated by the f-strings of the error messages. *)
Definition str (e : Exception) : string :=
  match e with
  | APIError msg | IndexError msg | AttributeError msg => msg
  end.

Inductive result (A : Type) : Type :=
| Ok (a : A)
| Raise (e : Exception).
Arguments Ok {A} a.
Arguments Raise {A} e.

Record VectorStore := { vs_id : string }.
Record FileObject := { file_id : string }.
Record FileBatch := { batch_status : string }.
Record Assistant := { asst_id : string }.
Record Thread := { th_id : string }.
Record Run := { run_id : string; status : string }.

Record Text := { value : string }.
Inductive ContentBlock : Type :=
| TextContentBlock (text : Text)
| ImageFileContentBlock (image_file : string).

Record Message := { msg_role : string; msg_content : list ContentBlock }.
Record MessagePage := { data : list Message }.

Record UploadedFile := { name : string; getvalue : list byte }.

(** The requests the script sends; the arguments are the ones it passes. *)
Inductive Request : Type :=
| OpenAI (api_key : string)
| OpenAIFromEnvironment
| VectorStoresCreate (name : string)
| FilesCreate (file : string * list byte) (purpose : string)
| FileBatchesUploadAndPoll (vector_store_id : string) (files : list FileObject)
| AssistantsCreate (name instructions model : string)
                   (tools : list string) (vector_store_ids : list string)
| ThreadsCreate
| MessagesCreate (thread_id : option string) (role content : string)
| RunsCreate (thread_id assistant_id : option string)
| RunsRetrieve (thread_id : option string) (run_id : string)
| MessagesList (thread_id : option string).

Inductive Response : Type :=
| RClient
| RVectorStore (v : VectorStore)
| RFileObject (f : FileObject)
| RFileBatch (b : FileBatch)
| RAssistant (a : Assistant)
| RThread (t : Thread)
| RMessage (m : Message)
| RRun (r : Run)
| RMessagePage (p : MessagePage).

(** The service as the script sees it.  [W] is whatever the service keeps
    between calls; every call may change it and may raise.  Session-state
    handles are passed as stored, so an unset handle reaches the client as
    [None].

    The script builds two kinds of client: [OpenAI(api_key=...)] with the
    key typed in the sidebar ([openai_client]), through which every request
    goes but one, and [openai.OpenAI()] without argument, keyed from the
    environment ([openai_default_client]), built afresh for each file and
    used for its [files.create] only ([files_create]). *)
Record Client (W : Type) : Type := {
  openai_client : string -> W -> result unit * W;
  openai_default_client : W -> result unit * W;
  vector_stores_create : string -> W -> result VectorStore * W;
  files_create : string * list byte -> string -> W -> result FileObject * W;
  file_batches_upload_and_poll :
    string -> list FileObject -> W -> result FileBatch * W;
  assistants_create :
    string -> string -> string -> list string -> list string ->
    W -> result Assistant * W;
  threads_create : W -> result Thread * W;
  threads_messages_create :
    option string -> string -> string -> W -> result Message * W;
  threads_runs_create :
    option string -> option string -> W -> result Run * W;
  threads_runs_retrieve : option string -> string -> W -> result Run * W;
  threads_messages_list : option string -> W -> result MessagePage * W
}.

(** ** Session state and widgets *)

Record ChatTurn := { role : string; content : string }.

Record SessionState := {
  messages : list ChatTurn;
  assistant_id : option string;
  thread_id : option string;
  vector_store_id : option string
}.

(** Lines 16-23: what the four [if ... not in st.session_state] tests leave
    on the first run of a session; on later runs they change nothing. *)
Definition initial_session : SessionState :=
  {| messages := []; assistant_id := None; thread_id := None;
     vector_store_id := None |}.

(** Assignments to the entries of [st.session_state]. *)
Definition set_messages (v : list ChatTurn) (ss : SessionState) :=
  {| messages := v; assistant_id := assistant_id ss;
     thread_id := thread_id ss; vector_store_id := vector_store_id ss |}.
Definition set_assistant_id (v : option string) (ss : SessionState) :=
  {| messages := messages ss; assistant_id := v;
     thread_id := thread_id ss; vector_store_id := vector_store_id ss |}.
Definition set_thread_id (v : option string) (ss : SessionState) :=
  {| messages := messages ss; assistant_id := assistant_id ss;
     thread_id := v; vector_store_id := vector_store_id ss |}.
Definition set_vector_store_id (v : option string) (ss : SessionState) :=
  {| messages := messages ss; assistant_id := assistant_id ss;
     thread_id := thread_id ss; vector_store_id := v |}.

Inductive Widget : Type :=
| StWarning | StError | StInfo | StMarkdown
| SidebarError | SidebarSuccess | SidebarMarkdown
| StChatMessage (role : string).

Inductive Event : Type :=
| Call (req : Request) (resp : result Response)
| Sleep (secs : nat)
| Ui (w : Widget) (text : string)
| Rerun.

(** Widget values of one run of the script. *)
Record Inputs := {
  api_key_input : string;
  uploaded_files : list UploadedFile;
  setup_button : bool;
  chat_input : option string;
  clear_chat_button : bool
}.

(** Python truthiness of a string and of an optional string. *)
Definition truthy_str (s : string) : bool := negb (s =? "").
Definition truthy (h : option string) : bool :=
  match h with
  | Some s => truthy_str s
  | None => false
  end.

(** ** The script monad *)

(** [st.stop()] and [st.experimental_rerun()] raise Streamlit's
    script-control exceptions, which derive from [BaseException]: an
    [except Exception] clause does not catch them. *)
Inductive Control : Type := StopScript | RerunScript.

Inductive Outcome (A : Type) : Type :=
| Val (a : A)
| Exc (e : Exception)
| Halt (c : Control)
| OutOfFuel.
Arguments Val {A} a.
Arguments Exc {A} e.
Arguments Halt {A} c.
Arguments OutOfFuel {A}.

Section Script.

Context {W : Type}.

Record State := { session : SessionState; world : W }.

Definition M (A : Type) : Type := State -> Outcome A * list Event * State.

Definition ret {A} (a : A) : M A := fun s => (Val a, [], s).

Definition bind {A B} (m : M A) (f : A -> M B) : M B :=
  fun s =>
    match m s with
    | (Val a, l1, s1) => let '(o, l2, s2) := f a s1 in (o, l1 ++ l2, s2)
    | (Exc e, l1, s1) => (Exc e, l1, s1)
    | (Halt c, l1, s1) => (Halt c, l1, s1)
    | (OutOfFuel, l1, s1) => (OutOfFuel, l1, s1)
    end.

Notation "x <- m ;; k" := (bind m (fun x => k))
  (at level 61, m at next level, right associativity).
Notation "m ;; k" := (bind m (fun _ => k))
  (at level 61, right associativity).

Definition raise {A} (e : Exception) : M A := fun s => (Exc e, [], s).
Definition halt {A} (c : Control) : M A := fun s => (Halt c, [], s).
Definition out_of_fuel {A} : M A := fun s => (OutOfFuel, [], s).

(** [try: body / except Exception as e: handler e]. *)
Definition try_except {A} (body : M A) (handler : Exception -> M A) : M A :=
  fun s =>
    match body s with
    | (Exc e, l1, s1) => let '(o, l2, s2) := handler e s1 in (o, l1 ++ l2, s2)
    | r => r
    end.

Definition emit (ev : Event) : M unit := fun s => (Val tt, [ev], s).

(** Reading an entry of [st.session_state], and assigning to one. *)
Definition session_get {A} (field : SessionState -> A) : M A :=
  fun s => (Val (field (session s)), [], s).
Definition session_set (update : SessionState -> SessionState) : M unit :=
  fun s => (Val tt, [], {| session := update (session s); world := world s |}).

(** One client call: the request and what came back are logged, the service
    state advances, and a raised exception propagates. *)
Definition call {A} (req : Request) (inj : A -> Response)
    (op : W -> result A * W) : M A :=
  fun s =>
    match op (world s) with
    | (Ok a, w) =>
        (Val a, [Call req (Ok (inj a))], {| session := session s; world := w |})
    | (Raise e, w) =>
        (Exc e, [Call req (Raise e)], {| session := session s; world := w |})
    end.

(** List comprehension whose element expression has effects. *)
Fixpoint for_each {A B} (f : A -> M B) (xs : list A) : M (list B) :=
  match xs with
  | [] => ret []
  | x :: xs' => y <- f x ;; ys <- for_each f xs' ;; ret (y :: ys)
  end.

(** Streamlit and [time] primitives. *)
Definition st_warning (t : string) : M unit := emit (Ui StWarning t).
Definition st_error (t : string) : M unit := emit (Ui StError t).
Definition st_info (t : string) : M unit := emit (Ui StInfo t).
Definition st_markdown (t : string) : M unit := emit (Ui StMarkdown t).
Definition st_sidebar_error (t : string) : M unit := emit (Ui SidebarError t).
Definition st_sidebar_success (t : string) : M unit :=
  emit (Ui SidebarSuccess t).
Definition st_sidebar_markdown (t : string) : M unit :=
  emit (Ui SidebarMarkdown t).
Definition st_chat_message (r t : string) : M unit :=
  emit (Ui (StChatMessage r) t).
Definition st_stop {A} : M A := halt StopScript.
Definition st_experimental_rerun {A} : M A :=
  fun s => (Halt RerunScript, [Rerun], s).
Definition time_sleep (secs : nat) : M unit := emit (Sleep secs).

(** [xs[0]]. *)
Definition first {A} (xs : list A) : M A :=
  match xs with
  | x :: _ => ret x
  | [] => raise (IndexError "list index out of range")
  end.

(** [block.text]. *)
Definition text_attr (b : ContentBlock) : M Text :=
  match b with
  | TextContentBlock t => ret t
  | ImageFileContentBlock _ =>
      raise (AttributeError
               "'ImageFileContentBlock' object has no attribute 'text'")
  end.

Variable client : Client W.

(** *** Lines 46-76

    The list comprehension of line 64 builds, for each file, a client of
    its own with [openai.OpenAI()] and uploads the file through it; only
    the store and the batch go through [client].  The batch returned by
    [upload_and_poll] is bound to [file_batch] and not read again. *)
Definition upload_files_to_vector_store (uploaded_files : list UploadedFile)
  : M (option string) :=
  try_except
    (vector_store <-
       call (VectorStoresCreate "Company Documents POC") RVectorStore
            (vector_stores_create client "Company Documents POC") ;;
     let file_streams :=
       map (fun uploaded_file => (name uploaded_file, getvalue uploaded_file))
           uploaded_files in
     files <-
       for_each (fun file =>
                   call OpenAIFromEnvironment (fun _ => RClient)
                        (openai_default_client client) ;;
                   call (FilesCreate file "assistants") RFileObject
                        (files_create client file "assistants"))
                file_streams ;;
     file_batch <-
       call (FileBatchesUploadAndPoll (vs_id vector_store) files) RFileBatch
            (file_batches_upload_and_poll client (vs_id vector_store) files) ;;
     session_set (set_vector_store_id (Some (vs_id vector_store))) ;;
     ret (Some (vs_id vector_store)))
    (fun e =>
       st_error ("Error uploading files: " ++ str e) ;;
       ret None).

Definition assistant_name : string := "Company Data Assistant".
(** The triple-quoted literal of lines 83-86, line breaks and indentation
    included. *)
Definition assistant_instructions : string :=
  "You are a helpful assistant that answers questions about company documents. 
            Use the uploaded files to provide accurate, detailed answers. 
            If you can't find relevant information in the documents, say so clearly.
            Always cite which document you're referencing when possible.".
Definition assistant_model : string := "gpt-4-turbo-preview".

(** *** Lines 78-101 *)
Definition create_assistant (vector_store_id : string) : M (option string) :=
  try_except
    (assistant <-
       call (AssistantsCreate assistant_name assistant_instructions
               assistant_model ["file_search"] [vector_store_id])
            RAssistant
            (assistants_create client assistant_name assistant_instructions
               assistant_model ["file_search"] [vector_store_id]) ;;
     session_set (set_assistant_id (Some (asst_id assistant))) ;;
     ret (Some (asst_id assistant)))
    (fun e =>
       st_error ("Error creating assistant: " ++ str e) ;;
       ret None).

(** *** Lines 103-111 *)
Definition create_thread : M (option string) :=
  try_except
    (thread <- call ThreadsCreate RThread (threads_create client) ;;
     session_set (set_thread_id (Some (th_id thread))) ;;
     ret (Some (th_id thread)))
    (fun e =>
       st_error ("Error creating thread: " ++ str e) ;;
       ret None).

(** [status in ['queued', 'in_progress']]. *)
Definition pending (status : string) : bool :=
  (status =? "queued") || (status =? "in_progress").

(** *** Lines 131-136: [while run.status in [...]: sleep; retrieve]

    One unit of fuel is spent per iteration of the body; the test itself
    costs none, so [fuel] iterations can run and the loop still exits
    normally when the status fetched by the last one is no longer pending. *)
Fixpoint wait_for_completion (fuel : nat) (run : Run) : M Run :=
  if pending (status run) then
    match fuel with
    | O => out_of_fuel
    | S fuel' =>
        time_sleep 1 ;;
        tid <- session_get thread_id ;;
        run' <- call (RunsRetrieve tid (run_id run)) RRun
                     (threads_runs_retrieve client tid (run_id run)) ;;
        wait_for_completion fuel' run'
    end
  else ret run.

(** *** Lines 113-151 *)
Definition get_assistant_response (fuel : nat) (message : string)
  : M (option string) :=
  try_except
    (tid <- session_get thread_id ;;
     call (MessagesCreate tid "user" message) RMessage
          (threads_messages_create client tid "user" message) ;;
     tid <- session_get thread_id ;;
     aid <- session_get assistant_id ;;
     run <- call (RunsCreate tid aid) RRun
                 (threads_runs_create client tid aid) ;;
     run <- wait_for_completion fuel run ;;
     if status run =? "completed" then
       tid <- session_get thread_id ;;
       messages <- call (MessagesList tid) RMessagePage
                        (threads_messages_list client tid) ;;
       m0 <- first (data messages) ;;
       c0 <- first (msg_content m0) ;;
       t <- text_attr c0 ;;
       ret (Some (value t))
     else
       st_error ("Run failed with status: " ++ status run) ;;
       ret None)
    (fun e =>
       st_error ("Error getting response: " ++ str e) ;;
       ret None).

(** [len(uploaded_files)] as the f-string prints it. *)
Definition str_of_nat (n : nat) : string :=
  DecimalString.NilEmpty.string_of_uint (Nat.to_uint n).

(** *** Lines 166-186: the setup button *)
Definition setup_handler (inp : Inputs) : M unit :=
  if negb (match uploaded_files inp with [] => true | _ => false end)
     && setup_button inp
  then
    vector_store_id <- upload_files_to_vector_store (uploaded_files inp) ;;
    if truthy vector_store_id then
      assistant_id <-
        create_assistant (match vector_store_id with
                          | Some v => v
                          | None => ""
                          end) ;;
      if truthy assistant_id then
        thread_id <- create_thread ;;
        if truthy thread_id then
          st_sidebar_success "✅ RAG System Ready!" ;;
          st_sidebar_markdown
            ("**Files uploaded:** "
               ++ str_of_nat (length (uploaded_files inp)))
        else st_sidebar_error "Failed to create conversation thread"
      else st_sidebar_error "Failed to create assistant"
    else st_sidebar_error "Failed to upload files"
  else ret tt.

(** *** Lines 198-213: the chat input *)
Definition chat_input_handler (fuel : nat) (chat_input : option string)
  : M unit :=
  if truthy chat_input then
    let prompt := match chat_input with Some p => p | None => "" end in
    old <- session_get messages ;;
    session_set
      (set_messages (old ++ [{| role := "user"; content := prompt |}])) ;;
    st_chat_message "user" prompt ;;
    response <- get_assistant_response fuel prompt ;;
    if truthy response then
      let reply := match response with Some r => r | None => "" end in
      old <- session_get messages ;;
      session_set
        (set_messages (old ++ [{| role := "assistant"; content := reply |}])) ;;
      st_chat_message "assistant" reply
    else st_error "Failed to get response from assistant"
  else ret tt.

(** *** Lines 216-220: the clear-chat button *)
Definition clear_chat_handler (clicked : bool) : M unit :=
  if clicked then
    session_set (set_messages []) ;;
    create_thread ;;
    st_experimental_rerun
  else ret tt.

(** *** Lines 236-240: the status panel *)
Definition status_lines (ss : SessionState) : list string :=
  [ ("**Assistant:** "
       ++ (if truthy (assistant_id ss) then "✅ Ready" else "❌ Not setup"))%string;
    ("**Thread:** "
       ++ (if truthy (thread_id ss) then "✅ Active" else "❌ Not created"))%string;
    ("**Vector Store:** "
       ++ (if truthy (vector_store_id ss) then "✅ Ready" else "❌ Not setup"))%string ].

Definition status_panel : M unit :=
  ss <- session_get (fun ss => ss) ;;
  for_each st_sidebar_markdown (status_lines ss) ;;
  ret tt.

(** *** The whole script, top to bottom

    Static page furniture (page config, titles, headings, the sample
    questions, the footer note) is left out; every widget whose text or
    presence depends on the state is kept. *)
Definition script (fuel : nat) (inp : Inputs) : M unit :=
  (if negb (truthy_str (api_key_input inp)) then
     st_warning
       "Please enter your OpenAI API key in the sidebar to continue." ;;
     st_stop
   else ret tt) ;;
  try_except
    (call (OpenAI (api_key_input inp)) (fun _ => RClient)
          (openai_client client (api_key_input inp)))
    (fun e =>
       st_error ("Error initializing OpenAI client: " ++ str e) ;;
       st_stop) ;;
  setup_handler inp ;;
  aid <- session_get assistant_id ;;
  tid <- session_get thread_id ;;
  (if truthy aid && truthy tid then
     history <- session_get messages ;;
     for_each (fun message =>
                 st_chat_message (role message) (content message))
              history ;;
     chat_input_handler fuel (chat_input inp) ;;
     clear_chat_handler (clear_chat_button inp)
   else
     st_info
       "👆 Upload your documents in the sidebar and click 'Setup RAG System' to get started!") ;;
  status_panel.

(** *** Streamlit's runner

    A run that ends, or is stopped by [st.stop()], leaves the page as it is.
    A run that asks for a rerun is followed at once by another run with the
    same widget state but no button pressed and no chat text submitted. *)
Definition no_trigger (inp : Inputs) : Inputs :=
  {| api_key_input := api_key_input inp;
     uploaded_files := uploaded_files inp;
     setup_button := false;
     chat_input := None;
     clear_chat_button := false |}.

Definition finish (m : M unit) : M unit :=
  fun s =>
    match m s with
    | (Halt _, l, s1) => (Val tt, l, s1)
    | r => r
    end.

Definition interact (fuel : nat) (inp : Inputs) : M unit :=
  fun s =>
    match script fuel inp s with
    | (Halt RerunScript, l1, s1) =>
        let '(o, l2, s2) := finish (script fuel (no_trigger inp)) s1 in
        (o, l1 ++ l2, s2)
    | (Halt StopScript, l1, s1) => (Val tt, l1, s1)
    | r => r
    end.

(** A user session: one interaction after the other. *)
Fixpoint user_session (fuel : nat) (inps : list Inputs) : M unit :=
  match inps with
  | [] => ret tt
  | inp :: rest => interact fuel inp ;; user_session fuel rest
  end.

End Script.

Arguments State W : clear implicits.
Arguments M W A : clear implicits.

(** ** Reading the event log *)

Definition is_status_fetch (ev : Event) : bool :=
  match ev with
  | Call (RunsRetrieve _ _) _ => true
  | _ => false
  end.

(** Number of [runs.retrieve] calls issued. *)
Definition status_fetches (l : list Event) : nat :=
  length (filter is_status_fetch l).

(** The statuses the service reported for the run, in order: the one that
    came back from [runs.create], then one per successful [runs.retrieve]. *)
Fixpoint observed_statuses (l : list Event) : list string :=
  match l with
  | [] => []
  | Call (RunsCreate _ _) (Ok (RRun r)) :: l' =>
      status r :: observed_statuses l'
  | Call (RunsRetrieve _ _) (Ok (RRun r)) :: l' =>
      status r :: observed_statuses l'
  | _ :: l' => observed_statuses l'
  end.

(** Durations of the [time.sleep] calls, in order. *)
Fixpoint slept (l : list Event) : list nat :=
  match l with
  | [] => []
  | Sleep secs :: l' => secs :: slept l'
  | _ :: l' => slept l'
  end.

(** [Some n] when the log is exactly [n] rounds of the loop body: a sleep of
    one second, then one status fetch. *)
Fixpoint polling_rounds (l : list Event) : option nat :=
  match l with
  | [] => Some 0
  | Sleep 1 :: Call (RunsRetrieve _ _) _ :: l' =>
      option_map S (polling_rounds l')
  | _ => None
  end.

(** Texts shown with [st.error], in order. *)
Fixpoint errors_shown (l : list Event) : list string :=
  match l with
  | [] => []
  | Ui StError t :: l' => t :: errors_shown l'
  | _ :: l' => errors_shown l'
  end.

Definition is_provisioning_call (ev : Event) : bool :=
  match ev with
  | Call (AssistantsCreate _ _ _ _ _) _ => true
  | Call ThreadsCreate _ => true
  | _ => false
  end.

(** Number of assistant- or conversation-provisioning requests issued. *)
Definition provisioning_calls (l : list Event) : nat :=
  length (filter is_provisioning_call l).

(** The index handles and the assistant handles the service handed out
    during [l]. *)
Fixpoint stores_issued (l : list Event) : list string :=
  match l with
  | [] => []
  | Call (VectorStoresCreate _) (Ok (RVectorStore v)) :: l' =>
      vs_id v :: stores_issued l'
  | _ :: l' => stores_issued l'
  end.

Fixpoint assistants_issued (l : list Event) : list string :=
  match l with
  | [] => []
  | Call (AssistantsCreate _ _ _ _ _) (Ok (RAssistant a)) :: l' =>
      asst_id a :: assistants_issued l'
  | _ :: l' => assistants_issued l'
  end.

(** The conversation handles the service handed out during [l]. *)
Fixpoint threads_issued (l : list Event) : list string :=
  match l with
  | [] => []
  | Call ThreadsCreate (Ok (RThread t)) :: l' => th_id t :: threads_issued l'
  | _ :: l' => threads_issued l'
  end.

Definition user_turn (prompt : string) : ChatTurn :=
  {| role := "user"; content := prompt |}.
Definition assistant_turn (reply : string) : ChatTurn :=
  {| role := "assistant"; content := reply |}.

(** State in which the chat handler calls [get_assistant_response]: the
    user's turn is already in the history. *)
Definition with_user_turn {W} (prompt : string) (s : State W) : State W :=
  {| session :=
       set_messages (messages (session s) ++ [user_turn prompt]) (session s);
     world := world s |}.

(** ** Describing what the service does, independently of the script *)

Section Service.

Context {W : Type} (client : Client W).

(** The run and service state after [n] successive status fetches, starting
    from [run] in state [w]; a fetch that raises ends the sequence. *)
Fixpoint fetched (tid : option string) (n : nat) (run : Run) (w : W)
  : result Run * W :=
  match n with
  | O => (Ok run, w)
  | S n' =>
      match threads_runs_retrieve client tid (run_id run) w with
      | (Ok run', w') => fetched tid n' run' w'
      | (Raise e, w') => (Raise e, w')
      end
  end.

(** The [n]-th status of the sequence exists and is queued or in progress. *)
Definition pending_at (tid : option string) (run : Run) (w : W) (n : nat)
  : Prop :=
  exists r w', fetched tid n run w = (Ok r, w') /\ pending (status r) = true.

(** The sequence leaves {queued, in_progress} for the first time at index
    [n], with run [r], the service being then in state [w']. *)
Definition terminal_at (tid : option string) (run : Run) (w : W)
    (n : nat) (r : Run) (w' : W) : Prop :=
  (forall i, i < n -> pending_at tid run w i)
  /\ fetched tid n run w = (Ok r, w')
  /\ pending (status r) = false.

(** With conversation handle [tid] and assistant handle [aid], the user
    message is accepted and a run started: the first two steps of a turn
    succeed. *)
Definition run_started (tid aid : option string) (prompt : string) (w : W)
    (run : Run) (w' : W) : Prop :=
  exists m w1,
    threads_messages_create client tid "user" prompt w = (Ok m, w1)
    /\ threads_runs_create client tid aid w1 = (Ok run, w').

(** The turn's run reaches the terminal run [r] after [n] status fetches. *)
Definition run_reaches (tid aid : option string) (prompt : string) (w : W)
    (n : nat) (r : Run) (w' : W) : Prop :=
  exists run w2,
    run_started tid aid prompt w run w2
    /\ terminal_at tid run w2 n r w'.

(** Text of the most recent entry of a message list (most recent first):
    what [messages.data[0].content[0].text.value] denotes when every
    subscript and attribute exists. *)
Definition most_recent_text (p : MessagePage) : option string :=
  match data p with
  | m :: _ =>
      match msg_content m with
      | TextContentBlock t :: _ => Some (value t)
      | _ => None
      end
  | [] => None
  end.

(** The file uploads of index provisioning: for each file in order, a
    client is built from the environment and [files.create] called on it,
    stopping at the first of these that raises. *)
Fixpoint files_uploaded (streams : list (string * list byte)) (w : W)
  : result (list FileObject) * W :=
  match streams with
  | [] => (Ok [], w)
  | file :: rest =>
      match openai_default_client client w with
      | (Ok _, w0) =>
          match files_create client file "assistants" w0 with
          | (Ok f, w1) =>
              match files_uploaded rest w1 with
              | (Ok fs, w2) => (Ok (f :: fs), w2)
              | (Raise e, w2) => (Raise e, w2)
              end
          | (Raise e, w1) => (Raise e, w1)
          end
      | (Raise e, w0) => (Raise e, w0)
      end
  end.

Definition file_streams_of (files : list UploadedFile)
  : list (string * list byte) :=
  map (fun uploaded_file => (name uploaded_file, getvalue uploaded_file)) files.

(** A step of index provisioning raises [e]: creating the store, building
    the client for one of the files, uploading that file, or uploading and
    polling the batch.  A batch that is returned, whatever status it
    reports, is no such failure. *)
Inductive index_provisioning_fails (files : list UploadedFile) (w : W)
    (e : Exception) (w' : W) : Prop :=
| store_creation_fails :
    vector_stores_create client "Company Documents POC" w = (Raise e, w') ->
    index_provisioning_fails files w e w'
| file_upload_fails v w1 :
    vector_stores_create client "Company Documents POC" w = (Ok v, w1) ->
    files_uploaded (file_streams_of files) w1 = (Raise e, w') ->
    index_provisioning_fails files w e w'
| indexing_fails v w1 fs w2 :
    vector_stores_create client "Company Documents POC" w = (Ok v, w1) ->
    files_uploaded (file_streams_of files) w1 = (Ok fs, w2) ->
    file_batches_upload_and_poll client (vs_id v) fs w2 = (Raise e, w') ->
    index_provisioning_fails files w e w'.

(** The turn fails: a step of [get_assistant_response] raises, or the run
    ends in a status other than completed.  [n] counts the status fetches
    made before the failure shows. *)
Inductive turn_fails (tid aid : option string) (prompt : string) (w : W)
  : nat -> W -> Prop :=
| append_fails e w' :
    threads_messages_create client tid "user" prompt w = (Raise e, w') ->
    turn_fails tid aid prompt w 0 w'
| start_fails m w1 e w' :
    threads_messages_create client tid "user" prompt w = (Ok m, w1) ->
    threads_runs_create client tid aid w1 = (Raise e, w') ->
    turn_fails tid aid prompt w 0 w'
| fetch_fails run w2 n e w' :
    run_started tid aid prompt w run w2 ->
    (forall i, i <= n -> pending_at tid run w2 i) ->
    fetched tid (S n) run w2 = (Raise e, w') ->
    turn_fails tid aid prompt w (S n) w'
| run_fails n r w' :
    run_reaches tid aid prompt w n r w' ->
    status r <> "completed" ->
    turn_fails tid aid prompt w n w'
| listing_fails n r w3 e w' :
    run_reaches tid aid prompt w n r w3 ->
    status r = "completed" ->
    threads_messages_list client tid w3 = (Raise e, w') ->
    turn_fails tid aid prompt w n w'
| reply_missing n r w3 p w' :
    run_reaches tid aid prompt w n r w3 ->
    status r = "completed" ->
    threads_messages_list client tid w3 = (Ok p, w') ->
    most_recent_text p = None ->
    turn_fails tid aid prompt w n w'.

End Service.

(** How the result of a client call ends the call in the script. *)
Definition outcome_of {A} (r : result A) : Outcome A :=
  match r with
  | Ok a => Val a
  | Raise e => Exc e
  end.

(** A handle is set when the session-state entry holds something other than
    the [None] it starts with. *)
Definition is_set (h : option string) : Prop := h <> None.

(** The handles that are set form a prefix of (index, assistant,
    conversation). *)
Definition handles_prefix (ss : SessionState) : Prop :=
  (is_set (assistant_id ss) -> is_set (vector_store_id ss))
  /\ (is_set (thread_id ss) -> is_set (assistant_id ss)).

(** A handle after a piece of the script is the one stored before, or one
    the service issued in the meantime. *)
Definition kept_or_issued (before after : option string)
    (issued : list string) : Prop :=
  after = before \/ exists h, after = Some h /\ In h issued.

(** What one piece of the script may do to the handles, reading the session
    state before and after it and the events it logged in between: no handle
    goes back to unset, the prefix shape is kept, and each handle is either
    the one it was or one the service issued in the meantime. *)
Record session_step (ss : SessionState) (l : list Event) (ss' : SessionState)
  : Prop := {
  keeps_index : is_set (vector_store_id ss) -> is_set (vector_store_id ss');
  keeps_assistant : is_set (assistant_id ss) -> is_set (assistant_id ss');
  keeps_thread : is_set (thread_id ss) -> is_set (thread_id ss');
  keeps_prefix : handles_prefix ss -> handles_prefix ss';
  index_source :
    kept_or_issued (vector_store_id ss) (vector_store_id ss')
      (stores_issued l);
  assistant_source :
    kept_or_issued (assistant_id ss) (assistant_id ss') (assistants_issued l);
  thread_source :
    kept_or_issued (thread_id ss) (thread_id ss') (threads_issued l)
}.

(** A computation all of whose runs are such steps. *)
Definition respects {W A} (m : M W A) : Prop :=
  forall s, let '(o, l, s') := m s in session_step (session s) l (session s').

(** The same for runs that start with the assistant handle set, as every
    run of the chat interface does. *)
Definition respects_when_ready {W A} (m : M W A) : Prop :=
  forall s,
    is_set (assistant_id (session s)) ->
    let '(o, l, s') := m s in session_step (session s) l (session s').

(** ** Two concrete services *)

(** A scripted service: each endpoint answers from its own list, one entry
    per call, and raises a connection error once the list is used up.
    Building a client, with either key, always works. *)
Module Scripted.

Record World := {
  vector_stores : list (result VectorStore);
  file_objects : list (result FileObject);
  file_batches : list (result FileBatch);
  assistants : list (result Assistant);
  threads : list (result Thread);
  sent_messages : list (result Message);
  started_runs : list (result Run);
  run_fetches : list (result Run);
  message_pages : list (result MessagePage)
}.

Definition connection_error : Exception := APIError "Connection error.".

Definition next {A} (script : list (result A)) : result A * list (result A) :=
  match script with
  | r :: rest => (r, rest)
  | [] => (Raise connection_error, [])
  end.

Definition client : Client World := {|
  openai_client := fun _ w => (Ok tt, w);
  openai_default_client := fun w => (Ok tt, w);
  vector_stores_create := fun _ w =>
    let '(r, rest) := next (vector_stores w) in
    (r, {| vector_stores := rest; file_objects := file_objects w;
           file_batches := file_batches w; assistants := assistants w;
           threads := threads w; sent_messages := sent_messages w;
           started_runs := started_runs w; run_fetches := run_fetches w;
           message_pages := message_pages w |});
  files_create := fun _ _ w =>
    let '(r, rest) := next (file_objects w) in
    (r, {| vector_stores := vector_stores w; file_objects := rest;
           file_batches := file_batches w; assistants := assistants w;
           threads := threads w; sent_messages := sent_messages w;
           started_runs := started_runs w; run_fetches := run_fetches w;
           message_pages := message_pages w |});
  file_batches_upload_and_poll := fun _ _ w =>
    let '(r, rest) := next (file_batches w) in
    (r, {| vector_stores := vector_stores w; file_objects := file_objects w;
           file_batches := rest; assistants := assistants w;
           threads := threads w; sent_messages := sent_messages w;
           started_runs := started_runs w; run_fetches := run_fetches w;
           message_pages := message_pages w |});
  assistants_create := fun _ _ _ _ _ w =>
    let '(r, rest) := next (assistants w) in
    (r, {| vector_stores := vector_stores w; file_objects := file_objects w;
           file_batches := file_batches w; assistants := rest;
           threads := threads w; sent_messages := sent_messages w;
           started_runs := started_runs w; run_fetches := run_fetches w;
           message_pages := message_pages w |});
  threads_create := fun w =>
    let '(r, rest) := next (threads w) in
    (r, {| vector_stores := vector_stores w; file_objects := file_objects w;
           file_batches := file_batches w; assistants := assistants w;
           threads := rest; sent_messages := sent_messages w;
           started_runs := started_runs w; run_fetches := run_fetches w;
           message_pages := message_pages w |});
  threads_messages_create := fun _ _ _ w =>
    let '(r, rest) := next (sent_messages w) in
    (r, {| vector_stores := vector_stores w; file_objects := file_objects w;
           file_batches := file_batches w; assistants := assistants w;
           threads := threads w; sent_messages := rest;
           started_runs := started_runs w; run_fetches := run_fetches w;
           message_pages := message_pages w |});
  threads_runs_create := fun _ _ w =>
    let '(r, rest) := next (started_runs w) in
    (r, {| vector_stores := vector_stores w; file_objects := file_objects w;
           file_batches := file_batches w; assistants := assistants w;
           threads := threads w; sent_messages := sent_messages w;
           started_runs := rest; run_fetches := run_fetches w;
           message_pages := message_pages w |});
  threads_runs_retrieve := fun _ _ w =>
    let '(r, rest) := next (run_fetches w) in
    (r, {| vector_stores := vector_stores w; file_objects := file_objects w;
           file_batches := file_batches w; assistants := assistants w;
           threads := threads w; sent_messages := sent_messages w;
           started_runs := started_runs w; run_fetches := rest;
           message_pages := message_pages w |});
  threads_messages_list := fun _ w =>
    let '(r, rest) := next (message_pages w) in
    (r, {| vector_stores := vector_stores w; file_objects := file_objects w;
           file_batches := file_batches w; assistants := assistants w;
           threads := threads w; sent_messages := sent_messages w;
           started_runs := started_runs w; run_fetches := run_fetches w;
           message_pages := rest |})
|}.

(** A service with nothing scripted: every call raises. *)
Definition offline : World :=
  {| vector_stores := []; file_objects := []; file_batches := [];
     assistants := []; threads := []; sent_messages := [];
     started_runs := []; run_fetches := []; message_pages := [] |}.

Definition text_message (r t : string) : Message :=
  {| msg_role := r; msg_content := [TextContentBlock {| value := t |}] |}.

(** One chat turn: the message is accepted, the run starts with the first
    status and is then fetched with the others, and the message list is
    answered by [page]. *)
Definition turn (first_status : string) (later : list string)
    (page : result MessagePage) : World :=
  {| vector_stores := []; file_objects := []; file_batches := [];
     assistants := []; threads := [];
     sent_messages := [Ok (text_message "user" "")];
     started_runs := [Ok {| run_id := "run_1"; status := first_status |}];
     run_fetches :=
       map (fun s => Ok {| run_id := "run_1"; status := s |}) later;
     message_pages := [page] |}.

(** The same service once the run has started, the statuses [later] still
    to be fetched; and once they all have been. *)
Definition polling (later : list string) (page : result MessagePage) : World :=
  {| vector_stores := []; file_objects := []; file_batches := [];
     assistants := []; threads := []; sent_messages := [];
     started_runs := [];
     run_fetches :=
       map (fun s => Ok {| run_id := "run_1"; status := s |}) later;
     message_pages := [page] |}.

Definition polled (page : result MessagePage) : World := polling [] page.

(** A session that went through setup. *)
Definition ready : SessionState :=
  {| messages := [];
     assistant_id := Some "asst_1";
     thread_id := Some "thread_1";
     vector_store_id := Some "vs_1" |}.

(** Widget values of a click on the setup button with one file chosen, and
    of a click on the clear-chat button. *)
Definition setup_click : Inputs :=
  {| api_key_input := "sk-test";
     uploaded_files := [{| name := "report.txt"; getvalue := [] |}];
     setup_button := true;
     chat_input := None;
     clear_chat_button := false |}.

Definition clear_click : Inputs :=
  {| api_key_input := "sk-test";
     uploaded_files := [{| name := "report.txt"; getvalue := [] |}];
     setup_button := false;
     chat_input := None;
     clear_chat_button := true |}.

(** A service that carries one setup through and is offline afterwards. *)
Definition one_setup : World :=
  {| vector_stores := [Ok {| vs_id := "vs_1" |}];
     file_objects := [Ok {| file_id := "file_1" |}];
     file_batches := [Ok {| batch_status := "completed" |}];
     assistants := [Ok {| asst_id := "asst_1" |}];
     threads := [Ok {| th_id := "thread_1" |}];
     sent_messages := []; started_runs := []; run_fetches := [];
     message_pages := [] |}.

(** A service that answers one setup without raising, but whose batch
    comes back with status failed: the files were not indexed. *)
Definition unindexed_setup : World :=
  {| vector_stores := [Ok {| vs_id := "vs_1" |}];
     file_objects := [Ok {| file_id := "file_1" |}];
     file_batches := [Ok {| batch_status := "failed" |}];
     assistants := [Ok {| asst_id := "asst_1" |}];
     threads := [Ok {| th_id := "thread_1" |}];
     sent_messages := []; started_runs := []; run_fetches := [];
     message_pages := [] |}.

(** The service [one_setup] once its store has been created. *)
Definition store_created : World :=
  {| vector_stores := [];
     file_objects := [Ok {| file_id := "file_1" |}];
     file_batches := [Ok {| batch_status := "completed" |}];
     assistants := [Ok {| asst_id := "asst_1" |}];
     threads := [Ok {| th_id := "thread_1" |}];
     sent_messages := []; started_runs := []; run_fetches := [];
     message_pages := [] |}.

(** A service that only has conversations to hand out. *)
Definition with_threads (ids : list string) : World :=
  {| vector_stores := []; file_objects := []; file_batches := [];
     assistants := [];
     threads := map (fun h => Ok {| th_id := h |}) ids;
     sent_messages := []; started_runs := []; run_fetches := [];
     message_pages := [] |}.

End Scripted.

(** A service whose runs never finish: every status fetch answers
    in_progress. *)
Module Stalled.

Definition run : Run := {| run_id := "run_1"; status := "in_progress" |}.

Definition client : Client unit := {|
  openai_client := fun _ w => (Ok tt, w);
  openai_default_client := fun w => (Ok tt, w);
  vector_stores_create := fun _ w => (Ok {| vs_id := "vs_1" |}, w);
  files_create := fun _ _ w => (Ok {| file_id := "file_1" |}, w);
  file_batches_upload_and_poll := fun _ _ w =>
    (Ok {| batch_status := "completed" |}, w);
  assistants_create := fun _ _ _ _ _ w => (Ok {| asst_id := "asst_1" |}, w);
  threads_create := fun w => (Ok {| th_id := "thread_1" |}, w);
  threads_messages_create := fun _ r c w =>
    (Ok {| msg_role := r;
           msg_content := [TextContentBlock {| value := c |}] |}, w);
  threads_runs_create := fun _ _ w =>
    (Ok {| run_id := "run_1"; status := "queued" |}, w);
  threads_runs_retrieve := fun _ _ w => (Ok run, w);
  threads_messages_list := fun _ w => (Ok {| data := [] |}, w)
|}.

End Stalled.

(** The scripted turn with statuses queued, in_progress, in_progress,
    completed: starting the run answers queued; the three fetches answer
    in_progress, in_progress, completed. *)
Definition scripted_turn : State Scripted.World :=
  {| session := Scripted.ready;
     world :=
       Scripted.turn "queued" ["in_progress"; "in_progress"; "completed"]
         (Ok {| data := [Scripted.text_message "assistant" "answer"] |}) |}.

(** ** Further readings of the log *)

(** The requests sent, in order. *)
Fixpoint requests (l : list Event) : list Request :=
  match l with
  | [] => []
  | Call req _ :: l' => req :: requests l'
  | _ :: l' => requests l'
  end.

Definition is_messages_create (req : Request) : bool :=
  match req with MessagesCreate _ _ _ => true | _ => false end.
Definition is_runs_create (req : Request) : bool :=
  match req with RunsCreate _ _ => true | _ => false end.
Definition is_messages_list (req : Request) : bool :=
  match req with MessagesList _ => true | _ => false end.
Definition is_threads_create (req : Request) : bool :=
  match req with ThreadsCreate => true | _ => false end.

(** How many of the requests sent are of the given kind. *)
Definition count_requests (kind : Request -> bool) (l : list Event) : nat :=
  length (filter kind (requests l)).

(** A request of a turn (message, run start, status fetch, message list)
    carries the conversation handle [tid] and, for the run start, the
    assistant handle [aid]; other events are not constrained. *)
Definition turn_request_with (tid aid : option string) (ev : Event) : Prop :=
  match ev with
  | Call (MessagesCreate t _ _) _ => t = tid
  | Call (RunsCreate t a) _ => t = tid /\ a = aid
  | Call (RunsRetrieve t _) _ => t = tid
  | Call (MessagesList t) _ => t = tid
  | _ => True
  end.

(** A request of a turn carries handles that pass the truthiness test of
    the chat interface. *)
Definition turn_request_ready (ev : Event) : Prop :=
  match ev with
  | Call (MessagesCreate t _ _) _ => truthy t = true
  | Call (RunsCreate t a) _ => truthy t = true /\ truthy a = true
  | Call (RunsRetrieve t _) _ => truthy t = true
  | Call (MessagesList t) _ => truthy t = true
  | _ => True
  end.

(** An event of the polling loop run with conversation handle [tid]. *)
Definition poll_event (tid : option string) (ev : Event) : Prop :=
  match ev with
  | Sleep 1 => True
  | Call (RunsRetrieve t _) _ => t = tid
  | _ => False
  end.

(** No step of index provisioning raises: the store [v] is created, for
    every file the client is built from the environment and the file
    uploaded through it (giving [fs]), and the batch [b] is returned,
    whatever status it reports. *)
Definition index_provisioning_succeeds {W} (client : Client W)
    (files : list UploadedFile) (w : W)
    (v : VectorStore) (fs : list FileObject) (b : FileBatch) (w' : W)
  : Prop :=
  exists w1 w2,
    vector_stores_create client "Company Documents POC" w = (Ok v, w1)
    /\ files_uploaded client (file_streams_of files) w1 = (Ok fs, w2)
    /\ file_batches_upload_and_poll client (vs_id v) fs w2 = (Ok b, w').

(** ** Properties of whole computations *)

(** How a computation may end. *)
Inductive Ending : Type := Returns | Raises | Halts | RunsOn.

Definition ending {A} (o : Outcome A) : Ending :=
  match o with
  | Val _ => Returns
  | Exc _ => Raises
  | Halt _ => Halts
  | OutOfFuel => RunsOn
  end.

(** Every run of [m] ends in one of the [allowed] ways. *)
Definition ends_in {W A} (allowed : Ending -> bool) (m : M W A) : Prop :=
  forall s, allowed (ending (fst (fst (m s)))) = true.

Definition returns_only (k : Ending) : bool :=
  match k with Returns => true | _ => false end.
Definition returns_or_runs_on (k : Ending) : bool :=
  match k with Returns | RunsOn => true | _ => false end.
Definition may_raise (allowed : Ending -> bool) (k : Ending) : bool :=
  match k with Raises => true | _ => allowed k end.
Definition not_raising (k : Ending) : bool :=
  match k with Raises => false | _ => true end.

(** Every run of [m] relates the session state before, the events logged
    and the session state after by [R]. *)
Definition holds {W A} (R : SessionState -> list Event -> SessionState -> Prop)
    (m : M W A) : Prop :=
  forall s, let '(_, l, s') := m s in R (session s) l (session s').

(** The same of the run from one state. *)
Definition holds_at {W A}
    (R : SessionState -> list Event -> SessionState -> Prop)
    (m : M W A) (s : State W) : Prop :=
  let '(_, l, s') := m s in R (session s) l (session s').

(** The history after is the history before with turns added at the end. *)
Definition history_grows (ss : SessionState) (l : list Event)
    (ss' : SessionState) : Prop :=
  exists added, messages ss' = messages ss ++ added.

(** Every request of a turn in the log carries ready handles. *)
Definition turns_ready (ss : SessionState) (l : list Event)
    (ss' : SessionState) : Prop :=
  Forall turn_request_ready l.

(** One second was slept for each status fetch issued, and no more. *)
Definition sleeps_match_fetches (ss : SessionState) (l : list Event)
    (ss' : SessionState) : Prop :=
  slept l = repeat 1 (status_fetches l).

(** Requests that create something at the service for setup: a store, a
    file, a batch, an assistant or a conversation. *)
Definition is_provisioning_request (req : Request) : bool :=
  match req with
  | VectorStoresCreate _ | FilesCreate _ _ | FileBatchesUploadAndPoll _ _
  | AssistantsCreate _ _ _ _ _ | ThreadsCreate => true
  | _ => false
  end.

Definition provisions_nothing (ss : SessionState) (l : list Event)
    (ss' : SessionState) : Prop :=
  count_requests is_provisioning_request l = 0.

(** The exceptions raised by requests, in order. *)
Fixpoint raised (l : list Event) : list Exception :=
  match l with
  | [] => []
  | Call _ (Raise e) :: l' => e :: raised l'
  | _ :: l' => raised l'
  end.

(** The file objects the service returned for uploads, in order. *)
Fixpoint files_returned (l : list Event) : list FileObject :=
  match l with
  | [] => []
  | Call (FilesCreate _ _) (Ok (RFileObject f)) :: l' => f :: files_returned l'
  | _ :: l' => files_returned l'
  end.

(** The requests of the list comprehension of index provisioning when
    nothing raises: for each file, in order, a client built from the
    environment and the upload of the file through it. *)
Definition uploads_of (streams : list (string * list byte)) : list Request :=
  flat_map (fun file => [OpenAIFromEnvironment; FilesCreate file "assistants"])
           streams.

(** The requests of an index provisioning that goes through, for the store
    handle [v] and the file objects [fs]. *)
Definition index_requests (files : list UploadedFile) (v : string)
    (fs : list FileObject) : list Request :=
  VectorStoresCreate "Company Documents POC"
  :: uploads_of (file_streams_of files) ++ [FileBatchesUploadAndPoll v fs].

(** A scripted service in an environment without API key: the client typed
    in the sidebar works, the one built from the environment does not. *)
Module Keyless.

Definition missing_key : Exception :=
  APIError "The api_key client option must be set either by passing api_key to the client or by setting the OPENAI_API_KEY environment variable".

Definition client : Client Scripted.World := {|
  openai_client := openai_client Scripted.client;
  openai_default_client := fun w => (Raise missing_key, w);
  vector_stores_create := vector_stores_create Scripted.client;
  files_create := files_create Scripted.client;
  file_batches_upload_and_poll :=
    file_batches_upload_and_poll Scripted.client;
  assistants_create := assistants_create Scripted.client;
  threads_create := threads_create Scripted.client;
  threads_messages_create := threads_messages_create Scripted.client;
  threads_runs_create := threads_runs_create Scripted.client;
  threads_runs_retrieve := threads_runs_retrieve Scripted.client;
  threads_messages_list := threads_messages_list Scripted.client
|}.

End Keyless.

(** A service whose client cannot be built: the key is rejected. *)
Module Rejecting.

Definition bad_key : Exception := APIError "Incorrect API key provided.".

Definition client : Client unit := {|
  openai_client := fun _ w => (Raise bad_key, w);
  openai_default_client := openai_default_client Stalled.client;
  vector_stores_create := vector_stores_create Stalled.client;
  files_create := files_create Stalled.client;
  file_batches_upload_and_poll := file_batches_upload_and_poll Stalled.client;
  assistants_create := assistants_create Stalled.client;
  threads_create := threads_create Stalled.client;
  threads_messages_create := threads_messages_create Stalled.client;
  threads_runs_create := threads_runs_create Stalled.client;
  threads_runs_retrieve := threads_runs_retrieve Stalled.client;
  threads_messages_list := threads_messages_list Stalled.client
|}.

End Rejecting.

(** * Properties *)

Unset Implicit Arguments.

(** ** The polling loop *)

Section Polling.

Context {W : Type} (client : Client W).

Lemma wait_for_completion_done (fuel : nat) (run : Run) (s : State W) :
  pending (status run) = false ->
  wait_for_completion client fuel run s = (Val run, [], s).
Proof.
  intros Hp. destruct fuel; simpl; rewrite Hp; reflexivity.
Qed.

Lemma wait_for_completion_out_of_fuel (run : Run) (s : State W) :
  pending (status run) = true ->
  wait_for_completion client 0 run s = (OutOfFuel, [], s).
Proof.
  intros Hp. simpl. rewrite Hp. reflexivity.
Qed.

(** One iteration of the body: sleep one second, fetch, go round again. *)
Lemma wait_for_completion_step (fuel : nat) (run : Run) (s : State W) :
  pending (status run) = true ->
  wait_for_completion client (S fuel) run s =
  let tid := thread_id (session s) in
  match threads_runs_retrieve client tid (run_id run) (world s) with
  | (Ok run', w') =>
      let '(o, l, s') :=
        wait_for_completion client fuel run'
          {| session := session s; world := w' |} in
      (o, Sleep 1 :: Call (RunsRetrieve tid (run_id run)) (Ok (RRun run')) :: l,
       s')
  | (Raise e, w') =>
      (Exc e, [Sleep 1; Call (RunsRetrieve tid (run_id run)) (Raise e)],
       {| session := session s; world := w' |})
  end.
Proof.
  intros Hp. simpl. rewrite Hp.
  unfold bind, time_sleep, emit, session_get, call. simpl.
  destruct (threads_runs_retrieve client (thread_id (session s)) (run_id run)
              (world s)) as [[run'|e] w']; simpl; [|reflexivity].
  destruct (wait_for_completion client fuel run' _) as [[o l] s'].
  reflexivity.
Qed.

Lemma pending_at_0 tid run (w : W) :
  pending_at client tid run w 0 -> pending (status run) = true.
Proof.
  intros (r & w' & Hf & Hp). simpl in Hf. congruence.
Qed.

Lemma pending_at_S tid run (w : W) n run' w' :
  threads_runs_retrieve client tid (run_id run) w = (Ok run', w') ->
  pending_at client tid run w (S n) -> pending_at client tid run' w' n.
Proof.
  intros Hr (r & w2 & Hf & Hp). simpl in Hf. rewrite Hr in Hf.
  exists r, w2. split; assumption.
Qed.

Lemma pending_at_1_fetch tid run (w : W) :
  pending_at client tid run w 1 ->
  exists run' w', threads_runs_retrieve client tid (run_id run) w = (Ok run', w').
Proof.
  intros (r & w2 & Hf & _). simpl in Hf.
  destruct (threads_runs_retrieve client tid (run_id run) w) as [[run'|e] w'].
  - exists run', w'. reflexivity.
  - discriminate.
Qed.

(** While every status up to index [fuel] is pending, the loop spends all
    its fuel: [fuel] sleeps of one second, [fuel] fetches, and no exit. *)
Lemma wait_for_completion_keeps_polling (fuel : nat) :
  forall (run : Run) (s : State W),
    (forall i, i <= fuel ->
               pending_at client (thread_id (session s)) run (world s) i) ->
    exists l s',
      wait_for_completion client fuel run s = (OutOfFuel, l, s')
      /\ session s' = session s
      /\ polling_rounds l = Some fuel
      /\ status_fetches l = fuel
      /\ slept l = repeat 1 fuel.
Proof.
  induction fuel as [|fuel IH]; intros run s Hall.
  - exists [], s. rewrite wait_for_completion_out_of_fuel.
    + repeat split; reflexivity.
    + apply pending_at_0 with (tid := thread_id (session s)) (w := world s).
      apply Hall. lia.
  - assert (Hp : pending (status run) = true).
    { apply pending_at_0 with (tid := thread_id (session s)) (w := world s).
      apply Hall. lia. }
    destruct (pending_at_1_fetch _ _ _ (Hall 1 ltac:(lia)))
      as (run' & w' & Hr).
    rewrite wait_for_completion_step by assumption. cbv zeta. rewrite Hr.
    destruct (IH run' {| session := session s; world := w' |})
      as (l & s' & Hw & Hs & Hrounds & Hn & Hsl).
    { intros i Hi. simpl. apply (pending_at_S _ _ _ _ _ _ Hr). apply Hall. lia. }
    rewrite Hw. eexists _, s'. split; [reflexivity|].
    repeat split.
    + exact Hs.
    + simpl. rewrite Hrounds. reflexivity.
    + unfold status_fetches in *. simpl. rewrite Hn. reflexivity.
    + simpl. rewrite Hsl. reflexivity.
Qed.

(** If the status sequence first leaves {queued, in_progress} at index [n],
    the loop exits with that run after exactly [n] iterations, given fuel for
    them. *)
Lemma wait_for_completion_terminal (n : nat) :
  forall (fuel : nat) (run : Run) (s : State W) (r : Run) (w' : W),
    n <= fuel ->
    terminal_at client (thread_id (session s)) run (world s) n r w' ->
    exists l,
      wait_for_completion client fuel run s
      = (Val r, l, {| session := session s; world := w' |})
      /\ status_fetches l = n
      /\ slept l = repeat 1 n
      /\ errors_shown l = []
      /\ polling_rounds l = Some n.
Proof.
  induction n as [|n IH]; intros fuel run s r w' Hfuel (Hbefore & Hf & Hp).
  - simpl in Hf. injection Hf as Hrun Hw. subst r w'.
    rewrite wait_for_completion_done by assumption.
    exists []. destruct s; repeat split; reflexivity.
  - destruct fuel as [|fuel]; [lia|].
    assert (Hp0 : pending (status run) = true).
    { apply pending_at_0 with (tid := thread_id (session s)) (w := world s).
      apply Hbefore. lia. }
    rewrite wait_for_completion_step by assumption. cbv zeta.
    simpl in Hf.
    destruct (threads_runs_retrieve client (thread_id (session s))
                (run_id run) (world s)) as [[run'|e] w1] eqn:Hr;
      [|discriminate].
    destruct (IH fuel run' {| session := session s; world := w1 |} r w')
      as (l & Hw & Hn & Hsl & Herr & Hrounds).
    { lia. }
    { split; [|split; assumption].
      intros i Hi. simpl. apply (pending_at_S _ _ _ _ _ _ Hr). apply Hbefore. lia. }
    rewrite Hw. simpl. eexists. split; [reflexivity|].
    repeat split.
    + unfold status_fetches in *. simpl. rewrite Hn. reflexivity.
    + simpl. rewrite Hsl. reflexivity.
    + simpl. exact Herr.
    + simpl. rewrite Hrounds. reflexivity.
Qed.

(** If the fetch number [S n] raises while every earlier status is pending,
    the exception leaves the loop. *)
Lemma wait_for_completion_raises (n : nat) :
  forall (fuel : nat) (run : Run) (s : State W) (e : Exception) (w' : W),
    S n <= fuel ->
    (forall i, i <= n ->
               pending_at client (thread_id (session s)) run (world s) i) ->
    fetched client (thread_id (session s)) (S n) run (world s)
    = (Raise e, w') ->
    exists l,
      wait_for_completion client fuel run s
      = (Exc e, l, {| session := session s; world := w' |})
      /\ errors_shown l = [].
Proof.
  induction n as [|n IH]; intros fuel run s e w' Hfuel Hall Hf;
    (destruct fuel as [|fuel]; [lia|]);
    assert (Hp0 : pending (status run) = true)
      by (apply pending_at_0 with (tid := thread_id (session s))
                                  (w := world s); apply Hall; lia);
    rewrite wait_for_completion_step by assumption; cbv zeta;
    simpl in Hf;
    destruct (threads_runs_retrieve client (thread_id (session s))
                (run_id run) (world s)) as [[run'|e'] w1] eqn:Hr.
  - destruct (Hall 0 ltac:(lia)) as (r0 & w0 & _ & _). discriminate.
  - injection Hf as -> ->. eexists. split; reflexivity.
  - destruct (IH fuel run' {| session := session s; world := w1 |} e w')
      as (l & Hw & Herr).
    { lia. }
    { intros i Hi. simpl. apply (pending_at_S _ _ _ _ _ _ Hr). apply Hall. lia. }
    { exact Hf. }
    rewrite Hw. simpl. eexists. split; [reflexivity|]. simpl. exact Herr.
  - destruct (pending_at_1_fetch _ _ _ (Hall 1 ltac:(lia)))
      as (r1 & w2 & Hr1).
    congruence.
Qed.

End Polling.

(** ** One turn: [get_assistant_response] *)

Section Turn.

Context {W : Type} (client : Client W).

Lemma errors_shown_app (l1 l2 : list Event) :
  errors_shown (l1 ++ l2) = errors_shown l1 ++ errors_shown l2.
Proof.
  induction l1 as [|ev l1 IH]; simpl; [reflexivity|].
  destruct ev as [req resp|secs|[] t|]; simpl; rewrite ?IH; reflexivity.
Qed.

Lemma status_fetches_app (l1 l2 : list Event) :
  status_fetches (l1 ++ l2) = status_fetches l1 + status_fetches l2.
Proof.
  unfold status_fetches. rewrite filter_app, length_app. reflexivity.
Qed.

Lemma provisioning_calls_app (l1 l2 : list Event) :
  provisioning_calls (l1 ++ l2) = provisioning_calls l1 + provisioning_calls l2.
Proof.
  unfold provisioning_calls. rewrite filter_app, length_app. reflexivity.
Qed.

Ltac run_turn :=
  unfold get_assistant_response, try_except, bind, session_get, call,
    st_error, emit, first, text_attr, ret, raise;
  cbn [session world].

Lemma get_assistant_response_append_fails fuel prompt (s : State W) e w' :
  threads_messages_create client (thread_id (session s)) "user" prompt (world s)
  = (Raise e, w') ->
  exists l,
    get_assistant_response client fuel prompt s
    = (Val None, l, {| session := session s; world := w' |})
    /\ errors_shown l = [("Error getting response: " ++ str e)%string]
    /\ status_fetches l = 0.
Proof.
  intros H. run_turn. rewrite H. cbn.
  eexists. split; [reflexivity|]. split; reflexivity.
Qed.

Lemma get_assistant_response_start_fails fuel prompt (s : State W) m w1 e w' :
  threads_messages_create client (thread_id (session s)) "user" prompt (world s)
  = (Ok m, w1) ->
  threads_runs_create client (thread_id (session s)) (assistant_id (session s))
    w1 = (Raise e, w') ->
  exists l,
    get_assistant_response client fuel prompt s
    = (Val None, l, {| session := session s; world := w' |})
    /\ errors_shown l = [("Error getting response: " ++ str e)%string]
    /\ status_fetches l = 0.
Proof.
  intros Hm Hr. run_turn. rewrite Hm. cbn [session world].
  rewrite Hr. cbn.
  eexists. split; [reflexivity|]. split; reflexivity.
Qed.

Lemma get_assistant_response_fetch_fails fuel prompt (s : State W)
    run w2 n e w' :
  run_started client (thread_id (session s)) (assistant_id (session s))
    prompt (world s) run w2 ->
  (forall i, i <= n -> pending_at client (thread_id (session s)) run w2 i) ->
  fetched client (thread_id (session s)) (S n) run w2 = (Raise e, w') ->
  S n <= fuel ->
  exists l,
    get_assistant_response client fuel prompt s
    = (Val None, l, {| session := session s; world := w' |})
    /\ errors_shown l = [("Error getting response: " ++ str e)%string].
Proof.
  intros (m & w1 & Hm & Hr) Hall Hf Hfuel.
  destruct (wait_for_completion_raises client n fuel run
              {| session := session s; world := w2 |} e w' Hfuel Hall Hf)
    as (lp & Hw & Herr).
  run_turn. rewrite Hm. cbn [session world]. rewrite Hr. cbn [session world].
  rewrite Hw. cbn [session world app].
  eexists. split; [reflexivity|].
  cbn [errors_shown]. rewrite errors_shown_app, Herr. reflexivity.
Qed.

(** Common start of the remaining cases: the run reaches a terminal status. *)
Ltac reach_terminal H Hfuel lp :=
  let run := fresh "run" in
  let w2 := fresh "w2" in
  let m := fresh "m" in
  let w1 := fresh "w1" in
  let Hm := fresh "Hm" in
  let Hr := fresh "Hr" in
  let Hterm := fresh "Hterm" in
  let Hw := fresh "Hw" in
  let Hn := fresh "Hn" in
  let Hsl := fresh "Hsl" in
  let Herr := fresh "Herr" in
  let Hrounds := fresh "Hrounds" in
  destruct H as (run & w2 & (m & w1 & Hm & Hr) & Hterm);
  match type of Hterm with
  | terminal_at _ _ _ _ ?n ?r ?w' =>
      match goal with
      | |- context [get_assistant_response _ ?fuel _ ?s] =>
          destruct (wait_for_completion_terminal client n fuel run
                      {| session := session s; world := w2 |} r w'
                      Hfuel Hterm)
            as (lp & Hw & Hn & Hsl & Herr & Hrounds)
      end
  end;
  run_turn; rewrite Hm; cbn [session world]; rewrite Hr; cbn [session world];
  rewrite Hw; cbn [session world].

Lemma get_assistant_response_run_fails fuel prompt (s : State W) n r w' :
  run_reaches client (thread_id (session s)) (assistant_id (session s))
      prompt (world s) n r w' ->
  status r <> "completed" ->
  n <= fuel ->
  exists l,
    get_assistant_response client fuel prompt s
    = (Val None, l, {| session := session s; world := w' |})
    /\ errors_shown l = [("Run failed with status: " ++ status r)%string]
    /\ status_fetches l = n.
Proof.
  intros H Hs Hfuel. reach_terminal H Hfuel lp.
  destruct (status r =? "completed") eqn:E.
  { apply String.eqb_eq in E. contradiction. }
  cbn [app]. eexists. split; [reflexivity|]. split.
  - cbn [errors_shown]. rewrite errors_shown_app, Herr. reflexivity.
  - change (status_fetches (?a :: ?b :: ?l)) with (status_fetches l).
    rewrite status_fetches_app, Hn. cbn. lia.
Qed.

Lemma get_assistant_response_listing_fails fuel prompt (s : State W)
    n r w3 e w' :
  run_reaches client (thread_id (session s)) (assistant_id (session s))
      prompt (world s) n r w3 ->
  status r = "completed" ->
  threads_messages_list client (thread_id (session s)) w3 = (Raise e, w') ->
  n <= fuel ->
  exists l,
    get_assistant_response client fuel prompt s
    = (Val None, l, {| session := session s; world := w' |})
    /\ errors_shown l = [("Error getting response: " ++ str e)%string].
Proof.
  intros H Hs Hl Hfuel. reach_terminal H Hfuel lp.
  rewrite Hs. cbn [String.eqb Ascii.eqb Bool.eqb andb]. cbn [session world].
  rewrite Hl. cbn [session world app].
  eexists. split; [reflexivity|].
  cbn [errors_shown]. rewrite !errors_shown_app, Herr. reflexivity.
Qed.

Lemma get_assistant_response_reply_missing fuel prompt (s : State W)
    n r w3 p w' :
  run_reaches client (thread_id (session s)) (assistant_id (session s))
      prompt (world s) n r w3 ->
  status r = "completed" ->
  threads_messages_list client (thread_id (session s)) w3 = (Ok p, w') ->
  most_recent_text p = None ->
  n <= fuel ->
  exists l e,
    get_assistant_response client fuel prompt s
    = (Val None, l, {| session := session s; world := w' |})
    /\ errors_shown l = [("Error getting response: " ++ str e)%string].
Proof.
  intros H Hs Hl Hnone Hfuel. reach_terminal H Hfuel lp.
  rewrite Hs. cbn [String.eqb Ascii.eqb Bool.eqb andb]. cbn [session world].
  rewrite Hl. cbn [session world app].
  unfold most_recent_text in Hnone.
  destruct (data p) as [|m0 ms]; cbn [app].
  - eexists _, _. split; [reflexivity|].
    cbn [errors_shown]. rewrite !errors_shown_app, Herr. reflexivity.
  - destruct (msg_content m0) as [|[t|img] cs]; [|discriminate|]; cbn [app].
    + eexists _, _. split; [reflexivity|].
      cbn [errors_shown]. rewrite !errors_shown_app, Herr. reflexivity.
    + eexists _, _. split; [reflexivity|].
      cbn [errors_shown]. rewrite !errors_shown_app, Herr. reflexivity.
Qed.

Lemma get_assistant_response_reply fuel prompt (s : State W) n r w3 p w' t :
  run_reaches client (thread_id (session s)) (assistant_id (session s))
      prompt (world s) n r w3 ->
  status r = "completed" ->
  threads_messages_list client (thread_id (session s)) w3 = (Ok p, w') ->
  most_recent_text p = Some t ->
  n <= fuel ->
  exists l,
    get_assistant_response client fuel prompt s
    = (Val (Some t), l, {| session := session s; world := w' |})
    /\ errors_shown l = []
    /\ status_fetches l = n.
Proof.
  intros H Hs Hl Hsome Hfuel. reach_terminal H Hfuel lp.
  rewrite Hs. cbn [String.eqb Ascii.eqb Bool.eqb andb]. cbn [session world].
  rewrite Hl. cbn [session world app].
  unfold most_recent_text in Hsome.
  destruct (data p) as [|m0 ms]; [discriminate|]. cbn [app].
  destruct (msg_content m0) as [|[t0|img] cs]; try discriminate.
  injection Hsome as <-. cbn [app].
  eexists. split; [reflexivity|]. split.
  - cbn [errors_shown]. rewrite !errors_shown_app, Herr. reflexivity.
  - change (status_fetches (?a :: ?b :: ?l)) with (status_fetches l).
    rewrite !status_fetches_app, Hn. cbn. lia.
Qed.

(** Every way for the turn to fail ends the same way: no reply, one error
    shown, session state untouched. *)
Lemma get_assistant_response_turn_fails fuel prompt (s : State W) n w' :
  turn_fails client (thread_id (session s)) (assistant_id (session s))
      prompt (world s) n w' ->
  n <= fuel ->
  exists l err,
    get_assistant_response client fuel prompt s
    = (Val None, l, {| session := session s; world := w' |})
    /\ errors_shown l = [err].
Proof.
  intros Hfail Hfuel.
  destruct Hfail as [e w' H | m w1 e w' Hm Hr | run w2 n e w' Hst Hall Hf
                    | n r w' Hreach Hs | n r w3 e w' Hreach Hs Hl
                    | n r w3 p w' Hreach Hs Hl Hnone].
  - destruct (get_assistant_response_append_fails fuel _ _ _ _ H)
      as (l & Hrun & Herr & _). eauto.
  - destruct (get_assistant_response_start_fails fuel _ _ _ _ _ _ Hm Hr)
      as (l & Hrun & Herr & _). eauto.
  - destruct (get_assistant_response_fetch_fails
                fuel _ _ _ _ _ _ _ Hst Hall Hf Hfuel)
      as (l & Hrun & Herr). eauto.
  - destruct (get_assistant_response_run_fails fuel _ _ _ _ _ Hreach Hs Hfuel)
      as (l & Hrun & Herr & _). eauto.
  - destruct (get_assistant_response_listing_fails
                fuel _ _ _ _ _ _ _ Hreach Hs Hl Hfuel)
      as (l & Hrun & Herr). eauto.
  - destruct (get_assistant_response_reply_missing
                fuel _ _ _ _ _ _ _ Hreach Hs Hl Hnone Hfuel)
      as (l & e & Hrun & Herr). eauto.
Qed.

End Turn.

(** ** The chat input handler *)

Section Chat.

Context {W : Type} (client : Client W).

(** The handler, given what [get_assistant_response] returned. *)
Lemma chat_input_handler_returned fuel prompt (s : State W) resp l s' :
  truthy_str prompt = true ->
  get_assistant_response client fuel prompt (with_user_turn prompt s)
  = (Val resp, l, s') ->
  chat_input_handler client fuel (Some prompt) s =
  match resp with
  | Some reply =>
      if truthy_str reply then
        (Val tt,
         Ui (StChatMessage "user") prompt :: l
           ++ [Ui (StChatMessage "assistant") reply],
         {| session :=
              set_messages (messages (session s') ++ [assistant_turn reply])
                (session s');
            world := world s' |})
      else
        (Val tt,
         Ui (StChatMessage "user") prompt :: l
           ++ [Ui StError "Failed to get response from assistant"],
         s')
  | None =>
      (Val tt,
       Ui (StChatMessage "user") prompt :: l
         ++ [Ui StError "Failed to get response from assistant"],
       s')
  end.
Proof.
  intros Hp Hrun. unfold chat_input_handler. cbn [truthy]. rewrite Hp.
  unfold bind at 1. unfold session_get at 1.
  unfold bind at 1. unfold session_set at 1.
  unfold bind at 1. unfold st_chat_message at 1. unfold emit at 1.
  unfold bind at 1. cbn [session world].
  unfold with_user_turn, user_turn in Hrun. rewrite Hrun.
  destruct resp as [reply|]; cbn [truthy].
  - destruct (truthy_str reply).
    + unfold bind, session_get, session_set, st_chat_message, emit.
      cbn [session world app]. reflexivity.
    + unfold st_error, emit. cbn [session world app]. reflexivity.
  - unfold st_error, emit. cbn [session world app]. reflexivity.
Qed.

End Chat.

(** ** Claims about a turn *)

(** C7.  When the turn's run ends in a terminal status other than completed,
    [get_assistant_response] returns [None] (no reply) after showing one
    error, "Run failed with status: " followed by that status; the chat
    handler then leaves the history at the previous turns plus the user's
    message, with no assistant turn. *)
Theorem failed_run_reports_status_without_reply :
  forall (W : Type) (client : Client W) (fuel : nat) (prompt : string)
         (s : State W) (n : nat) (r : Run) (w' : W),
    truthy_str prompt = true ->
    run_reaches client (thread_id (session s)) (assistant_id (session s))
      prompt (world s) n r w' ->
    status r <> "completed" ->
    n <= fuel ->
    (exists l,
        get_assistant_response client fuel prompt s
        = (Val None, l, {| session := session s; world := w' |})
        /\ errors_shown l = [("Run failed with status: " ++ status r)%string])
    /\ (exists l,
           chat_input_handler client fuel (Some prompt) s
           = (Val tt, l,
              {| session :=
                   set_messages (messages (session s) ++ [user_turn prompt])
                     (session s);
                 world := w' |})
           /\ errors_shown l
              = [("Run failed with status: " ++ status r)%string;
                 "Failed to get response from assistant"]).
Proof.
  intros W client fuel prompt s n r w' Hp Hreach Hs Hfuel. split.
  - destruct (get_assistant_response_run_fails client fuel prompt s n r w'
                Hreach Hs Hfuel) as (l & Hrun & Herr & _).
    exists l. split; assumption.
  - destruct (get_assistant_response_run_fails client fuel prompt
                (with_user_turn prompt s) n r w' Hreach Hs Hfuel)
      as (l & Hrun & Herr & _).
    rewrite (chat_input_handler_returned client fuel prompt s None l _ Hp Hrun).
    eexists. split; [reflexivity|].
    cbn [errors_shown]. rewrite errors_shown_app, Herr. reflexivity.
Qed.

(** Discharges [forall i, i < n -> pending_at ...] on a scripted service. *)
Ltac scripted_pending :=
  let i := fresh "i" in
  let Hi := fresh "Hi" in
  intros i Hi;
  repeat (destruct i as [|i]; [eexists _, _; split; reflexivity|]);
  lia.

Ltac scripted_run_reaches :=
  eexists _, _; split;
  [ eexists _, _; split; reflexivity
  | split; [scripted_pending | split; reflexivity] ].

Lemma failed_run_witness :
  let page := Ok {| data := [Scripted.text_message "assistant" "answer"] |} in
  let s := {| session := Scripted.ready;
              world := Scripted.turn "queued" ["in_progress"; "failed"] page |}
  in
  exists l,
    chat_input_handler Scripted.client 2 (Some "hi") s
    = (Val tt, l,
       {| session := set_messages [user_turn "hi"] Scripted.ready;
          world := Scripted.polled page |})
    /\ errors_shown l
       = ["Run failed with status: failed";
          "Failed to get response from assistant"].
Proof.
  intros page s.
  apply (failed_run_reports_status_without_reply
           Scripted.World Scripted.client 2 "hi" s 2
           {| run_id := "run_1"; status := "failed" |}
           (Scripted.polled page)).
  - reflexivity.
  - scripted_run_reaches.
  - discriminate.
  - lia.
Defined.

(** C2, as amended.  When the turn's run ends completed, the message list is
    then fetched successfully and the text of its most recent entry is not
    empty, the chat handler appends exactly one assistant turn, after the
    user's, and its content is that text. *)
Theorem completed_run_appends_most_recent_text :
  forall (W : Type) (client : Client W) (fuel : nat) (prompt : string)
         (s : State W) (n : nat) (r : Run) (w3 : W) (p : MessagePage)
         (w' : W) (t : string),
    truthy_str prompt = true ->
    run_reaches client (thread_id (session s)) (assistant_id (session s))
      prompt (world s) n r w3 ->
    status r = "completed" ->
    threads_messages_list client (thread_id (session s)) w3 = (Ok p, w') ->
    most_recent_text p = Some t ->
    t <> "" ->
    n <= fuel ->
    exists l,
      chat_input_handler client fuel (Some prompt) s
      = (Val tt, l,
         {| session :=
              set_messages
                (messages (session s) ++ [user_turn prompt; assistant_turn t])
                (session s);
            world := w' |})
      /\ errors_shown l = [].
Proof.
  intros W client fuel prompt s n r w3 p w' t Hp Hreach Hs Hl Ht Hne Hfuel.
  destruct (get_assistant_response_reply client fuel prompt
              (with_user_turn prompt s) n r w3 p w' t Hreach Hs Hl Ht Hfuel)
    as (l & Hrun & Herr & _).
  rewrite (chat_input_handler_returned client fuel prompt s (Some t) l _
             Hp Hrun).
  assert (Htruthy : truthy_str t = true).
  { unfold truthy_str. destruct (String.eqb_spec t ""); [contradiction|].
    reflexivity. }
  rewrite Htruthy. eexists. split.
  - unfold with_user_turn, set_messages.
    cbn [session world messages assistant_id thread_id vector_store_id].
    rewrite <- app_assoc. reflexivity.
  - cbn [errors_shown]. rewrite errors_shown_app, Herr. reflexivity.
Qed.

Lemma completed_run_witness :
  let page := Ok {| data := [Scripted.text_message "assistant" "answer"] |} in
  let s := {| session := Scripted.ready;
              world := Scripted.turn "queued" ["completed"] page |} in
  exists l,
    chat_input_handler Scripted.client 1 (Some "hi") s
    = (Val tt, l,
       {| session :=
            set_messages [user_turn "hi"; assistant_turn "answer"]
              Scripted.ready;
          world := Scripted.offline |})
    /\ errors_shown l = [].
Proof.
  intros page s.
  apply (completed_run_appends_most_recent_text
           Scripted.World Scripted.client 1 "hi" s 1
           {| run_id := "run_1"; status := "completed" |}
           (Scripted.polled page)
           {| data := [Scripted.text_message "assistant" "answer"] |}
           Scripted.offline "answer").
  - reflexivity.
  - scripted_run_reaches.
  - reflexivity.
  - reflexivity.
  - reflexivity.
  - discriminate.
  - lia.
Defined.

(** C2 as stated fails: the run ends completed, the message list cannot be
    fetched, and the history gains the user's turn only. *)
Lemma completed_run_without_assistant_turn :
  let page := Raise Scripted.connection_error in
  let s := {| session := Scripted.ready;
              world := Scripted.turn "queued" ["completed"] page |} in
  run_reaches Scripted.client (thread_id (session s)) (assistant_id (session s))
    "hi" (world s) 1
    {| run_id := "run_1"; status := "completed" |} (Scripted.polled page)
  /\ (let '(o, l, s') := chat_input_handler Scripted.client 1 (Some "hi") s in
      o = Val tt
      /\ observed_statuses l = ["queued"; "completed"]
      /\ messages (session s') = messages (session s) ++ [user_turn "hi"])
  /\ ~ (exists l s' t,
           chat_input_handler Scripted.client 1 (Some "hi") s = (Val tt, l, s')
           /\ messages (session s')
              = messages (session s) ++ [user_turn "hi"; assistant_turn t]).
Proof.
  intros page s. split; [scripted_run_reaches|]. split.
  - vm_compute. repeat split; reflexivity.
  - intros (l & s' & t & Hrun & Hm). vm_compute in Hrun.
    injection Hrun as _ Hs'. subst s'. discriminate Hm.
Qed.

(** C10.  When the run ends completed and the text of the most recent
    message is the empty string, [get_assistant_response] does return that
    reply, yet the chat handler, testing it for truthiness, appends no
    assistant turn and shows "Failed to get response from assistant". *)
Theorem empty_reply_is_treated_as_failure :
  forall (W : Type) (client : Client W) (fuel : nat) (prompt : string)
         (s : State W) (n : nat) (r : Run) (w3 : W) (p : MessagePage)
         (w' : W),
    truthy_str prompt = true ->
    run_reaches client (thread_id (session s)) (assistant_id (session s))
      prompt (world s) n r w3 ->
    status r = "completed" ->
    threads_messages_list client (thread_id (session s)) w3 = (Ok p, w') ->
    most_recent_text p = Some "" ->
    n <= fuel ->
    (exists l,
        get_assistant_response client fuel prompt (with_user_turn prompt s)
        = (Val (Some ""), l,
           {| session := session (with_user_turn prompt s); world := w' |})
        /\ errors_shown l = [])
    /\ (exists l,
           chat_input_handler client fuel (Some prompt) s
           = (Val tt, l,
              {| session :=
                   set_messages (messages (session s) ++ [user_turn prompt])
                     (session s);
                 world := w' |})
           /\ errors_shown l = ["Failed to get response from assistant"]).
Proof.
  intros W client fuel prompt s n r w3 p w' Hp Hreach Hs Hl Ht Hfuel.
  destruct (get_assistant_response_reply client fuel prompt
              (with_user_turn prompt s) n r w3 p w' "" Hreach Hs Hl Ht Hfuel)
    as (l & Hrun & Herr & _).
  split.
  - exists l. split; assumption.
  - rewrite (chat_input_handler_returned client fuel prompt s (Some "") l _
               Hp Hrun).
    cbn [truthy_str String.eqb negb]. eexists. split; [reflexivity|].
    cbn [errors_shown]. rewrite errors_shown_app, Herr. reflexivity.
Qed.

Lemma empty_reply_witness :
  let page := Ok {| data := [Scripted.text_message "assistant" ""] |} in
  let s := {| session := Scripted.ready;
              world := Scripted.turn "queued" ["completed"] page |} in
  exists l,
    chat_input_handler Scripted.client 1 (Some "hi") s
    = (Val tt, l,
       {| session := set_messages [user_turn "hi"] Scripted.ready;
          world := Scripted.offline |})
    /\ errors_shown l = ["Failed to get response from assistant"].
Proof.
  intros page s.
  apply (empty_reply_is_treated_as_failure
           Scripted.World Scripted.client 1 "hi" s 1
           {| run_id := "run_1"; status := "completed" |}
           (Scripted.polled page)
           {| data := [Scripted.text_message "assistant" ""] |}
           Scripted.offline).
  - reflexivity.
  - scripted_run_reaches.
  - reflexivity.
  - reflexivity.
  - reflexivity.
  - lia.
Defined.

(** C4.  When the turn fails, because some step of it raises or because the
    run ends in a status other than completed, the chat handler leaves the
    history at the previous turns, unchanged, followed by the one turn of
    the user; no assistant turn is added. *)
Theorem failed_turn_adds_only_the_user_turn :
  forall (W : Type) (client : Client W) (fuel : nat) (prompt : string)
         (s : State W) (n : nat) (w' : W),
    truthy_str prompt = true ->
    turn_fails client (thread_id (session s)) (assistant_id (session s))
      prompt (world s) n w' ->
    n <= fuel ->
    exists l err,
      chat_input_handler client fuel (Some prompt) s
      = (Val tt, l,
         {| session :=
              set_messages (messages (session s) ++ [user_turn prompt])
                (session s);
            world := w' |})
      /\ errors_shown l = [err; "Failed to get response from assistant"].
Proof.
  intros W client fuel prompt s n w' Hp Hfail Hfuel.
  destruct (get_assistant_response_turn_fails client fuel prompt
              (with_user_turn prompt s) n w' Hfail Hfuel)
    as (l & err & Hrun & Herr).
  rewrite (chat_input_handler_returned client fuel prompt s None l _ Hp Hrun).
  eexists _, err. split; [reflexivity|].
  cbn [errors_shown]. rewrite errors_shown_app, Herr. reflexivity.
Qed.

Lemma failed_turn_witness :
  let s := {| session :=
                set_messages [user_turn "hello"; assistant_turn "hi there"]
                  Scripted.ready;
              world := Scripted.turn "queued" ["in_progress"]
                         (Raise Scripted.connection_error) |} in
  exists l err,
    chat_input_handler Scripted.client 2 (Some "more") s
    = (Val tt, l,
       {| session :=
            set_messages
              [user_turn "hello"; assistant_turn "hi there"; user_turn "more"]
              Scripted.ready;
          world := Scripted.polled (Raise Scripted.connection_error) |})
    /\ errors_shown l = [err; "Failed to get response from assistant"].
Proof.
  intros s.
  apply (failed_turn_adds_only_the_user_turn
           Scripted.World Scripted.client 2 "more" s 2
           (Scripted.polled (Raise Scripted.connection_error))).
  - reflexivity.
  - apply fetch_fails
      with (run := {| run_id := "run_1"; status := "queued" |})
           (w2 := Scripted.polling ["in_progress"]
                    (Raise Scripted.connection_error))
           (e := Scripted.connection_error).
    + eexists _, _. split; reflexivity.
    + intros i Hi.
      repeat (destruct i as [|i]; [eexists _, _; split; reflexivity|]). lia.
    + reflexivity.
  - lia.
Defined.

(** ** Claims about the polling loop *)

(** C8.  The loop goes round, one second of sleep and one status fetch per
    round, exactly as long as the status at hand is queued or in progress.
    There is no bound of its own: while the statuses stay pending it uses up
    whatever number of rounds it is given, so on a sequence that stays
    pending for ever it never exits; and it exits at the first status that
    is not pending, after exactly as many rounds as statuses came before. *)
Theorem polling_continues_exactly_while_pending :
  forall (W : Type) (client : Client W) (run : Run) (s : State W),
    let tid := thread_id (session s) in
    (forall fuel,
        (forall i, i <= fuel -> pending_at client tid run (world s) i) ->
        exists l s',
          wait_for_completion client fuel run s = (OutOfFuel, l, s')
          /\ polling_rounds l = Some fuel)
    /\ ((forall i, pending_at client tid run (world s) i) ->
        forall fuel, exists l s',
          wait_for_completion client fuel run s = (OutOfFuel, l, s')
          /\ polling_rounds l = Some fuel)
    /\ (forall n r w',
           terminal_at client tid run (world s) n r w' ->
           forall fuel, n <= fuel ->
           exists l,
             wait_for_completion client fuel run s
             = (Val r, l, {| session := session s; world := w' |})
             /\ polling_rounds l = Some n
             /\ status_fetches l = n
             /\ slept l = repeat 1 n).
Proof.
  intros W client run s tid.
  assert (Hround :
            forall fuel,
              (forall i, i <= fuel -> pending_at client tid run (world s) i) ->
              exists l s',
                wait_for_completion client fuel run s = (OutOfFuel, l, s')
                /\ polling_rounds l = Some fuel).
  { intros fuel Hall.
    destruct (wait_for_completion_keeps_polling client fuel run s Hall)
      as (l & s' & Hw & _ & Hrounds & _).
    exists l, s'. split; assumption. }
  split; [exact Hround|]. split.
  - intros Hall fuel. apply Hround. intros i _. apply Hall.
  - intros n r w' Hterm fuel Hfuel.
    destruct (wait_for_completion_terminal client n fuel run s r w'
                Hfuel Hterm) as (l & Hw & Hn & Hsl & _ & Hrounds).
    exists l. repeat split; assumption.
Qed.

(** The stalled service answers in_progress to every fetch. *)
Lemma stalled_always_pending (tid : option string) (n : nat) :
  forall run, pending (status run) = true ->
              pending_at Stalled.client tid run tt n.
Proof.
  induction n as [|n IH]; intros run Hp.
  - exists run, tt. split; [reflexivity|exact Hp].
  - destruct (IH Stalled.run eq_refl) as (r & w' & Hf & Hr).
    exists r, w'. split; [exact Hf|exact Hr].
Qed.

Lemma polling_witness :
  (forall fuel, exists l s',
      wait_for_completion Stalled.client fuel
        {| run_id := "run_1"; status := "queued" |}
        {| session := Scripted.ready; world := tt |}
      = (OutOfFuel, l, s')
      /\ polling_rounds l = Some fuel)
  /\ (exists l,
         wait_for_completion Scripted.client 5
           {| run_id := "run_1"; status := "queued" |}
           {| session := Scripted.ready;
              world := Scripted.polling ["in_progress"; "expired"]
                         (Raise Scripted.connection_error) |}
         = (Val {| run_id := "run_1"; status := "expired" |}, l,
            {| session := Scripted.ready;
               world := Scripted.polled (Raise Scripted.connection_error) |})
         /\ polling_rounds l = Some 2
         /\ status_fetches l = 2
         /\ slept l = [1; 1]).
Proof.
  split.
  - destruct (polling_continues_exactly_while_pending
                unit Stalled.client
                {| run_id := "run_1"; status := "queued" |}
                {| session := Scripted.ready; world := tt |})
      as (_ & Hstalled & _).
    apply Hstalled.
    intros i. apply stalled_always_pending. reflexivity.
  - destruct (polling_continues_exactly_while_pending
                Scripted.World Scripted.client
                {| run_id := "run_1"; status := "queued" |}
                {| session := Scripted.ready;
                   world := Scripted.polling ["in_progress"; "expired"]
                              (Raise Scripted.connection_error) |})
      as (_ & _ & Hexit).
    apply (Hexit 2 {| run_id := "run_1"; status := "expired" |}
                 (Scripted.polled (Raise Scripted.connection_error))).
    + split; [scripted_pending | split; reflexivity].
    + lia.
Defined.

(** C1, as amended.  On the scripted statuses queued, in_progress,
    in_progress, completed, the first of which comes back from starting the
    run, the loop examines the four statuses in turn, issues exactly three
    status fetches, one for each status after the first and each after a
    sleep of one second, and leaves the loop on completed only: the next
    request is the message list, and the reply is returned; with fewer than
    three rounds allowed it is still in the loop. *)
Theorem scripted_statuses_take_three_fetches :
  forall fuel,
    (3 <= fuel ->
     get_assistant_response Scripted.client fuel "hi" scripted_turn
     = (Val (Some "answer"),
        [ Call (MessagesCreate (Some "thread_1") "user" "hi")
               (Ok (RMessage (Scripted.text_message "user" "")));
          Call (RunsCreate (Some "thread_1") (Some "asst_1"))
               (Ok (RRun {| run_id := "run_1"; status := "queued" |}));
          Sleep 1;
          Call (RunsRetrieve (Some "thread_1") "run_1")
               (Ok (RRun {| run_id := "run_1"; status := "in_progress" |}));
          Sleep 1;
          Call (RunsRetrieve (Some "thread_1") "run_1")
               (Ok (RRun {| run_id := "run_1"; status := "in_progress" |}));
          Sleep 1;
          Call (RunsRetrieve (Some "thread_1") "run_1")
               (Ok (RRun {| run_id := "run_1"; status := "completed" |}));
          Call (MessagesList (Some "thread_1"))
               (Ok (RMessagePage
                      {| data :=
                           [Scripted.text_message "assistant" "answer"] |})) ],
        {| session := Scripted.ready; world := Scripted.offline |})
     /\ (let '(_, l, _) :=
           get_assistant_response Scripted.client fuel "hi" scripted_turn in
         observed_statuses l
         = ["queued"; "in_progress"; "in_progress"; "completed"]
         /\ status_fetches l = 3
         /\ slept l = [1; 1; 1]))
    /\ (fuel < 3 ->
        let '(o, l, _) :=
          get_assistant_response Scripted.client fuel "hi" scripted_turn in
        o = OutOfFuel /\ status_fetches l = fuel).
Proof.
  intros fuel. split.
  - intros Hfuel.
    destruct fuel as [|[|[|[|fuel]]]]; try lia;
      (split; [reflexivity | cbv; repeat split]).
  - intros Hfuel.
    destruct fuel as [|[|[|fuel]]]; try lia; cbv; split; reflexivity.
Qed.

Lemma scripted_statuses_witness :
  let '(o, l, _) :=
    get_assistant_response Scripted.client 3 "hi" scripted_turn in
  o = Val (Some "answer") /\ status_fetches l = 3.
Proof.
  destruct (scripted_statuses_take_three_fetches 3) as [Hexit _].
  destruct (Hexit (le_n 3)) as [Hrun _].
  rewrite Hrun. split; reflexivity.
Defined.

(** C1 as stated fails: the loop issues three status fetches, not four. *)
Lemma scripted_statuses_not_four_fetches :
  let '(o, l, _) :=
    get_assistant_response Scripted.client 10 "hi" scripted_turn in
  o = Val (Some "answer")
  /\ observed_statuses l
     = ["queued"; "in_progress"; "in_progress"; "completed"]
  /\ status_fetches l <> 4.
Proof.
  vm_compute. repeat split. discriminate.
Qed.

(** The other way to script the same four statuses: starting the run answers
    queued as well, and all four listed statuses come back from fetches.
    Then the loop does issue four fetches. *)
Lemma four_fetched_statuses_take_four_fetches :
  let s := {| session := Scripted.ready;
              world :=
                Scripted.turn "queued"
                  ["queued"; "in_progress"; "in_progress"; "completed"]
                  (Ok {| data :=
                           [Scripted.text_message "assistant" "answer"] |}) |}
  in
  forall fuel,
    4 <= fuel ->
    let '(o, l, _) := get_assistant_response Scripted.client fuel "hi" s in
    o = Val (Some "answer") /\ status_fetches l = 4.
Proof.
  intros s fuel Hfuel.
  destruct fuel as [|[|[|[|[|fuel]]]]]; try lia; cbv; split; reflexivity.
Qed.

(** ** Handles across the script *)

Lemma threads_issued_app (l1 l2 : list Event) :
  threads_issued (l1 ++ l2) = threads_issued l1 ++ threads_issued l2.
Proof.
  induction l1 as [|ev l1 IH]; simpl; [reflexivity|].
  destruct ev as [[] [[]|]| | |]; simpl; rewrite ?IH; reflexivity.
Qed.

Lemma stores_issued_app (l1 l2 : list Event) :
  stores_issued (l1 ++ l2) = stores_issued l1 ++ stores_issued l2.
Proof.
  induction l1 as [|ev l1 IH]; simpl; [reflexivity|].
  destruct ev as [[] [[]|]| | |]; simpl; rewrite ?IH; reflexivity.
Qed.

Lemma assistants_issued_app (l1 l2 : list Event) :
  assistants_issued (l1 ++ l2)
  = assistants_issued l1 ++ assistants_issued l2.
Proof.
  induction l1 as [|ev l1 IH]; simpl; [reflexivity|].
  destruct ev as [[] [[]|]| | |]; simpl; rewrite ?IH; reflexivity.
Qed.

Lemma kept_or_issued_same (h : option string) (issued : list string) :
  kept_or_issued h h issued.
Proof. left. reflexivity. Qed.

Lemma kept_or_issued_new (before : option string) (h : string)
    (issued : list string) :
  In h issued -> kept_or_issued before (Some h) issued.
Proof. intros Hin. right. exists h. split; [reflexivity|exact Hin]. Qed.

Lemma kept_or_issued_trans (h0 h1 h2 : option string) (i1 i2 : list string) :
  kept_or_issued h0 h1 i1 -> kept_or_issued h1 h2 i2 ->
  kept_or_issued h0 h2 (i1 ++ i2).
Proof.
  intros H1 [Heq | (h & Hh & Hin)].
  - rewrite Heq. destruct H1 as [Heq1 | (h & Hh & Hin)].
    + left. exact Heq1.
    + right. exists h. split; [exact Hh|]. apply in_or_app. left. exact Hin.
  - right. exists h. split; [exact Hh|]. apply in_or_app. right. exact Hin.
Qed.

Lemma session_step_same (ss : SessionState) (l : list Event) :
  session_step ss l ss.
Proof.
  constructor; auto using kept_or_issued_same.
Qed.

(** Only the handles matter. *)
Lemma session_step_handles (ss ss' : SessionState) (l : list Event) :
  vector_store_id ss' = vector_store_id ss ->
  assistant_id ss' = assistant_id ss ->
  thread_id ss' = thread_id ss ->
  session_step ss l ss'.
Proof.
  intros Hv Ha Ht. constructor; unfold handles_prefix;
    rewrite ?Hv, ?Ha, ?Ht; auto using kept_or_issued_same.
Qed.

Lemma session_step_trans (ss ss1 ss2 : SessionState) (l1 l2 : list Event) :
  session_step ss l1 ss1 -> session_step ss1 l2 ss2 ->
  session_step ss (l1 ++ l2) ss2.
Proof.
  intros [Hv1 Ha1 Ht1 Hp1 Hi1 Has1 Hs1] [Hv2 Ha2 Ht2 Hp2 Hi2 Has2 Hs2].
  constructor; auto.
  - rewrite stores_issued_app. eapply kept_or_issued_trans; eassumption.
  - rewrite assistants_issued_app. eapply kept_or_issued_trans; eassumption.
  - rewrite threads_issued_app. eapply kept_or_issued_trans; eassumption.
Qed.

Section Handles.

Context {W : Type} (client : Client W).

Lemma respects_ret {A} (a : A) : respects (ret (W := W) a).
Proof. intros s. apply session_step_same. Qed.

Lemma respects_raise {A} (e : Exception) : respects (raise (W := W) (A := A) e).
Proof. intros s. apply session_step_same. Qed.

Lemma respects_halt {A} (c : Control) : respects (halt (W := W) (A := A) c).
Proof. intros s. apply session_step_same. Qed.

Lemma respects_out_of_fuel {A} : respects (out_of_fuel (W := W) (A := A)).
Proof. intros s. apply session_step_same. Qed.

Lemma respects_emit (ev : Event) : respects (emit (W := W) ev).
Proof. intros s. apply session_step_same. Qed.

Lemma respects_session_get {A} (field : SessionState -> A) :
  respects (session_get (W := W) field).
Proof. intros s. apply session_step_same. Qed.

Lemma respects_rerun {A} : respects (st_experimental_rerun (W := W) (A := A)).
Proof. intros s. apply session_step_same. Qed.

Lemma respects_set_messages (v : list ChatTurn) :
  respects (session_set (W := W) (set_messages v)).
Proof. intros s. apply session_step_handles; reflexivity. Qed.

Lemma respects_call {A} (req : Request) (inj : A -> Response)
    (op : W -> result A * W) :
  respects (call req inj op).
Proof.
  intros s. unfold call.
  destruct (op (world s)) as [[a|e] w]; apply session_step_same.
Qed.

Lemma respects_bind {A B} (m : M W A) (f : A -> M W B) :
  respects m -> (forall a, respects (f a)) -> respects (bind m f).
Proof.
  intros Hm Hf s. unfold bind. specialize (Hm s).
  destruct (m s) as [[[a|e|c|] l1] s1]; try exact Hm.
  specialize (Hf a s1). destruct (f a s1) as [[o l2] s2].
  eapply session_step_trans; eassumption.
Qed.

Lemma respects_try_except {A} (body : M W A) (handler : Exception -> M W A) :
  respects body -> (forall e, respects (handler e)) ->
  respects (try_except body handler).
Proof.
  intros Hb Hh s. unfold try_except. specialize (Hb s).
  destruct (body s) as [[[a|e|c|] l1] s1]; try exact Hb.
  specialize (Hh e s1). destruct (handler e s1) as [[o l2] s2].
  eapply session_step_trans; eassumption.
Qed.

Lemma respects_for_each {A B} (f : A -> M W B) (xs : list A) :
  (forall x, respects (f x)) -> respects (for_each f xs).
Proof.
  intros Hf. induction xs as [|x xs IH]; simpl.
  - apply respects_ret.
  - apply respects_bind; [apply Hf|]. intros y.
    apply respects_bind; [exact IH|]. intros ys. apply respects_ret.
Qed.

Lemma respects_first {A} (xs : list A) : respects (first (W := W) xs).
Proof. destruct xs; simpl; [apply respects_raise|apply respects_ret]. Qed.

Lemma respects_text_attr (b : ContentBlock) : respects (text_attr (W := W) b).
Proof. destruct b; simpl; [apply respects_ret|apply respects_raise]. Qed.

End Handles.

Create HintDb respects.
#[global] Hint Resolve respects_ret respects_raise respects_halt
  respects_out_of_fuel respects_emit respects_session_get respects_rerun
  respects_set_messages respects_call respects_first respects_text_attr
  : respects.

(** Walks down a computation built from the monad's combinators. *)
Ltac respects_step :=
  lazymatch goal with
  | |- respects (bind _ _) => apply respects_bind; [|intros ?]
  | |- respects (try_except _ _) => apply respects_try_except; [|intros ?]
  | |- respects (for_each _ _) => apply respects_for_each; intros ?
  | |- respects (if ?c then _ else _) => destruct c
  | |- respects _ =>
      solve [ auto with respects
            | unfold st_error, st_warning, st_info, st_markdown,
                st_sidebar_error, st_sidebar_success, st_sidebar_markdown,
                st_chat_message, st_stop, time_sleep;
              auto with respects ]
  end.

Lemma respects_wait_for_completion {W} (client : Client W) (fuel : nat) :
  forall run, respects (wait_for_completion client fuel run).
Proof.
  induction fuel as [|fuel IH]; intros run; simpl; repeat respects_step.
Qed.
#[global] Hint Resolve respects_wait_for_completion : respects.

Lemma respects_get_assistant_response {W} (client : Client W)
    (fuel : nat) (message : string) :
  respects (get_assistant_response client fuel message).
Proof.
  unfold get_assistant_response. repeat respects_step.
Qed.
#[global] Hint Resolve respects_get_assistant_response : respects.

Lemma respects_chat_input_handler {W} (client : Client W)
    (fuel : nat) (input : option string) :
  respects (chat_input_handler client fuel input).
Proof.
  unfold chat_input_handler. repeat respects_step.
Qed.

Lemma respects_status_panel {W} : respects (status_panel (W := W)).
Proof. unfold status_panel. repeat respects_step. Qed.

(** ** Provisioning *)

Section Provisioning.

Context {W : Type} (client : Client W).

Lemma provisioning_calls_cons_other (ev : Event) (l : list Event) :
  is_provisioning_call ev = false ->
  provisioning_calls (ev :: l) = provisioning_calls l.
Proof.
  intros H. unfold provisioning_calls. simpl. rewrite H. reflexivity.
Qed.

(** The list comprehension of [upload_files_to_vector_store] is the
    sequence of uploads [files_uploaded]. *)
Lemma for_each_files_create (streams : list (string * list byte)) :
  forall s : State W,
  exists l,
    for_each (fun file =>
                bind (call OpenAIFromEnvironment (fun _ => RClient)
                           (openai_default_client client))
                     (fun _ =>
                        call (FilesCreate file "assistants") RFileObject
                             (files_create client file "assistants")))
             streams s
    = (outcome_of (fst (files_uploaded client streams (world s))), l,
       {| session := session s;
          world := snd (files_uploaded client streams (world s)) |})
    /\ threads_issued l = []
    /\ provisioning_calls l = 0
    /\ errors_shown l = [].
Proof.
  induction streams as [|file rest IH]; intros s; simpl.
  - exists []. destruct s. repeat split; reflexivity.
  - unfold bind at 1. unfold bind at 1. unfold call at 1.
    destruct (openai_default_client client (world s)) as [[[]|e] w0];
      cbn [session world].
    + unfold call at 1. cbn [session world].
      destruct (files_create client file "assistants" w0)
        as [[f|e] w1]; cbn [session world app].
      * destruct (IH {| session := session s; world := w1 |})
          as (l & Hrest & Hth & Hprov & Herr).
        unfold bind at 1. rewrite Hrest. cbn [session world].
        destruct (files_uploaded client rest w1) as [[fs|e] w2];
          cbn [fst snd outcome_of ret app].
        -- eexists. split; [reflexivity|]. rewrite app_nil_r.
           repeat split; assumption.
        -- eexists. split; [reflexivity|]. repeat split; assumption.
      * eexists. split; [reflexivity|]. repeat split; reflexivity.
    + eexists. split; [reflexivity|]. repeat split; reflexivity.
Qed.

Lemma upload_files_to_vector_store_fails files (s : State W) e w' :
  index_provisioning_fails client files (world s) e w' ->
  exists l,
    upload_files_to_vector_store client files s
    = (Val None, l, {| session := session s; world := w' |})
    /\ errors_shown l = [("Error uploading files: " ++ str e)%string]
    /\ provisioning_calls l = 0
    /\ threads_issued l = [].
Proof.
  intros Hfail. unfold upload_files_to_vector_store, try_except.
  unfold bind at 1. unfold call at 1.
  destruct Hfail as [Hv | v w1 Hv Hfs | v w1 fs w2 Hv Hfs Hb];
    rewrite Hv; cbn [session world].
  - eexists. split; [reflexivity|]. repeat split; reflexivity.
  - fold (file_streams_of files).
    destruct (for_each_files_create (file_streams_of files)
                {| session := session s; world := w1 |})
      as (l & Hrun & Hth & Hprov & Herr).
    unfold bind at 1. rewrite Hrun. cbn [session world]. rewrite Hfs.
    cbn [fst snd outcome_of]. unfold st_error, emit, bind, ret.
    cbn [app]. eexists. split; [reflexivity|]. split; [|split].
    + cbn [errors_shown]. rewrite errors_shown_app, Herr. reflexivity.
    + rewrite provisioning_calls_cons_other by reflexivity.
      rewrite provisioning_calls_app, Hprov. reflexivity.
    + cbn [threads_issued]. rewrite threads_issued_app, Hth. reflexivity.
  - fold (file_streams_of files).
    destruct (for_each_files_create (file_streams_of files)
                {| session := session s; world := w1 |})
      as (l & Hrun & Hth & Hprov & Herr).
    unfold bind at 1. rewrite Hrun. cbn [session world]. rewrite Hfs.
    cbn [fst snd outcome_of]. unfold bind at 1. unfold call at 1.
    cbn [session world]. rewrite Hb.
    unfold st_error, emit, bind, ret.
    cbn [app]. eexists. split; [reflexivity|]. split; [|split].
    + cbn [errors_shown]. rewrite !errors_shown_app, Herr. reflexivity.
    + rewrite provisioning_calls_cons_other by reflexivity.
      rewrite !provisioning_calls_app, Hprov. reflexivity.
    + cbn [threads_issued]. rewrite !threads_issued_app, Hth. reflexivity.
Qed.

(** Whatever the service does, index provisioning either returns [None] and
    leaves the session state as it was, or returns the new handle after
    storing it. *)
Lemma upload_files_to_vector_store_effect files (s : State W) :
  let '(o, l, s') := upload_files_to_vector_store client files s in
  threads_issued l = []
  /\ ((o = Val None /\ session s' = session s)
      \/ exists v, o = Val (Some v)
                   /\ session s' = set_vector_store_id (Some v) (session s)
                   /\ In v (stores_issued l)).
Proof.
  unfold upload_files_to_vector_store, try_except.
  unfold bind at 1. unfold call at 1.
  destruct (vector_stores_create client "Company Documents POC" (world s))
    as [[v|e] w1]; cbn [session world].
  - destruct (for_each_files_create
                (map (fun uploaded_file =>
                        (name uploaded_file, getvalue uploaded_file)) files)
                {| session := session s; world := w1 |})
      as (l & Hrun & Hth & _ & _).
    unfold bind at 1. rewrite Hrun. cbn [session world].
    destruct (files_uploaded client _ w1) as [[fs|e] w2];
      cbn [fst snd outcome_of].
    + unfold bind at 1. unfold call at 1. cbn [session world].
      destruct (file_batches_upload_and_poll client (vs_id v) fs w2)
        as [[b|e] w3]; cbn [session world].
      * unfold bind, session_set, ret. cbn [session world app]. split.
        -- cbn [threads_issued]. rewrite !threads_issued_app, Hth.
           reflexivity.
        -- right. exists (vs_id v). repeat split. left. reflexivity.
      * unfold bind, st_error, emit, ret. cbn [app]. split.
        -- cbn [threads_issued]. rewrite !threads_issued_app, Hth.
           reflexivity.
        -- left. split; reflexivity.
    + unfold bind, st_error, emit, ret. cbn [app]. split.
      * cbn [threads_issued]. rewrite !threads_issued_app, Hth. reflexivity.
      * left. split; reflexivity.
  - unfold bind, st_error, emit, ret. cbn [app]. split.
    + reflexivity.
    + left. split; reflexivity.
Qed.

Lemma create_assistant_returned v (s : State W) a w' :
  assistants_create client assistant_name assistant_instructions
    assistant_model ["file_search"] [v] (world s) = (Ok a, w') ->
  create_assistant client v s
  = (Val (Some (asst_id a)),
     [Call (AssistantsCreate assistant_name assistant_instructions
              assistant_model ["file_search"] [v]) (Ok (RAssistant a))],
     {| session := set_assistant_id (Some (asst_id a)) (session s);
        world := w' |}).
Proof.
  intros H. unfold create_assistant, try_except, bind, call. rewrite H.
  reflexivity.
Qed.

Lemma create_assistant_raised v (s : State W) e w' :
  assistants_create client assistant_name assistant_instructions
    assistant_model ["file_search"] [v] (world s) = (Raise e, w') ->
  create_assistant client v s
  = (Val None,
     [Call (AssistantsCreate assistant_name assistant_instructions
              assistant_model ["file_search"] [v]) (Raise e);
      Ui StError ("Error creating assistant: " ++ str e)],
     {| session := session s; world := w' |}).
Proof.
  intros H. unfold create_assistant, try_except, bind, call. rewrite H.
  reflexivity.
Qed.

Lemma create_assistant_effect v (s : State W) :
  let '(o, l, s') := create_assistant client v s in
  threads_issued l = []
  /\ ((o = Val None /\ session s' = session s)
      \/ exists a, o = Val (Some a)
                   /\ session s' = set_assistant_id (Some a) (session s)
                   /\ In a (assistants_issued l)).
Proof.
  destruct (assistants_create client assistant_name assistant_instructions
              assistant_model ["file_search"] [v] (world s))
    as [[a|e] w'] eqn:H.
  - rewrite (create_assistant_returned _ _ _ _ H). split; [reflexivity|].
    right. exists (asst_id a). repeat split. left. reflexivity.
  - rewrite (create_assistant_raised _ _ _ _ H). split; [reflexivity|].
    left. split; reflexivity.
Qed.

Lemma create_thread_returned (s : State W) t w' :
  threads_create client (world s) = (Ok t, w') ->
  create_thread client s
  = (Val (Some (th_id t)), [Call ThreadsCreate (Ok (RThread t))],
     {| session := set_thread_id (Some (th_id t)) (session s);
        world := w' |}).
Proof.
  intros H. unfold create_thread, try_except, bind, call. rewrite H.
  reflexivity.
Qed.

Lemma create_thread_raised (s : State W) e w' :
  threads_create client (world s) = (Raise e, w') ->
  create_thread client s
  = (Val None,
     [Call ThreadsCreate (Raise e);
      Ui StError ("Error creating thread: " ++ str e)],
     {| session := session s; world := w' |}).
Proof.
  intros H. unfold create_thread, try_except, bind, call. rewrite H.
  reflexivity.
Qed.

Lemma create_thread_effect (s : State W) :
  let '(o, l, s') := create_thread client s in
  (o = Val None /\ session s' = session s /\ threads_issued l = [])
  \/ exists t, o = Val (Some t)
               /\ session s' = set_thread_id (Some t) (session s)
               /\ threads_issued l = [t].
Proof.
  destruct (threads_create client (world s)) as [[t|e] w'] eqn:H.
  - rewrite (create_thread_returned _ _ _ H).
    right. exists (th_id t). repeat split; reflexivity.
  - rewrite (create_thread_raised _ _ _ H).
    left. repeat split; reflexivity.
Qed.

End Provisioning.

(** ** The setup and clear-chat handlers, and the script as a whole *)

Lemma step_set_index (ss : SessionState) (l : list Event) (v : string) :
  In v (stores_issued l) ->
  session_step ss l (set_vector_store_id (Some v) ss).
Proof.
  intros Hin.
  constructor; unfold handles_prefix, is_set; cbn;
    auto using kept_or_issued_same, kept_or_issued_new; try discriminate.
  intros [H1 H2]. split; [discriminate|exact H2].
Qed.

Lemma step_set_assistant (ss : SessionState) (l : list Event) (a : string) :
  is_set (vector_store_id ss) ->
  In a (assistants_issued l) ->
  session_step ss l (set_assistant_id (Some a) ss).
Proof.
  intros Hv Hin.
  constructor; unfold handles_prefix, is_set; cbn;
    auto using kept_or_issued_same, kept_or_issued_new; try discriminate.
  intros _. split; [intros _; exact Hv|discriminate].
Qed.

Lemma step_set_thread (ss : SessionState) (l : list Event) (t : string) :
  is_set (assistant_id ss) ->
  In t (threads_issued l) ->
  session_step ss l (set_thread_id (Some t) ss).
Proof.
  intros Ha Hin.
  constructor; unfold handles_prefix, is_set; cbn;
    auto using kept_or_issued_same, kept_or_issued_new; try discriminate.
  intros [H1 H2]. split; [exact H1|intros _; exact Ha].
Qed.

Section Handlers.

Context {W : Type} (client : Client W).

Lemma respects_setup_handler (inp : Inputs) :
  respects (setup_handler client inp).
Proof.
  intros s. unfold setup_handler.
  destruct (negb match uploaded_files inp with [] => true | _ => false end
            && setup_button inp); [|apply session_step_same].
  unfold bind at 1.
  pose proof (upload_files_to_vector_store_effect client
                (uploaded_files inp) s) as Hup.
  destruct (upload_files_to_vector_store client (uploaded_files inp) s)
    as [[o1 l1] s1].
  destruct Hup as (_ & [(-> & Hs1) | (v & -> & Hs1 & Hv)]).
  { cbn. rewrite Hs1. apply session_step_same. }
  assert (Step1 : session_step (session s) l1 (session s1)).
  { rewrite Hs1. apply step_set_index. exact Hv. }
  destruct (truthy (Some v)).
  2:{ cbn. eapply session_step_trans; [exact Step1|apply session_step_same]. }
  unfold bind at 1.
  pose proof (create_assistant_effect client v s1) as Has.
  destruct (create_assistant client v s1) as [[o2 l2] s2].
  destruct Has as (_ & [(-> & Hs2) | (a & -> & Hs2 & Ha)]).
  { cbn. eapply session_step_trans; [exact Step1|].
    rewrite Hs2. apply session_step_same. }
  assert (Step2 : session_step (session s1) l2 (session s2)).
  { rewrite Hs2. apply step_set_assistant; [|exact Ha].
    rewrite Hs1. discriminate. }
  destruct (truthy (Some a)).
  2:{ cbn. eapply session_step_trans; [exact Step1|].
      eapply session_step_trans; [exact Step2|apply session_step_same]. }
  unfold bind at 1.
  pose proof (create_thread_effect client s2) as Hth.
  destruct (create_thread client s2) as [[o3 l3] s3].
  destruct Hth as [(-> & Hs3 & _) | (t & -> & Hs3 & Hissued)].
  { cbn. eapply session_step_trans; [exact Step1|].
    eapply session_step_trans; [exact Step2|].
    rewrite Hs3. apply session_step_same. }
  assert (Step3 : session_step (session s2) l3 (session s3)).
  { rewrite Hs3. apply step_set_thread.
    - rewrite Hs2. discriminate.
    - rewrite Hissued. left. reflexivity. }
  destruct (truthy (Some t)); cbn;
    (eapply session_step_trans; [exact Step1|];
     eapply session_step_trans; [exact Step2|];
     eapply session_step_trans; [exact Step3|apply session_step_same]).
Qed.

Lemma clear_chat_handler_returned (s : State W) t w' :
  threads_create client (world s) = (Ok t, w') ->
  clear_chat_handler client true s
  = (Halt RerunScript, [Call ThreadsCreate (Ok (RThread t)); Rerun],
     {| session := set_thread_id (Some (th_id t)) (set_messages [] (session s));
        world := w' |}).
Proof.
  intros H. unfold clear_chat_handler.
  unfold bind at 1. unfold session_set at 1. unfold bind at 1.
  rewrite (create_thread_returned client _ t w') by exact H.
  reflexivity.
Qed.

Lemma clear_chat_handler_raised (s : State W) e w' :
  threads_create client (world s) = (Raise e, w') ->
  clear_chat_handler client true s
  = (Halt RerunScript,
     [Call ThreadsCreate (Raise e);
      Ui StError ("Error creating thread: " ++ str e); Rerun],
     {| session := set_messages [] (session s); world := w' |}).
Proof.
  intros H. unfold clear_chat_handler.
  unfold bind at 1. unfold session_set at 1. unfold bind at 1.
  rewrite (create_thread_raised client _ e w') by exact H.
  reflexivity.
Qed.

Lemma respects_when_ready_of_respects {A} (m : M W A) :
  respects m -> respects_when_ready m.
Proof. intros H s _. apply H. Qed.

Lemma respects_when_ready_bind {A B} (m : M W A) (f : A -> M W B) :
  respects_when_ready m -> (forall a, respects_when_ready (f a)) ->
  respects_when_ready (bind m f).
Proof.
  intros Hm Hf s Hready. unfold bind. specialize (Hm s Hready).
  destruct (m s) as [[[a|e|c|] l1] s1]; try exact Hm.
  specialize (Hf a s1 (keeps_assistant Hm Hready)).
  destruct (f a s1) as [[o l2] s2].
  eapply session_step_trans; eassumption.
Qed.

Lemma respects_when_ready_clear_chat_handler (clicked : bool) :
  respects_when_ready (clear_chat_handler client clicked).
Proof.
  intros s Hready. destruct clicked; [|apply session_step_same].
  destruct (threads_create client (world s)) as [[t|e] w'] eqn:H.
  - rewrite (clear_chat_handler_returned _ _ _ H). cbn [session].
    apply session_step_trans
      with (l1 := []) (ss1 := set_messages [] (session s)).
    + apply session_step_handles; reflexivity.
    + apply step_set_thread; [exact Hready|]. left. reflexivity.
  - rewrite (clear_chat_handler_raised _ _ _ H). cbn [session].
    apply session_step_handles; reflexivity.
Qed.

Lemma respects_script (fuel : nat) (inp : Inputs) :
  respects (script client fuel inp).
Proof.
  unfold script.
  apply respects_bind; [repeat respects_step|]. intros _.
  apply respects_bind; [repeat respects_step|]. intros _.
  apply respects_bind; [apply respects_setup_handler|]. intros _.
  intros s. unfold bind at 1. unfold session_get at 1.
  unfold bind at 1. unfold session_get at 1.
  destruct (truthy (assistant_id (session s))
            && truthy (thread_id (session s))) eqn:Hgate.
  - assert (Hready : is_set (assistant_id (session s))).
    { destruct (assistant_id (session s)); [discriminate|discriminate Hgate]. }
    match goal with
    | |- context [bind ?m ?f s] =>
        assert (Hrest : respects_when_ready (bind m f))
    end.
    { apply respects_when_ready_bind.
      - apply respects_when_ready_bind;
          [apply respects_when_ready_of_respects; respects_step|].
        intros history.
        apply respects_when_ready_bind;
          [apply respects_when_ready_of_respects; repeat respects_step|].
        intros _.
        apply respects_when_ready_bind;
          [apply respects_when_ready_of_respects;
           apply respects_chat_input_handler|].
        intros _. apply respects_when_ready_clear_chat_handler.
      - intros _. apply respects_when_ready_of_respects.
        apply respects_status_panel. }
    specialize (Hrest s Hready).
    destruct (bind _ _ s) as [[o l] s'] in Hrest |- *.
    cbn. exact Hrest.
  - match goal with
    | |- context [bind ?m ?f s] => assert (Hrest : respects (bind m f))
    end.
    { apply respects_bind; [respects_step|]. intros _.
      apply respects_status_panel. }
    specialize (Hrest s).
    destruct (bind _ _ s) as [[o l] s'] in Hrest |- *.
    cbn. exact Hrest.
Qed.

Lemma respects_finish (m : M W unit) : respects m -> respects (finish m).
Proof.
  intros Hm s. unfold finish. specialize (Hm s).
  destruct (m s) as [[[a|e|c|] l] s']; exact Hm.
Qed.

Lemma respects_interact (fuel : nat) (inp : Inputs) :
  respects (interact client fuel inp).
Proof.
  intros s. unfold interact.
  pose proof (respects_script fuel inp s) as H1.
  destruct (script client fuel inp s) as [[[a|e|[|]|] l1] s1]; try exact H1.
  pose proof (respects_finish _ (respects_script fuel (no_trigger inp)) s1)
    as H2.
  destruct (finish (script client fuel (no_trigger inp)) s1) as [[o l2] s2].
  eapply session_step_trans; eassumption.
Qed.

Lemma respects_user_session (fuel : nat) (inps : list Inputs) :
  respects (user_session client fuel inps).
Proof.
  induction inps as [|inp rest IH]; simpl.
  - apply respects_ret.
  - apply respects_bind; [apply respects_interact|]. intros _. exact IH.
Qed.

End Handlers.

(** ** Claims about the handles *)

(** C3.  Whatever the service does, steps of setup failing or not, after any
    sequence of interactions starting from a fresh session the handles that
    are set form a prefix of (index, assistant, conversation): the assistant
    handle is not set while the index handle is unset, and the conversation
    handle is not set while the assistant handle is unset. *)
Theorem handles_set_form_a_prefix :
  forall (W : Type) (client : Client W) (fuel : nat) (inps : list Inputs)
         (w : W),
    let '(_, _, s') :=
      user_session client fuel inps
        {| session := initial_session; world := w |} in
    handles_prefix (session s')
    /\ (vector_store_id (session s') = None ->
        assistant_id (session s') = None)
    /\ (assistant_id (session s') = None -> thread_id (session s') = None).
Proof.
  intros W client fuel inps w.
  pose proof (respects_user_session client fuel inps
                {| session := initial_session; world := w |}) as Hstep.
  destruct (user_session client fuel inps _) as [[o l] s'].
  assert (Hprefix : handles_prefix (session s')).
  { apply (keeps_prefix Hstep). split; intros H; exact (False_ind _ (H eq_refl)). }
  split; [exact Hprefix|].
  destruct Hprefix as [Hav Hta]. unfold is_set in Hav, Hta. split.
  - intros Hv. destruct (assistant_id (session s')) as [a|]; [|reflexivity].
    exfalso. apply Hav; [discriminate|exact Hv].
  - intros Ha. destruct (thread_id (session s')) as [t|]; [|reflexivity].
    exfalso. apply Hta; [discriminate|exact Ha].
Qed.

(** The status panel and the gate of the chat interface test handles for
    truthiness, which differs from being set on the empty string only.  As
    long as the handles the service issues are not empty, the handles the
    panel shows as ready form a prefix as well. *)
Lemma issued_handle_is_ready (before after : option string)
    (issued : list string) :
  kept_or_issued before after issued ->
  before = None ->
  Forall (fun h => h <> "") issued ->
  is_set after ->
  truthy after = true.
Proof.
  intros [Heq | (h & Hh & Hin)] Hnone Hissued Hset.
  - rewrite Heq, Hnone in Hset. exfalso. apply Hset. reflexivity.
  - rewrite Hh. cbn. unfold truthy_str.
    rewrite Forall_forall in Hissued. specialize (Hissued h Hin).
    destruct (String.eqb_spec h ""); [contradiction|reflexivity].
Qed.

Lemma ready_is_set (h : option string) : truthy h = true -> is_set h.
Proof. destruct h; discriminate. Qed.

Lemma ready_handles_form_a_prefix :
  forall (W : Type) (client : Client W) (fuel : nat) (inps : list Inputs)
         (w : W),
    let '(_, l, s') :=
      user_session client fuel inps
        {| session := initial_session; world := w |} in
    Forall (fun h => h <> "") (stores_issued l) ->
    Forall (fun h => h <> "") (assistants_issued l) ->
    (truthy (assistant_id (session s')) = true ->
     truthy (vector_store_id (session s')) = true)
    /\ (truthy (thread_id (session s')) = true ->
        truthy (assistant_id (session s')) = true).
Proof.
  intros W client fuel inps w.
  pose proof (respects_user_session client fuel inps
                {| session := initial_session; world := w |}) as Hstep.
  destruct (user_session client fuel inps _) as [[o l] s'].
  intros Hstores Hassistants.
  assert (Hprefix : handles_prefix (session s')).
  { apply (keeps_prefix Hstep).
    split; intros H; exact (False_ind _ (H eq_refl)). }
  destruct Hprefix as [Hav Hta]. split.
  - intros Ha.
    apply (issued_handle_is_ready _ _ _ (index_source Hstep) eq_refl Hstores).
    apply Hav. apply ready_is_set. exact Ha.
  - intros Ht.
    apply (issued_handle_is_ready _ _ _ (assistant_source Hstep) eq_refl
             Hassistants).
    apply Hta. apply ready_is_set. exact Ht.
Qed.

(** C5, as amended.  When a request of index provisioning raises (creating
    the store, building the client for one of the files, uploading that
    file, or uploading and polling the batch), the operation reports the
    error with the text of the exception and returns no handle; the session
    state, the index handle included, is left as it was (so the handle
    stays unset if it was unset); the setup handler reports the failed
    upload and issues no assistant- or conversation-provisioning request,
    so those two handles keep their values as well.  Nothing is said of a
    batch that is returned: its status is not read. *)
Theorem failed_index_provisioning_changes_no_handle :
  forall (W : Type) (client : Client W) (inp : Inputs) (s : State W)
         (e : Exception) (w' : W),
    uploaded_files inp <> [] ->
    setup_button inp = true ->
    index_provisioning_fails client (uploaded_files inp) (world s) e w' ->
    (exists l,
        upload_files_to_vector_store client (uploaded_files inp) s
        = (Val None, l, {| session := session s; world := w' |})
        /\ errors_shown l = [("Error uploading files: " ++ str e)%string])
    /\ (exists l,
           setup_handler client inp s
           = (Val tt, l, {| session := session s; world := w' |})
           /\ errors_shown l = [("Error uploading files: " ++ str e)%string]
           /\ In (Ui SidebarError "Failed to upload files") l
           /\ provisioning_calls l = 0)
    /\ (vector_store_id (session s) = None ->
        forall l s',
          setup_handler client inp s = (Val tt, l, s') ->
          vector_store_id (session s') = None).
Proof.
  intros W client inp s e w' Hfiles Hbutton Hfail.
  destruct (upload_files_to_vector_store_fails client _ s e w' Hfail)
    as (l & Hup & Herr & Hprov & _).
  assert (Hsetup :
            setup_handler client inp s
            = (Val tt, l ++ [Ui SidebarError "Failed to upload files"],
               {| session := session s; world := w' |})).
  { unfold setup_handler. rewrite Hbutton.
    destruct (uploaded_files inp) as [|f fs] eqn:Hf; [contradiction|].
    cbn [negb andb]. unfold bind at 1. rewrite Hup. reflexivity. }
  split; [|split].
  - exists l. split; assumption.
  - eexists. split; [exact Hsetup|]. split; [|split].
    + rewrite errors_shown_app, Herr. reflexivity.
    + apply in_or_app. right. left. reflexivity.
    + rewrite provisioning_calls_app, Hprov. reflexivity.
  - intros Hunset l0 s' Hrun. rewrite Hsetup in Hrun.
    injection Hrun as _ Hs'. subst s'. exact Hunset.
Qed.

Lemma failed_index_provisioning_witness :
  exists l,
    setup_handler Keyless.client Scripted.setup_click
      {| session := initial_session; world := Scripted.one_setup |}
    = (Val tt, l,
       {| session := initial_session; world := Scripted.store_created |})
    /\ errors_shown l
       = [("Error uploading files: " ++ str Keyless.missing_key)%string]
    /\ In (Ui SidebarError "Failed to upload files") l
    /\ provisioning_calls l = 0.
Proof.
  apply (failed_index_provisioning_changes_no_handle
           Scripted.World Keyless.client Scripted.setup_click
           {| session := initial_session; world := Scripted.one_setup |}
           Keyless.missing_key Scripted.store_created).
  - discriminate.
  - reflexivity.
  - apply file_upload_fails
      with (v := {| vs_id := "vs_1" |}) (w1 := Scripted.store_created);
      reflexivity.
Defined.

(** C5 as stated fails, in two ways.  Setup succeeds once, is run again
    and fails at the first step of index provisioning: the index handle is
    still set afterwards, and so are the other two.  And in a fresh session
    the service answers every request but reports the batch as failed: no
    error is shown, the index handle is stored, and the assistant and the
    conversation are created. *)
Lemma failed_index_provisioning_can_leave_index_set :
  (let '(_, _, s1) :=
     interact Scripted.client 0 Scripted.setup_click
       {| session := initial_session; world := Scripted.one_setup |} in
   index_provisioning_fails Scripted.client
     (uploaded_files Scripted.setup_click) (world s1)
     Scripted.connection_error Scripted.offline
   /\ (let '(o, l, s2) :=
         setup_handler Scripted.client Scripted.setup_click s1 in
       o = Val tt
       /\ errors_shown l = ["Error uploading files: Connection error."]
       /\ vector_store_id (session s2) = Some "vs_1"
       /\ assistant_id (session s2) = Some "asst_1"
       /\ thread_id (session s2) = Some "thread_1"
       /\ vector_store_id (session s2) <> None))
  /\ (let '(o, l, s') :=
        setup_handler Scripted.client Scripted.setup_click
          {| session := initial_session;
             world := Scripted.unindexed_setup |} in
      o = Val tt
      /\ In (Call (FileBatchesUploadAndPoll "vs_1" [{| file_id := "file_1" |}])
                 (Ok (RFileBatch {| batch_status := "failed" |}))) l
      /\ errors_shown l = []
      /\ provisioning_calls l = 2
      /\ session s' = Scripted.ready).
Proof.
  split.
  - cbv. split.
    + apply store_creation_fails. reflexivity.
    + repeat split. discriminate.
  - cbv. repeat split. auto 10.
Qed.

(** The status panel reads the three handles only. *)
Lemma status_lines_set_messages (v : list ChatTurn) (ss : SessionState) :
  status_lines (set_messages v ss) = status_lines ss.
Proof. reflexivity. Qed.

(** C9.  Each handle is monotone: over any sequence of interactions, from
    any session state and whatever the service does, a handle that is set
    stays set.  Where provisioning fails (index provisioning, assistant
    creation, conversation creation, also when the latter is run by clear
    chat) the stored handles keep the values they had, so the status panel
    shows the same lines as before. *)
Theorem handles_are_never_reset :
  forall (W : Type) (client : Client W),
    (forall (fuel : nat) (inps : list Inputs) (s : State W),
        let '(_, _, s') := user_session client fuel inps s in
        (is_set (vector_store_id (session s)) ->
         is_set (vector_store_id (session s')))
        /\ (is_set (assistant_id (session s)) ->
            is_set (assistant_id (session s')))
        /\ (is_set (thread_id (session s)) ->
            is_set (thread_id (session s'))))
    /\ (forall files (s : State W) e w',
           index_provisioning_fails client files (world s) e w' ->
           exists l,
             upload_files_to_vector_store client files s
             = (Val None, l, {| session := session s; world := w' |}))
    /\ (forall v (s : State W) e w',
           assistants_create client assistant_name assistant_instructions
             assistant_model ["file_search"] [v] (world s) = (Raise e, w') ->
           exists l,
             create_assistant client v s
             = (Val None, l, {| session := session s; world := w' |}))
    /\ (forall (s : State W) e w',
           threads_create client (world s) = (Raise e, w') ->
           (exists l,
               create_thread client s
               = (Val None, l, {| session := session s; world := w' |}))
           /\ (exists l,
                  clear_chat_handler client true s
                  = (Halt RerunScript, l,
                     {| session := set_messages [] (session s);
                        world := w' |})
                  /\ thread_id (set_messages [] (session s))
                     = thread_id (session s)
                  /\ status_lines (set_messages [] (session s))
                     = status_lines (session s))).
Proof.
  intros W client. split; [|split; [|split]].
  - intros fuel inps s.
    pose proof (respects_user_session client fuel inps s) as Hstep.
    destruct (user_session client fuel inps s) as [[o l] s'].
    split; [exact (keeps_index Hstep)|].
    split; [exact (keeps_assistant Hstep)|exact (keeps_thread Hstep)].
  - intros files s e w' Hfail.
    destruct (upload_files_to_vector_store_fails client files s e w' Hfail)
      as (l & Hrun & _).
    exists l. exact Hrun.
  - intros v s e w' Hraise. eexists.
    apply create_assistant_raised. exact Hraise.
  - intros s e w' Hraise. split.
    + eexists. apply create_thread_raised. exact Hraise.
    + eexists. split; [apply clear_chat_handler_raised; exact Hraise|].
      split; reflexivity.
Qed.

Lemma handles_are_never_reset_witness :
  let s := {| session :=
                set_messages [user_turn "hi"; assistant_turn "answer"]
                  Scripted.ready;
              world := Scripted.offline |} in
  (exists l,
      upload_files_to_vector_store Scripted.client
        (uploaded_files Scripted.setup_click) s
      = (Val None, l, s))
  /\ (exists l, create_assistant Scripted.client "vs_1" s = (Val None, l, s))
  /\ (exists l, create_thread Scripted.client s = (Val None, l, s))
  /\ (exists l,
         clear_chat_handler Scripted.client true s
         = (Halt RerunScript, l,
            {| session := Scripted.ready; world := Scripted.offline |})
         /\ thread_id Scripted.ready = Some "thread_1"
         /\ status_lines Scripted.ready = status_lines (session s)).
Proof.
  intros s.
  destruct (handles_are_never_reset Scripted.World Scripted.client)
    as (_ & Hindex & Hassistant & Hthread).
  split; [|split; [|split]].
  - apply (Hindex _ s Scripted.connection_error Scripted.offline).
    apply store_creation_fails. reflexivity.
  - apply (Hassistant "vs_1" s Scripted.connection_error Scripted.offline).
    reflexivity.
  - apply (Hthread s Scripted.connection_error Scripted.offline).
    reflexivity.
  - destruct (Hthread s Scripted.connection_error Scripted.offline eq_refl)
      as (_ & l & Hrun & Hsame & Hpanel).
    exists l. split; [exact Hrun|]. split; [reflexivity|exact Hpanel].
Defined.

(** C6, as amended.  Clear chat always empties the local history.  When
    the conversation is provisioned, its handle replaces the stored one, and
    from then on (through the rerun the handler asks for and any further
    interactions) the stored handle is that one or one the service issued
    later: the old handle is back only if the service issues it again.  When
    provisioning fails, the error is shown and the old handle stays. *)
Theorem clear_chat_empties_history_and_renews_conversation :
  forall (W : Type) (client : Client W) (s : State W),
    (exists l s',
        clear_chat_handler client true s = (Halt RerunScript, l, s')
        /\ messages (session s') = [])
    /\ (forall t w',
           threads_create client (world s) = (Ok t, w') ->
           let s1 := {| session :=
                          set_thread_id (Some (th_id t))
                            (set_messages [] (session s));
                        world := w' |} in
           (exists l,
               clear_chat_handler client true s = (Halt RerunScript, l, s1)
               /\ threads_issued l = [th_id t]
               /\ errors_shown l = [])
           /\ forall fuel inp inps,
               let '(_, l', s2) :=
                 bind (finish (script client fuel (no_trigger inp)))
                      (fun _ => user_session client fuel inps) s1 in
               (thread_id (session s2) = Some (th_id t)
                \/ exists h, thread_id (session s2) = Some h
                             /\ In h (threads_issued l'))
               /\ forall old,
                   thread_id (session s) = Some old ->
                   th_id t <> old ->
                   ~ In old (threads_issued l') ->
                   thread_id (session s2) <> Some old)
    /\ (forall e w',
           threads_create client (world s) = (Raise e, w') ->
           exists l,
             clear_chat_handler client true s
             = (Halt RerunScript, l,
                {| session := set_messages [] (session s); world := w' |})
             /\ errors_shown l
                = [("Error creating thread: " ++ str e)%string]).
Proof.
  intros W client s. split; [|split].
  - destruct (threads_create client (world s)) as [[t|e] w'] eqn:H.
    + rewrite (clear_chat_handler_returned client s t w' H).
      eexists _, _. split; reflexivity.
    + rewrite (clear_chat_handler_raised client s e w' H).
      eexists _, _. split; reflexivity.
  - intros t w' H s1. split.
    + rewrite (clear_chat_handler_returned client s t w' H).
      eexists. repeat split; reflexivity.
    + intros fuel inp inps.
      pose proof (respects_bind _ _
                    (respects_finish _
                       (respects_script client fuel (no_trigger inp)))
                    (fun _ => respects_user_session client fuel inps) s1)
        as Hstep.
      destruct (bind _ _ s1) as [[o l'] s2].
      assert (Hsource :
                thread_id (session s2) = Some (th_id t)
                \/ exists h, thread_id (session s2) = Some h
                             /\ In h (threads_issued l')).
      { destruct (thread_source Hstep) as [Heq | Hissued].
        - left. exact Heq.
        - right. exact Hissued. }
      split; [exact Hsource|].
      intros old _ Hnew Hnot Hback.
      destruct Hsource as [Heq | (h & Hh & Hin)].
      * rewrite Heq in Hback. injection Hback as Hback. contradiction.
      * rewrite Hh in Hback. injection Hback as Hback. subst h.
        contradiction.
  - intros e w' H.
    rewrite (clear_chat_handler_raised client s e w' H).
    eexists. split; reflexivity.
Qed.

Lemma clear_chat_witness :
  let s := {| session :=
                set_messages [user_turn "hi"; assistant_turn "answer"]
                  Scripted.ready;
              world := Scripted.with_threads ["thread_2"] |} in
  exists l,
    clear_chat_handler Scripted.client true s
    = (Halt RerunScript, l,
       {| session := set_thread_id (Some "thread_2") Scripted.ready;
          world := Scripted.offline |})
    /\ threads_issued l = ["thread_2"]
    /\ errors_shown l = [].
Proof.
  intros s.
  destruct (clear_chat_empties_history_and_renews_conversation
              Scripted.World Scripted.client s) as (_ & Hnew & _).
  apply (Hnew {| th_id := "thread_2" |} Scripted.offline). reflexivity.
Defined.

(** C6 as stated fails: when the service cannot provide a conversation,
    clear chat empties the history and the old handle stays in place. *)
Lemma failed_clear_chat_keeps_old_conversation :
  let s := {| session :=
                set_messages [user_turn "hi"; assistant_turn "answer"]
                  Scripted.ready;
              world := Scripted.offline |} in
  let '(o, l, s') := clear_chat_handler Scripted.client true s in
  o = Halt RerunScript
  /\ messages (session s') = []
  /\ errors_shown l = ["Error creating thread: Connection error."]
  /\ thread_id (session s) = Some "thread_1"
  /\ thread_id (session s') = Some "thread_1"
  /\ ~ thread_id (session s') <> thread_id (session s).
Proof.
  cbv. repeat split. intros H. apply H. reflexivity.
Qed.

(** * Further properties of the script *)

(** ** Before anything else: the API key and the client *)

(** X1.  Without an API key the script shows its warning and stops: whatever
    buttons are pressed and whatever text is submitted, no request is sent
    and neither the session state nor the service changes. *)
Theorem missing_api_key_stops_the_script :
  forall (W : Type) (client : Client W) (fuel : nat) (inp : Inputs)
         (s : State W),
    api_key_input inp = "" ->
    script client fuel inp s
    = (Halt StopScript,
       [Ui StWarning
           "Please enter your OpenAI API key in the sidebar to continue."],
       s)
    /\ interact client fuel inp s
       = (Val tt,
          [Ui StWarning
              "Please enter your OpenAI API key in the sidebar to continue."],
          s).
Proof.
  intros W client fuel inp s Hkey.
  assert (Hrun :
            script client fuel inp s
            = (Halt StopScript,
               [Ui StWarning
                   "Please enter your OpenAI API key in the sidebar to continue."],
               s)).
  { unfold script. rewrite Hkey. reflexivity. }
  split; [exact Hrun|]. unfold interact. rewrite Hrun. reflexivity.
Qed.

Lemma missing_api_key_witness :
  let inp := {| api_key_input := "";
                uploaded_files := uploaded_files Scripted.setup_click;
                setup_button := true;
                chat_input := Some "hi";
                clear_chat_button := true |} in
  let s := {| session := Scripted.ready; world := Scripted.one_setup |} in
  interact Scripted.client 3 inp s
  = (Val tt,
     [Ui StWarning
         "Please enter your OpenAI API key in the sidebar to continue."],
     s).
Proof.
  intros inp s.
  apply (missing_api_key_stops_the_script
           Scripted.World Scripted.client 3 inp s).
  reflexivity.
Defined.

(** X2.  When building the client raises, the script shows
    "Error initializing OpenAI client: " with the exception and stops: the
    setup, chat and clear-chat handlers do not run, no other request is sent
    and the session state is unchanged. *)
Theorem failed_client_initialisation_stops_the_script :
  forall (W : Type) (client : Client W) (fuel : nat) (inp : Inputs)
         (s : State W) (e : Exception) (w' : W),
    api_key_input inp <> "" ->
    openai_client client (api_key_input inp) (world s) = (Raise e, w') ->
    script client fuel inp s
    = (Halt StopScript,
       [Call (OpenAI (api_key_input inp)) (Raise e);
        Ui StError ("Error initializing OpenAI client: " ++ str e)],
       {| session := session s; world := w' |}).
Proof.
  intros W client fuel inp s e w' Hkey Hinit.
  unfold script.
  assert (Htruthy : truthy_str (api_key_input inp) = true).
  { unfold truthy_str.
    destruct (String.eqb_spec (api_key_input inp) ""); [contradiction|].
    reflexivity. }
  rewrite Htruthy. cbn [negb].
  unfold bind at 1. unfold ret at 1.
  unfold bind at 1. unfold try_except at 1. unfold call at 1.
  rewrite Hinit. reflexivity.
Qed.

Lemma failed_client_initialisation_witness :
  script Rejecting.client 3 Scripted.setup_click
    {| session := Scripted.ready; world := tt |}
  = (Halt StopScript,
     [Call (OpenAI "sk-test") (Raise Rejecting.bad_key);
      Ui StError
         "Error initializing OpenAI client: Incorrect API key provided."],
     {| session := Scripted.ready; world := tt |}).
Proof.
  apply (failed_client_initialisation_stops_the_script
           unit Rejecting.client 3 Scripted.setup_click
           {| session := Scripted.ready; world := tt |}
           Rejecting.bad_key tt).
  - discriminate.
  - reflexivity.
Defined.

(** ** Index provisioning: which files are sent *)

Lemma requests_app (l1 l2 : list Event) :
  requests (l1 ++ l2) = requests l1 ++ requests l2.
Proof.
  induction l1 as [|ev l1 IH]; simpl; [reflexivity|].
  destruct ev; simpl; rewrite ?IH; reflexivity.
Qed.

Lemma count_requests_app (kind : Request -> bool) (l1 l2 : list Event) :
  count_requests kind (l1 ++ l2)
  = count_requests kind l1 + count_requests kind l2.
Proof.
  unfold count_requests. rewrite requests_app, filter_app, length_app.
  reflexivity.
Qed.

(** The log of the list comprehension of index provisioning.  When it
    returns, nothing raised, the requests are those of every file in order
    and the value is the list of file objects returned.  When it raises,
    the raising request is the last event, nothing raised before it, and
    the requests sent are a prefix of those of every file. *)
Lemma for_each_files_log {W} (client : Client W)
    (streams : list (string * list byte)) :
  forall s : State W,
    let '(o, l, s') :=
      for_each (fun file =>
                  bind (call OpenAIFromEnvironment (fun _ => RClient)
                             (openai_default_client client))
                       (fun _ =>
                          call (FilesCreate file "assistants") RFileObject
                               (files_create client file "assistants")))
               streams s in
    session s' = session s
    /\ errors_shown l = []
    /\ stores_issued l = []
    /\ match o with
       | Val fs =>
           raised l = []
           /\ requests l = uploads_of streams
           /\ files_returned l = fs
           /\ length fs = length streams
       | Exc e =>
           exists l0 req later,
             l = l0 ++ [Call req (Raise e)]
             /\ raised l0 = []
             /\ uploads_of streams = requests l ++ later
       | _ => False
       end.
Proof.
  induction streams as [|file rest IH]; intros s; simpl.
  - unfold ret. repeat split; reflexivity.
  - unfold bind at 1. unfold bind at 1. unfold call at 1.
    destruct (openai_default_client client (world s)) as [[[]|e] w0];
      cbn [session world].
    2:{ repeat split; try reflexivity.
        exists [], OpenAIFromEnvironment,
               (FilesCreate file "assistants" :: uploads_of rest).
        repeat split; reflexivity. }
    unfold call at 1. cbn [session world].
    destruct (files_create client file "assistants" w0) as [[f|e] w1];
      cbn [session world app].
    2:{ repeat split; try reflexivity.
        exists [Call OpenAIFromEnvironment (Ok RClient)],
               (FilesCreate file "assistants"), (uploads_of rest).
        repeat split; reflexivity. }
    specialize (IH {| session := session s; world := w1 |}).
    unfold bind at 1.
    destruct (for_each _ rest _) as [[[fs|e|c|] l] s'];
      destruct IH as (Hss & Herr & Hst & IH); cbn [session] in Hss;
      try contradiction.
    + destruct IH as (Hr & Hreq & Hret & Hlen).
      unfold ret. rewrite app_nil_r.
      cbn [errors_shown stores_issued raised requests files_returned app].
      repeat split; try assumption.
      * rewrite Hreq. reflexivity.
      * rewrite Hret. reflexivity.
      * simpl. rewrite Hlen. reflexivity.
    + destruct IH as (l0 & req & later & Hl & Hr & Hreq).
      cbn [errors_shown stores_issued app].
      repeat split; try assumption.
      exists (Call OpenAIFromEnvironment (Ok RClient)
              :: Call (FilesCreate file "assistants") (Ok (RFileObject f))
              :: l0), req, later.
      repeat split.
      * rewrite Hl. reflexivity.
      * exact Hr.
      * cbn [requests]. cbn [uploads_of flat_map app].
        fold (uploads_of rest). rewrite Hreq. reflexivity.
Qed.

Lemma uploads_of_no_batch (streams : list (string * list byte)) v fs :
  ~ In (FileBatchesUploadAndPoll v fs) (uploads_of streams).
Proof.
  induction streams as [|file rest IH]; simpl; [tauto|].
  intros [H|[H|H]]; [discriminate H|discriminate H|exact (IH H)].
Qed.

Lemma raised_app (l1 l2 : list Event) :
  raised (l1 ++ l2) = raised l1 ++ raised l2.
Proof.
  induction l1 as [|[req [r|e]| | |] l1 IH]; simpl; try rewrite IH;
    reflexivity.
Qed.

Lemma files_returned_app (l1 l2 : list Event) :
  files_returned (l1 ++ l2) = files_returned l1 ++ files_returned l2.
Proof.
  induction l1 as [|ev l1 IH]; [reflexivity|].
  destruct ev as [req r| | |]; simpl; try exact IH.
  destruct req; try exact IH.
  destruct r as [[]|]; simpl; try exact IH.
  rewrite IH. reflexivity.
Qed.

(** X3.  Whatever the service does, index provisioning sends its requests
    in one fixed order: the request to create the store; then, for each
    selected file in the order of the selection, a client built from the
    environment and the upload of the file's name and bytes through it with
    the purpose "assistants"; then the batch request, for the store just
    created and the file objects the uploads returned, as many as files
    were selected.  It goes on as long as no request raises and no further:
    when none raises, every one of these requests is sent, the handle of
    the store created is stored and returned, and no error is shown; when
    one raises, it is the only one that does and the last one sent, the
    requests sent are those before it in that order, [None] is returned,
    the session state is as before, and the one error shown carries the
    text of the exception. *)
Theorem index_provisioning_sends_the_selection_in_order :
  forall (W : Type) (client : Client W) (files : list UploadedFile)
         (s : State W),
    let '(o, l, s') := upload_files_to_vector_store client files s in
    match raised l with
    | [] =>
        exists v,
          o = Val (Some v)
          /\ stores_issued l = [v]
          /\ requests l = index_requests files v (files_returned l)
          /\ length (files_returned l) = length files
          /\ errors_shown l = []
          /\ session s' = set_vector_store_id (Some v) (session s)
    | [e] =>
        o = Val None
        /\ (exists l0 req,
              l = l0 ++ [Call req (Raise e);
                         Ui StError ("Error uploading files: " ++ str e)]
              /\ raised l0 = []
              /\ errors_shown l0 = []
              /\ (exists v fs later,
                     index_requests files v fs = requests l0 ++ req :: later)
              /\ (forall v fs,
                     req = FileBatchesUploadAndPoll v fs ->
                     stores_issued l0 = [v]
                     /\ files_returned l0 = fs
                     /\ length fs = length files))
        /\ session s' = session s
    | _ => False
    end.
Proof.
  intros W client files s.
  unfold upload_files_to_vector_store, try_except.
  unfold bind at 1. unfold call at 1.
  destruct (vector_stores_create client "Company Documents POC" (world s))
    as [[v|e] w1]; cbn [session world].
  2:{ unfold bind, st_error, emit, ret. cbn [app raised].
      split; [reflexivity|]. split; [|reflexivity].
      exists [], (VectorStoresCreate "Company Documents POC").
      split; [reflexivity|]. split; [reflexivity|]. split; [reflexivity|].
      split; [|intros v0 fs0 Hreq; discriminate Hreq].
      exists "", [], (uploads_of (file_streams_of files)
                      ++ [FileBatchesUploadAndPoll "" []]).
      reflexivity. }
  fold (file_streams_of files).
  pose proof (for_each_files_log client (file_streams_of files)
                {| session := session s; world := w1 |}) as Hfiles.
  unfold bind at 1.
  destruct (for_each _ (file_streams_of files) _) as [[[fs|e|c|] lf] s1];
    destruct Hfiles as (Hss & Herr & Hst & Hfiles); cbn [session] in Hss;
    try contradiction.
  - destruct Hfiles as (Hr & Hreq & Hret & Hlen).
    unfold bind at 1. unfold call at 1.
    destruct (file_batches_upload_and_poll client (vs_id v) fs (world s1))
      as [[b|e] w2]; cbn [session world].
    + unfold bind, session_set, ret. cbn [session world app raised].
      rewrite !raised_app, Hr. cbn [raised app].
      exists (vs_id v). split; [reflexivity|].
      cbn [stores_issued requests errors_shown files_returned].
      rewrite stores_issued_app, requests_app, errors_shown_app,
        files_returned_app, Hst, Hreq, Herr, Hret, Hss.
      cbn [stores_issued requests errors_shown files_returned app].
      rewrite app_nil_r.
      repeat split; try reflexivity.
      rewrite Hlen. unfold file_streams_of. apply length_map.
    + unfold bind, st_error, emit, ret. cbn [app raised].
      rewrite !raised_app, Hr. cbn [raised app].
      split; [reflexivity|]. split; [|exact Hss].
      exists (Call (VectorStoresCreate "Company Documents POC")
                (Ok (RVectorStore v)) :: lf),
             (FileBatchesUploadAndPoll (vs_id v) fs).
      split; [rewrite <- app_assoc; reflexivity|].
      split; [exact Hr|]. split; [exact Herr|]. split.
      * exists (vs_id v), fs, []. unfold index_requests.
        cbn [requests]. rewrite Hreq. reflexivity.
      * intros v0 fs0 Hbatch. injection Hbatch as <- <-.
        cbn [stores_issued files_returned]. rewrite Hst, Hret.
        repeat split. rewrite Hlen. unfold file_streams_of. apply length_map.
  - destruct Hfiles as (l0 & req & later & Hl & Hr & Hreq).
    unfold bind, st_error, emit, ret. cbn [app raised].
    rewrite Hl, !raised_app, Hr. cbn [raised app].
    split; [reflexivity|]. split; [|exact Hss].
    exists (Call (VectorStoresCreate "Company Documents POC")
              (Ok (RVectorStore v)) :: l0), req.
    split; [rewrite <- app_assoc; reflexivity|].
    split; [exact Hr|].
    split.
    { rewrite Hl, errors_shown_app in Herr.
      apply app_eq_nil in Herr. apply Herr. }
    split.
    + exists (vs_id v), [],
             (later ++ [FileBatchesUploadAndPoll (vs_id v) []]).
      unfold index_requests. rewrite Hreq, Hl, requests_app.
      cbn [requests]. rewrite <- !app_assoc. reflexivity.
    + intros v0 fs0 Hbatch. exfalso.
      apply (uploads_of_no_batch (file_streams_of files) v0 fs0).
      rewrite Hreq, Hl, requests_app, Hbatch. cbn [requests].
      apply in_or_app. left. apply in_or_app. right. left. reflexivity.
Qed.

(** ** Setup, step by step *)

Section Setup.

Context {W : Type} (client : Client W).

Lemma upload_files_to_vector_store_succeeds files (s : State W) v fs b w' :
  index_provisioning_succeeds client files (world s) v fs b w' ->
  exists l,
    upload_files_to_vector_store client files s
    = (Val (Some (vs_id v)), l,
       {| session := set_vector_store_id (Some (vs_id v)) (session s);
          world := w' |})
    /\ errors_shown l = []
    /\ provisioning_calls l = 0
    /\ requests l = index_requests files (vs_id v) fs.
Proof.
  intros (w1 & w2 & Hv & Hfs & Hb).
  unfold upload_files_to_vector_store, try_except.
  unfold bind at 1. unfold call at 1. rewrite Hv. cbn [session world].
  fold (file_streams_of files).
  destruct (for_each_files_create client (file_streams_of files)
              {| session := session s; world := w1 |})
    as (l & Hrun & _ & Hprov & Herr).
  pose proof (for_each_files_log client (file_streams_of files)
                {| session := session s; world := w1 |}) as Hlog.
  rewrite Hrun in Hlog. cbn [session world] in Hlog. rewrite Hfs in Hlog.
  cbn [fst snd outcome_of] in Hlog.
  destruct Hlog as (_ & _ & _ & _ & Hreq & _).
  unfold bind at 1. rewrite Hrun. cbn [session world]. rewrite Hfs.
  cbn [fst snd outcome_of]. unfold bind at 1. unfold call at 1.
  cbn [session world]. rewrite Hb.
  unfold bind, session_set, ret. cbn [session world app].
  eexists. split; [reflexivity|]. split; [|split].
  - cbn [errors_shown]. rewrite !errors_shown_app, Herr. reflexivity.
  - rewrite provisioning_calls_cons_other by reflexivity.
    rewrite !provisioning_calls_app, Hprov. reflexivity.
  - unfold index_requests. cbn [requests].
    rewrite !requests_app, Hreq. cbn [requests]. reflexivity.
Qed.

End Setup.

Lemma truthy_str_true (h : string) : h <> "" -> truthy_str h = true.
Proof.
  intros Hne. unfold truthy_str.
  destruct (String.eqb_spec h ""); [contradiction|reflexivity].
Qed.

(** The guard of the setup handler, for a click with files selected. *)
Lemma setup_guard (inp : Inputs) :
  uploaded_files inp <> [] -> setup_button inp = true ->
  negb match uploaded_files inp with [] => true | _ :: _ => false end
  && setup_button inp = true.
Proof.
  intros Hfiles ->. destruct (uploaded_files inp); [contradiction|reflexivity].
Qed.

(** X4.  A click on setup with files selected, when no request raises (the
    store is created, for every file the client is built from the
    environment and the file uploaded through it, the batch is returned,
    the assistant and the conversation are created) and the handles handed
    out are non-empty: the requests sent are the store creation, a client
    built and an upload for each file in order, the batch, the assistant
    and the conversation; the three handles are the ones the service
    returned; the assistant is created for the store just created; the
    chat history is untouched; success is reported with the number of
    files; no error is shown; and the status panel reads ready on all three
    lines.  The status of the returned batch plays no part. *)
Theorem successful_setup_sets_the_three_handles :
  forall (W : Type) (client : Client W) (inp : Inputs) (s : State W)
         (v : VectorStore) (fs : list FileObject) (b : FileBatch)
         (a : Assistant) (t : Thread) (w1 w2 w3 : W),
    uploaded_files inp <> [] ->
    setup_button inp = true ->
    index_provisioning_succeeds client (uploaded_files inp) (world s)
      v fs b w1 ->
    assistants_create client assistant_name assistant_instructions
      assistant_model ["file_search"] [vs_id v] w1 = (Ok a, w2) ->
    threads_create client w2 = (Ok t, w3) ->
    vs_id v <> "" -> asst_id a <> "" -> th_id t <> "" ->
    let ss' := {| messages := messages (session s);
                  assistant_id := Some (asst_id a);
                  thread_id := Some (th_id t);
                  vector_store_id := Some (vs_id v) |} in
    (exists l,
        setup_handler client inp s
        = (Val tt,
           l ++ [Call (AssistantsCreate assistant_name assistant_instructions
                         assistant_model ["file_search"] [vs_id v])
                      (Ok (RAssistant a));
                 Call ThreadsCreate (Ok (RThread t));
                 Ui SidebarSuccess "✅ RAG System Ready!";
                 Ui SidebarMarkdown
                    ("**Files uploaded:** "
                       ++ str_of_nat (length (uploaded_files inp)))],
           {| session := ss'; world := w3 |})
        /\ errors_shown l = []
        /\ provisioning_calls l = 0
        /\ requests l = index_requests (uploaded_files inp) (vs_id v) fs)
    /\ status_lines ss'
       = ["**Assistant:** ✅ Ready"; "**Thread:** ✅ Active";
          "**Vector Store:** ✅ Ready"].
Proof.
  intros W client inp s v fs b a t w1 w2 w3 Hfiles Hbutton Hindex Hasst
         Hthread Hv Ha Ht ss'.
  destruct (upload_files_to_vector_store_succeeds client _ s v fs b w1 Hindex)
    as (l & Hup & Herr & Hprov & Hreq).
  split.
  - exists l. split; [|repeat split; assumption].
    unfold setup_handler. rewrite (setup_guard inp Hfiles Hbutton).
    unfold bind at 1. rewrite Hup. cbn [truthy].
    rewrite (truthy_str_true _ Hv).
    unfold bind at 1.
    rewrite (create_assistant_returned client (vs_id v) _ a w2)
      by exact Hasst.
    cbn [truthy]. rewrite (truthy_str_true _ Ha).
    unfold bind at 1.
    rewrite (create_thread_returned client _ t w3) by exact Hthread.
    cbn [truthy]. rewrite (truthy_str_true _ Ht).
    unfold bind, st_sidebar_success, st_sidebar_markdown, emit.
    cbn [app session world]. reflexivity.
  - unfold status_lines, ss'. cbn [assistant_id thread_id vector_store_id truthy].
    rewrite (truthy_str_true _ Hv), (truthy_str_true _ Ha),
      (truthy_str_true _ Ht).
    reflexivity.
Qed.

Lemma successful_setup_witness :
  exists l,
    setup_handler Scripted.client Scripted.setup_click
      {| session := initial_session; world := Scripted.one_setup |}
    = (Val tt,
       l ++ [Call (AssistantsCreate assistant_name assistant_instructions
                     assistant_model ["file_search"] ["vs_1"])
                  (Ok (RAssistant {| asst_id := "asst_1" |}));
             Call ThreadsCreate (Ok (RThread {| th_id := "thread_1" |}));
             Ui SidebarSuccess "✅ RAG System Ready!";
             Ui SidebarMarkdown "**Files uploaded:** 1"],
       {| session := Scripted.ready; world := Scripted.offline |})
    /\ errors_shown l = []
    /\ provisioning_calls l = 0
    /\ requests l
       = [VectorStoresCreate "Company Documents POC";
          OpenAIFromEnvironment;
          FilesCreate ("report.txt", []) "assistants";
          FileBatchesUploadAndPoll "vs_1" [{| file_id := "file_1" |}]].
Proof.
  apply (successful_setup_sets_the_three_handles
           Scripted.World Scripted.client Scripted.setup_click
           {| session := initial_session; world := Scripted.one_setup |}
           {| vs_id := "vs_1" |} [{| file_id := "file_1" |}]
           {| batch_status := "completed" |}
           {| asst_id := "asst_1" |} {| th_id := "thread_1" |}
           {| Scripted.vector_stores := []; Scripted.file_objects := [];
              Scripted.file_batches := [];
              Scripted.assistants := [Ok {| asst_id := "asst_1" |}];
              Scripted.threads := [Ok {| th_id := "thread_1" |}];
              Scripted.sent_messages := []; Scripted.started_runs := [];
              Scripted.run_fetches := []; Scripted.message_pages := [] |}
           (Scripted.with_threads ["thread_1"]) Scripted.offline).
  - discriminate.
  - reflexivity.
  - eexists _, _. repeat split; reflexivity.
  - reflexivity.
  - reflexivity.
  - discriminate.
  - discriminate.
  - discriminate.
Defined.

(** X5.  A click on setup where no request of index provisioning raises
    (store, a client from the environment and an upload for each file,
    batch) and creating the assistant raises: the new index handle replaces the stored one, the
    assistant handle, the conversation handle and the chat history stay as
    they were, no conversation is requested, and the failure is reported
    twice, by "Error creating assistant: " with the exception and by
    "Failed to create assistant" in the sidebar. *)
Theorem failed_assistant_creation_halts_setup :
  forall (W : Type) (client : Client W) (inp : Inputs) (s : State W)
         (v : VectorStore) (fs : list FileObject) (b : FileBatch)
         (e : Exception) (w1 w2 : W),
    uploaded_files inp <> [] ->
    setup_button inp = true ->
    index_provisioning_succeeds client (uploaded_files inp) (world s)
      v fs b w1 ->
    vs_id v <> "" ->
    assistants_create client assistant_name assistant_instructions
      assistant_model ["file_search"] [vs_id v] w1 = (Raise e, w2) ->
    exists l,
      setup_handler client inp s
      = (Val tt, l,
         {| session := set_vector_store_id (Some (vs_id v)) (session s);
            world := w2 |})
      /\ errors_shown l = [("Error creating assistant: " ++ str e)%string]
      /\ In (Ui SidebarError "Failed to create assistant") l
      /\ count_requests is_threads_create l = 0.
Proof.
  intros W client inp s v fs b e w1 w2 Hfiles Hbutton Hindex Hv Hasst.
  destruct (upload_files_to_vector_store_succeeds client _ s v fs b w1 Hindex)
    as (l & Hup & Herr & Hprov & _).
  unfold setup_handler. rewrite (setup_guard inp Hfiles Hbutton).
  unfold bind at 1. rewrite Hup. cbn [truthy].
  rewrite (truthy_str_true _ Hv).
  unfold bind at 1.
  rewrite (create_assistant_raised client (vs_id v) _ e w2) by exact Hasst.
  cbn [truthy]. unfold st_sidebar_error, emit. cbn [session world].
  eexists. split; [reflexivity|]. split; [|split].
  - rewrite errors_shown_app, Herr. reflexivity.
  - apply in_or_app. right. cbn. auto.
  - rewrite count_requests_app.
    assert (Hnone : count_requests is_threads_create l = 0).
    { revert Hprov. unfold provisioning_calls, count_requests.
      clear. induction l as [|ev l IH]; [reflexivity|].
      destruct ev as [[] resp| | |]; cbn; try exact IH; discriminate. }
    rewrite Hnone. reflexivity.
Qed.

Lemma failed_assistant_creation_witness :
  let w := {| Scripted.vector_stores := [Ok {| vs_id := "vs_2" |}];
              Scripted.file_objects := [Ok {| file_id := "file_2" |}];
              Scripted.file_batches := [Ok {| batch_status := "failed" |}];
              Scripted.assistants := [];
              Scripted.threads := [Ok {| th_id := "thread_2" |}];
              Scripted.sent_messages := []; Scripted.started_runs := [];
              Scripted.run_fetches := []; Scripted.message_pages := [] |} in
  exists l,
    setup_handler Scripted.client Scripted.setup_click
      {| session := Scripted.ready; world := w |}
    = (Val tt, l,
       {| session := set_vector_store_id (Some "vs_2") Scripted.ready;
          world := Scripted.with_threads ["thread_2"] |})
    /\ errors_shown l = ["Error creating assistant: Connection error."]
    /\ In (Ui SidebarError "Failed to create assistant") l
    /\ count_requests is_threads_create l = 0.
Proof.
  intros w.
  apply (failed_assistant_creation_halts_setup
           Scripted.World Scripted.client Scripted.setup_click
           {| session := Scripted.ready; world := w |}
           {| vs_id := "vs_2" |} [{| file_id := "file_2" |}]
           {| batch_status := "failed" |}
           Scripted.connection_error
           (Scripted.with_threads ["thread_2"])
           (Scripted.with_threads ["thread_2"])).
  - discriminate.
  - reflexivity.
  - eexists _, _. repeat split; reflexivity.
  - discriminate.
  - reflexivity.
Defined.

(** X6.  A click on setup where no request of index provisioning raises
    (store, a client from the environment and an upload for each file,
    batch), the assistant is created and creating the conversation raises: the new index and assistant handles
    replace the stored ones, the conversation handle and the chat history
    stay as they were, and the failure is reported by "Error creating
    thread: " with the exception and by "Failed to create conversation
    thread" in the sidebar.  A session that had a conversation is thus left
    with the old conversation beside the new assistant. *)
Theorem failed_conversation_creation_halts_setup :
  forall (W : Type) (client : Client W) (inp : Inputs) (s : State W)
         (v : VectorStore) (fs : list FileObject) (b : FileBatch)
         (a : Assistant) (e : Exception) (w1 w2 w3 : W),
    uploaded_files inp <> [] ->
    setup_button inp = true ->
    index_provisioning_succeeds client (uploaded_files inp) (world s)
      v fs b w1 ->
    vs_id v <> "" ->
    assistants_create client assistant_name assistant_instructions
      assistant_model ["file_search"] [vs_id v] w1 = (Ok a, w2) ->
    asst_id a <> "" ->
    threads_create client w2 = (Raise e, w3) ->
    exists l,
      setup_handler client inp s
      = (Val tt, l,
         {| session :=
              {| messages := messages (session s);
                 assistant_id := Some (asst_id a);
                 thread_id := thread_id (session s);
                 vector_store_id := Some (vs_id v) |};
            world := w3 |})
      /\ errors_shown l = [("Error creating thread: " ++ str e)%string]
      /\ In (Ui SidebarError "Failed to create conversation thread") l.
Proof.
  intros W client inp s v fs b a e w1 w2 w3 Hfiles Hbutton Hindex Hv Hasst
         Ha Hthread.
  destruct (upload_files_to_vector_store_succeeds client _ s v fs b w1 Hindex)
    as (l & Hup & Herr & Hprov & _).
  unfold setup_handler. rewrite (setup_guard inp Hfiles Hbutton).
  unfold bind at 1. rewrite Hup. cbn [truthy].
  rewrite (truthy_str_true _ Hv).
  unfold bind at 1.
  rewrite (create_assistant_returned client (vs_id v) _ a w2) by exact Hasst.
  cbn [truthy]. rewrite (truthy_str_true _ Ha).
  unfold bind at 1.
  rewrite (create_thread_raised client _ e w3) by exact Hthread.
  cbn [truthy]. unfold st_sidebar_error, emit. cbn [session world].
  eexists. split; [reflexivity|]. split.
  - rewrite errors_shown_app, Herr. reflexivity.
  - apply in_or_app. right. cbn. auto 6.
Qed.

Lemma failed_conversation_creation_witness :
  let w := {| Scripted.vector_stores := [Ok {| vs_id := "vs_2" |}];
              Scripted.file_objects := [Ok {| file_id := "file_2" |}];
              Scripted.file_batches := [Ok {| batch_status := "completed" |}];
              Scripted.assistants := [Ok {| asst_id := "asst_2" |}];
              Scripted.threads := [];
              Scripted.sent_messages := []; Scripted.started_runs := [];
              Scripted.run_fetches := []; Scripted.message_pages := [] |} in
  exists l,
    setup_handler Scripted.client Scripted.setup_click
      {| session := Scripted.ready; world := w |}
    = (Val tt, l,
       {| session :=
            {| messages := [];
               assistant_id := Some "asst_2";
               thread_id := Some "thread_1";
               vector_store_id := Some "vs_2" |};
          world := Scripted.offline |})
    /\ errors_shown l = ["Error creating thread: Connection error."]
    /\ In (Ui SidebarError "Failed to create conversation thread") l.
Proof.
  intros w.
  apply (failed_conversation_creation_halts_setup
           Scripted.World Scripted.client Scripted.setup_click
           {| session := Scripted.ready; world := w |}
           {| vs_id := "vs_2" |} [{| file_id := "file_2" |}]
           {| batch_status := "completed" |}
           {| asst_id := "asst_2" |}
           Scripted.connection_error
           {| Scripted.vector_stores := []; Scripted.file_objects := [];
              Scripted.file_batches := [];
              Scripted.assistants := [Ok {| asst_id := "asst_2" |}];
              Scripted.threads := [];
              Scripted.sent_messages := []; Scripted.started_runs := [];
              Scripted.run_fetches := []; Scripted.message_pages := [] |}
           Scripted.offline Scripted.offline).
  - discriminate.
  - reflexivity.
  - eexists _, _. repeat split; reflexivity.
  - discriminate.
  - reflexivity.
  - discriminate.
  - reflexivity.
Defined.

(** ** One turn, whatever the service does *)

Section AnyTurn.

Context {W : Type} (client : Client W).

(** The loop only sleeps and fetches, with the stored conversation handle;
    it leaves the session state alone and never stops the script. *)
Lemma wait_for_completion_events (fuel : nat) :
  forall (run : Run) (s : State W),
    let '(o, l, s') := wait_for_completion client fuel run s in
    session s' = session s
    /\ Forall (poll_event (thread_id (session s))) l
    /\ ending o <> Halts.
Proof.
  induction fuel as [|fuel IH]; intros run s.
  - simpl. destruct (pending (status run)); cbn;
      (split; [reflexivity|split; [constructor|discriminate]]).
  - destruct (pending (status run)) eqn:Hp.
    + rewrite wait_for_completion_step by exact Hp. cbv zeta.
      destruct (threads_runs_retrieve client (thread_id (session s))
                  (run_id run) (world s)) as [[run'|e] w'].
      * specialize (IH run' {| session := session s; world := w' |}).
        destruct (wait_for_completion client fuel run' _) as [[o l] s'].
        cbn [session] in IH. destruct IH as (Hs & Hl & Ho).
        split; [exact Hs|]. split; [|exact Ho].
        constructor; [exact I|]. constructor; [reflexivity|exact Hl].
      * cbn. split; [reflexivity|]. split; [|discriminate].
        constructor; [exact I|]. constructor; [reflexivity|constructor].
    + rewrite wait_for_completion_done by exact Hp.
      split; [reflexivity|split; [constructor|discriminate]].
Qed.

Lemma poll_events_show_no_error tid (l : list Event) :
  Forall (poll_event tid) l -> errors_shown l = [].
Proof.
  induction 1 as [|ev l Hev _ IH]; [reflexivity|].
  destruct ev as [[] resp|secs|w t|]; cbn in *; try contradiction; exact IH.
Qed.

Lemma poll_events_count (kind : Request -> bool) tid (l : list Event) :
  (forall t r, kind (RunsRetrieve t r) = false) ->
  Forall (poll_event tid) l -> count_requests kind l = 0.
Proof.
  intros Hkind. unfold count_requests.
  induction 1 as [|ev l Hev _ IH]; [reflexivity|].
  destruct ev as [[] resp|secs|w t|]; cbn in *; try contradiction;
    rewrite ?Hkind; exact IH.
Qed.

Lemma poll_events_use_handle tid aid (l : list Event) :
  Forall (poll_event tid) l -> Forall (turn_request_with tid aid) l.
Proof.
  induction 1 as [|ev l Hev _ IH]; constructor; [|exact IH].
  destruct ev as [[] resp|secs|w t|]; cbn in *; try contradiction; auto.
Qed.

Lemma count_requests_call (kind : Request -> bool) req resp (l : list Event) :
  count_requests kind (Call req resp :: l)
  = (if kind req then 1 else 0) + count_requests kind l.
Proof.
  unfold count_requests. cbn [requests filter].
  destruct (kind req); reflexivity.
Qed.

Lemma count_requests_ui (kind : Request -> bool) w t (l : list Event) :
  count_requests kind (Ui w t :: l) = count_requests kind l.
Proof. reflexivity. Qed.

Ltac count_turn_requests :=
  repeat first
    [ rewrite count_requests_call
    | rewrite count_requests_ui
    | rewrite count_requests_app ];
  repeat match goal with
         | H : Forall (poll_event _) ?lp |- context [count_requests ?k ?lp] =>
             rewrite (poll_events_count k _ lp (fun _ _ => eq_refl) H)
         end;
  cbn; try lia.

Ltac turn_requests_use_handles :=
  repeat first
    [ apply Forall_nil
    | apply Forall_cons; [cbn; auto|]
    | solve [eapply poll_events_use_handle; eassumption]
    | apply Forall_app; split ].

Ltac turn_errors :=
  cbn [errors_shown]; rewrite ?errors_shown_app;
  repeat match goal with
         | H : Forall (poll_event _) ?lp |- context [errors_shown ?lp] =>
             rewrite (poll_events_show_no_error _ lp H)
         end;
  cbn; eauto.

Ltac turn_leaf :=
  cbn [session world app];
  split; [first [reflexivity | assumption]|];
  split; [eexists _, _; reflexivity|];
  split; [count_turn_requests|];
  split; [count_turn_requests|];
  split; [count_turn_requests|];
  split; [turn_requests_use_handles|turn_errors].

(** What one run of [get_assistant_response] looks like from outside. *)
Lemma get_assistant_response_any (fuel : nat) (prompt : string)
    (s : State W) :
  let tid := thread_id (session s) in
  let aid := assistant_id (session s) in
  let '(o, l, s') := get_assistant_response client fuel prompt s in
  session s' = session s
  /\ (exists resp tail, l = Call (MessagesCreate tid "user" prompt) resp :: tail)
  /\ count_requests is_messages_create l = 1
  /\ count_requests is_runs_create l <= 1
  /\ count_requests is_messages_list l <= 1
  /\ Forall (turn_request_with tid aid) l
  /\ match o with
     | Val (Some _) => errors_shown l = []
     | Val None => exists err, errors_shown l = [err]
     | OutOfFuel => errors_shown l = []
     | _ => False
     end.
Proof.
  intros tid aid. subst tid aid.
  unfold get_assistant_response, try_except.
  unfold bind at 1. unfold session_get at 1. cbn [session world].
  unfold bind at 1. unfold call at 1.
  destruct (threads_messages_create client (thread_id (session s)) "user"
              prompt (world s)) as [[m|e] w1]; cbn [session world].
  2:{ unfold bind, st_error, emit, ret. turn_leaf. }
  unfold bind at 1. unfold session_get at 1. cbn [session world].
  unfold bind at 1. unfold session_get at 1. cbn [session world].
  unfold bind at 1. unfold call at 1. cbn [session world].
  destruct (threads_runs_create client (thread_id (session s))
              (assistant_id (session s)) w1) as [[run|e] w2];
    cbn [session world].
  2:{ unfold bind, st_error, emit, ret. turn_leaf. }
  pose proof (wait_for_completion_events fuel run
                {| session := session s; world := w2 |}) as Hwait.
  unfold bind at 1.
  destruct (wait_for_completion client fuel run _) as [[[r|e|c|] lp] s2];
    cbn [session] in Hwait; destruct Hwait as (Hs2 & Hlp & Hend).
  - destruct (status r =? "completed").
    + unfold bind at 1. unfold session_get at 1.
      unfold bind at 1. unfold call at 1. rewrite Hs2.
      destruct (threads_messages_list client (thread_id (session s))
                  (world s2)) as [[p|e] w4]; cbn [session world].
      2:{ unfold bind, st_error, emit, ret. turn_leaf. }
      unfold bind at 1. unfold first at 1.
      destruct (data p) as [|m0 ms].
      { unfold raise, bind, st_error, emit, ret. turn_leaf. }
      unfold ret at 1. cbn [app].
      unfold bind at 1. unfold first at 1.
      destruct (msg_content m0) as [|c0 cs].
      { unfold raise, bind, st_error, emit, ret. turn_leaf. }
      unfold ret at 1. cbn [app].
      unfold bind at 1. unfold text_attr at 1.
      destruct c0 as [t|img].
      * unfold ret. turn_leaf.
      * unfold raise, bind, st_error, emit, ret. turn_leaf.
    + unfold bind, st_error, emit, ret. turn_leaf.
  - unfold bind, st_error, emit, ret. turn_leaf.
  - exfalso. apply Hend. reflexivity.
  - turn_leaf.
Qed.

End AnyTurn.

(** X7.  Whatever the service does, one call of [get_assistant_response]
    leaves the session state as it was, opens with the request that appends
    the prompt to the conversation with role "user", and never repeats a
    step: the message is sent exactly once, at most one run is started and
    the message list is fetched at most once.  Every request of the turn
    carries the conversation handle stored in the session state, and the run
    is started with the stored assistant handle. *)
Theorem a_turn_sends_each_request_once :
  forall (W : Type) (client : Client W) (fuel : nat) (prompt : string)
         (s : State W),
    let '(_, l, s') := get_assistant_response client fuel prompt s in
    session s' = session s
    /\ (exists resp tail,
           l = Call (MessagesCreate (thread_id (session s)) "user" prompt) resp
               :: tail)
    /\ count_requests is_messages_create l = 1
    /\ count_requests is_runs_create l <= 1
    /\ count_requests is_messages_list l <= 1
    /\ Forall (turn_request_with (thread_id (session s))
                 (assistant_id (session s))) l.
Proof.
  intros W client fuel prompt s.
  pose proof (get_assistant_response_any client fuel prompt s) as H.
  cbv zeta in H.
  destruct (get_assistant_response client fuel prompt s) as [[o l] s'].
  destruct H as (H1 & H2 & H3 & H4 & H5 & H6 & _).
  repeat split; assumption.
Qed.

(** X8.  Whatever the service does, [get_assistant_response] lets no
    exception out and does not stop the script: it returns, or is still
    polling.  When it returns a reply it has shown no error; when it returns
    [None] it has shown exactly one. *)
Theorem a_turn_reports_each_failure_once :
  forall (W : Type) (client : Client W) (fuel : nat) (prompt : string)
         (s : State W),
    let '(o, l, _) := get_assistant_response client fuel prompt s in
    match o with
    | Val (Some _) => errors_shown l = []
    | Val None => exists err, errors_shown l = [err]
    | OutOfFuel => errors_shown l = []
    | Exc _ | Halt _ => False
    end.
Proof.
  intros W client fuel prompt s.
  pose proof (get_assistant_response_any client fuel prompt s) as H.
  cbv zeta in H.
  destruct (get_assistant_response client fuel prompt s) as [[o l] s'].
  destruct H as (_ & _ & _ & _ & _ & _ & H).
  destruct o as [[r|]|e|c|]; exact H.
Qed.

(** What one run of the chat input handler looks like from outside. *)
Lemma chat_input_handler_any {W} (client : Client W) (fuel : nat)
    (input : option string) (s : State W) :
  let '(o, l, s') := chat_input_handler client fuel input s in
  vector_store_id (session s') = vector_store_id (session s)
  /\ assistant_id (session s') = assistant_id (session s)
  /\ thread_id (session s') = thread_id (session s)
  /\ Forall (turn_request_with (thread_id (session s))
               (assistant_id (session s))) l
  /\ match input with
     | None | Some "" => messages (session s') = messages (session s)
                         /\ l = []
     | Some prompt =>
         messages (session s') = messages (session s) ++ [user_turn prompt]
         \/ exists reply,
              reply <> ""
              /\ messages (session s')
                 = messages (session s)
                   ++ [user_turn prompt; assistant_turn reply]
              /\ o = Val tt
              /\ errors_shown l = []
     end.
Proof.
  unfold chat_input_handler.
  destruct input as [prompt|]; cbn [truthy].
  2:{ cbn. repeat split; constructor. }
  destruct (truthy_str prompt) eqn:Hp.
  2:{ unfold truthy_str in Hp. apply Bool.negb_false_iff in Hp.
      apply String.eqb_eq in Hp. subst prompt. cbn.
      repeat split; constructor. }
  unfold bind at 1. unfold session_get at 1.
  unfold bind at 1. unfold session_set at 1.
  unfold bind at 1. unfold st_chat_message at 1. unfold emit at 1.
  unfold bind at 1. cbn [session world].
  pose proof (get_assistant_response_any client fuel prompt
                (with_user_turn prompt s)) as Hturn.
  cbv zeta in Hturn. unfold with_user_turn, user_turn in Hturn.
  destruct (get_assistant_response client fuel prompt _)
    as [[[[reply|]|e|c|] lt] s1];
    destruct Hturn as (Hs1 & _ & _ & _ & _ & Hreq & Herr);
    cbn [session set_messages thread_id assistant_id] in Hs1, Hreq;
    try contradiction.
  - cbn [truthy]. destruct (truthy_str reply) eqn:Hr.
    + unfold bind, session_get, session_set, st_chat_message, emit.
      cbn [session world app]. rewrite Hs1. cbn.
      split; [reflexivity|]. split; [reflexivity|]. split; [reflexivity|].
      split.
      { constructor; [exact I|]. apply Forall_app. split; [exact Hreq|].
        constructor; [exact I|constructor]. }
      destruct prompt; [discriminate Hp|].
      right. exists reply. split.
      { intros ->. discriminate Hr. }
      split; [rewrite <- app_assoc; reflexivity|].
      split; [reflexivity|].
      rewrite errors_shown_app, Herr. reflexivity.
    + unfold st_error, emit. cbn [session world app]. rewrite Hs1. cbn.
      split; [reflexivity|]. split; [reflexivity|]. split; [reflexivity|].
      split.
      { constructor; [exact I|]. apply Forall_app. split; [exact Hreq|].
        constructor; [exact I|constructor]. }
      destruct prompt; [discriminate Hp|]. left. reflexivity.
  - unfold st_error, emit. cbn [truthy session world app]. rewrite Hs1. cbn.
    split; [reflexivity|]. split; [reflexivity|]. split; [reflexivity|].
    split.
    { constructor; [exact I|]. apply Forall_app. split; [exact Hreq|].
      constructor; [exact I|constructor]. }
    destruct prompt; [discriminate Hp|]. left. reflexivity.
  - cbn [session world app]. rewrite Hs1. cbn.
    split; [reflexivity|]. split; [reflexivity|]. split; [reflexivity|].
    split.
    { constructor; [exact I|exact Hreq]. }
    destruct prompt; [discriminate Hp|]. left. reflexivity.
Qed.

(** X9.  Whatever the service does, the chat input handler touches the
    history only by adding at its end: nothing for an empty submission,
    otherwise the user's turn, followed by at most one assistant turn, whose
    content is never empty and which comes without any error shown.  The
    three handles are left as they were. *)
Theorem chat_input_only_appends_turns :
  forall (W : Type) (client : Client W) (fuel : nat)
         (input : option string) (s : State W),
    let '(o, l, s') := chat_input_handler client fuel input s in
    vector_store_id (session s') = vector_store_id (session s)
    /\ assistant_id (session s') = assistant_id (session s)
    /\ thread_id (session s') = thread_id (session s)
    /\ match input with
       | None | Some "" => messages (session s') = messages (session s)
                           /\ l = []
       | Some prompt =>
           messages (session s') = messages (session s) ++ [user_turn prompt]
           \/ exists reply,
                reply <> ""
                /\ messages (session s')
                   = messages (session s)
                     ++ [user_turn prompt; assistant_turn reply]
                /\ o = Val tt
                /\ errors_shown l = []
       end.
Proof.
  intros W client fuel input s.
  pose proof (chat_input_handler_any client fuel input s) as H.
  destruct (chat_input_handler client fuel input s) as [[o l] s'].
  destruct H as (Hv & Ha & Ht & _ & Hm).
  repeat split; assumption.
Qed.

(** ** How the script's computations may end *)

Section Endings.

Context {W : Type}.
Variable allowed : Ending -> bool.

Lemma ends_in_ret {A} (a : A) :
  allowed Returns = true -> ends_in allowed (ret (W := W) a).
Proof. intros H s. exact H. Qed.

Lemma ends_in_halt {A} (c : Control) :
  allowed Halts = true -> ends_in allowed (halt (W := W) (A := A) c).
Proof. intros H s. exact H. Qed.

Lemma ends_in_rerun {A} :
  allowed Halts = true ->
  ends_in allowed (st_experimental_rerun (W := W) (A := A)).
Proof. intros H s. exact H. Qed.

Lemma ends_in_raise {A} (e : Exception) :
  allowed Raises = true -> ends_in allowed (raise (W := W) (A := A) e).
Proof. intros H s. exact H. Qed.

Lemma ends_in_out_of_fuel {A} :
  allowed RunsOn = true -> ends_in allowed (out_of_fuel (W := W) (A := A)).
Proof. intros H s. exact H. Qed.

Lemma ends_in_emit (ev : Event) :
  allowed Returns = true -> ends_in allowed (emit (W := W) ev).
Proof. intros H s. exact H. Qed.

Lemma ends_in_session_get {A} (field : SessionState -> A) :
  allowed Returns = true -> ends_in allowed (session_get (W := W) field).
Proof. intros H s. exact H. Qed.

Lemma ends_in_session_set (update : SessionState -> SessionState) :
  allowed Returns = true -> ends_in allowed (session_set (W := W) update).
Proof. intros H s. exact H. Qed.

Lemma ends_in_call {A} (req : Request) (inj : A -> Response)
    (op : W -> result A * W) :
  allowed Returns = true -> allowed Raises = true ->
  ends_in allowed (call req inj op).
Proof.
  intros Hret Hraise s. unfold call.
  destruct (op (world s)) as [[a|e] w]; assumption.
Qed.

Lemma ends_in_bind {A B} (m : M W A) (f : A -> M W B) :
  ends_in allowed m -> (forall a, ends_in allowed (f a)) ->
  ends_in allowed (bind m f).
Proof.
  intros Hm Hf s. unfold bind. specialize (Hm s).
  destruct (m s) as [[[a|e|c|] l1] s1]; try exact Hm.
  specialize (Hf a s1). destruct (f a s1) as [[o l2] s2]. exact Hf.
Qed.

(** The handler decides how a [try] ends when its body raises. *)
Lemma ends_in_try_except {A} (body : M W A) (handler : Exception -> M W A) :
  ends_in (may_raise allowed) body ->
  (forall e, ends_in allowed (handler e)) ->
  ends_in allowed (try_except body handler).
Proof.
  intros Hb Hh s. unfold try_except. specialize (Hb s).
  destruct (body s) as [[[a|e|c|] l1] s1]; try exact Hb.
  specialize (Hh e s1). destruct (handler e s1) as [[o l2] s2]. exact Hh.
Qed.

Lemma ends_in_for_each {A B} (f : A -> M W B) (xs : list A) :
  allowed Returns = true ->
  (forall x, ends_in allowed (f x)) -> ends_in allowed (for_each f xs).
Proof.
  intros Hret Hf. induction xs as [|x xs IH]; simpl.
  - apply ends_in_ret. exact Hret.
  - apply ends_in_bind; [apply Hf|]. intros y.
    apply ends_in_bind; [exact IH|]. intros ys.
    apply ends_in_ret. exact Hret.
Qed.

End Endings.

Lemma ends_in_weaken {W A} (allowed allowed' : Ending -> bool) (m : M W A) :
  (forall k, allowed k = true -> allowed' k = true) ->
  ends_in allowed m -> ends_in allowed' m.
Proof. intros Hsub Hm s. apply Hsub. apply Hm. Qed.

(** Walks down a computation, leaving the endings to check. *)
Ltac ends_step :=
  lazymatch goal with
  | |- ends_in _ (bind _ _) => apply ends_in_bind; [|intros ?]
  | |- ends_in _ (try_except _ _) => apply ends_in_try_except; [|intros ?]
  | |- ends_in _ (for_each _ _) =>
      apply ends_in_for_each; [reflexivity|intros ?]
  | |- ends_in _ (if ?c then _ else _) => destruct c
  | |- ends_in _ (match ?x with [] => _ | _ :: _ => _ end) => destruct x
  | |- ends_in _ (match ?x with
                  | TextContentBlock _ => _
                  | ImageFileContentBlock _ => _
                  end) => destruct x
  | |- ends_in _ (call _ _ _) => apply ends_in_call; reflexivity
  | |- ends_in _ (ret _) => apply ends_in_ret; reflexivity
  | |- ends_in _ (raise _) => apply ends_in_raise; reflexivity
  | |- ends_in _ (halt _) => apply ends_in_halt; reflexivity
  | |- ends_in _ out_of_fuel => apply ends_in_out_of_fuel; reflexivity
  | |- ends_in _ (emit _) => apply ends_in_emit; reflexivity
  | |- ends_in _ (session_get _) => apply ends_in_session_get; reflexivity
  | |- ends_in _ (session_set _) => apply ends_in_session_set; reflexivity
  | |- ends_in _ st_experimental_rerun => apply ends_in_rerun; reflexivity
  end.

Ltac ends_walk :=
  unfold st_error, st_warning, st_info, st_markdown, st_sidebar_error,
    st_sidebar_success, st_sidebar_markdown, st_chat_message, st_stop,
    time_sleep, first, text_attr;
  repeat ends_step.

Section ScriptEndings.

Context {W : Type} (client : Client W).

Lemma upload_files_to_vector_store_returns files :
  ends_in returns_only (upload_files_to_vector_store client files).
Proof. unfold upload_files_to_vector_store. ends_walk. Qed.

Lemma create_assistant_returns v :
  ends_in returns_only (create_assistant client v).
Proof. unfold create_assistant. ends_walk. Qed.

Lemma create_thread_returns : ends_in returns_only (create_thread client).
Proof. unfold create_thread. ends_walk. Qed.

Lemma setup_handler_returns inp :
  ends_in returns_only (setup_handler client inp).
Proof.
  unfold setup_handler. ends_walk.
  - apply upload_files_to_vector_store_returns.
  - apply create_assistant_returns.
  - apply create_thread_returns.
Qed.

Lemma wait_for_completion_ends (fuel : nat) :
  forall run,
    ends_in (may_raise returns_or_runs_on)
      (wait_for_completion client fuel run).
Proof.
  induction fuel as [|fuel IH]; intros run; simpl; ends_walk. apply IH.
Qed.

Lemma get_assistant_response_ends fuel message :
  ends_in returns_or_runs_on (get_assistant_response client fuel message).
Proof.
  unfold get_assistant_response. ends_walk.
  apply wait_for_completion_ends.
Qed.

Lemma chat_input_handler_ends fuel input :
  ends_in returns_or_runs_on (chat_input_handler client fuel input).
Proof.
  unfold chat_input_handler. ends_walk.
  apply get_assistant_response_ends.
Qed.

Lemma returns_only_not_raising (k : Ending) :
  returns_only k = true -> not_raising k = true.
Proof. destruct k; intros H; (discriminate || reflexivity). Qed.

Lemma returns_or_runs_on_not_raising (k : Ending) :
  returns_or_runs_on k = true -> not_raising k = true.
Proof. destruct k; intros H; (discriminate || reflexivity). Qed.

Lemma script_never_raises fuel inp :
  ends_in not_raising (script client fuel inp).
Proof.
  unfold script, clear_chat_handler, status_panel. ends_walk.
  - apply (ends_in_weaken _ _ _ returns_only_not_raising).
    apply setup_handler_returns.
  - apply (ends_in_weaken _ _ _ returns_or_runs_on_not_raising).
    apply chat_input_handler_ends.
  - apply (ends_in_weaken _ _ _ returns_only_not_raising).
    apply create_thread_returns.
Qed.

Lemma interact_ends fuel inp :
  ends_in returns_or_runs_on (interact client fuel inp).
Proof.
  intros s. unfold interact.
  pose proof (script_never_raises fuel inp s) as H1.
  destruct (script client fuel inp s) as [[[a|e|[|]|] l1] s1];
    cbn in H1 |- *; try reflexivity; try discriminate.
  pose proof (script_never_raises fuel (no_trigger inp) s1) as H2.
  unfold finish.
  destruct (script client fuel (no_trigger inp) s1) as [[[a|e|c|] l2] s2];
    cbn in H2 |- *; try reflexivity; discriminate.
Qed.

Lemma user_session_ends fuel inps :
  ends_in returns_or_runs_on (user_session client fuel inps).
Proof.
  induction inps as [|inp rest IH]; simpl.
  - ends_walk.
  - apply ends_in_bind; [apply interact_ends|]. intros _. exact IH.
Qed.

End ScriptEndings.

(** X10.  No exception raised by the service leaves the script.  The three
    provisioning functions and the setup handler always return;
    [get_assistant_response] and the chat handler return or are still
    polling; a run of the script ends normally, by [st.stop()], by a rerun,
    or is still polling; and a user session never ends on an exception. *)
Theorem no_exception_escapes :
  forall (W : Type) (client : Client W),
    (forall files,
        ends_in returns_only (upload_files_to_vector_store client files))
    /\ (forall v, ends_in returns_only (create_assistant client v))
    /\ ends_in returns_only (create_thread client)
    /\ (forall inp, ends_in returns_only (setup_handler client inp))
    /\ (forall fuel message,
           ends_in returns_or_runs_on
             (get_assistant_response client fuel message))
    /\ (forall fuel input,
           ends_in returns_or_runs_on (chat_input_handler client fuel input))
    /\ (forall fuel inp, ends_in not_raising (script client fuel inp))
    /\ (forall fuel inps,
           ends_in returns_or_runs_on (user_session client fuel inps)).
Proof.
  intros W client.
  split; [exact (upload_files_to_vector_store_returns client)|].
  split; [exact (create_assistant_returns client)|].
  split; [exact (create_thread_returns client)|].
  split; [exact (setup_handler_returns client)|].
  split; [exact (get_assistant_response_ends client)|].
  split; [exact (chat_input_handler_ends client)|].
  split; [exact (script_never_raises client)|].
  exact (user_session_ends client).
Qed.

(** ** What holds of every run *)

Section Holds.

Context {W : Type}.
Variable R : SessionState -> list Event -> SessionState -> Prop.
Hypothesis R_nil : forall ss, R ss [] ss.
Hypothesis R_app :
  forall ss l1 ss1 l2 ss2, R ss l1 ss1 -> R ss1 l2 ss2 -> R ss (l1 ++ l2) ss2.

Lemma holds_ret {A} (a : A) : holds R (ret (W := W) a).
Proof. intros s. apply R_nil. Qed.

Lemma holds_raise {A} (e : Exception) : holds R (raise (W := W) (A := A) e).
Proof. intros s. apply R_nil. Qed.

Lemma holds_halt {A} (c : Control) : holds R (halt (W := W) (A := A) c).
Proof. intros s. apply R_nil. Qed.

Lemma holds_out_of_fuel {A} : holds R (out_of_fuel (W := W) (A := A)).
Proof. intros s. apply R_nil. Qed.

Lemma holds_session_get {A} (field : SessionState -> A) :
  holds R (session_get (W := W) field).
Proof. intros s. apply R_nil. Qed.

Lemma holds_session_set (update : SessionState -> SessionState) :
  (forall ss, R ss [] (update ss)) -> holds R (session_set (W := W) update).
Proof. intros H s. apply H. Qed.

Lemma holds_emit (ev : Event) :
  (forall ss, R ss [ev] ss) -> holds R (emit (W := W) ev).
Proof. intros H s. apply H. Qed.

Lemma holds_rerun {A} :
  (forall ss, R ss [Rerun] ss) ->
  holds R (st_experimental_rerun (W := W) (A := A)).
Proof. intros H s. apply H. Qed.

Lemma holds_call {A} (req : Request) (inj : A -> Response)
    (op : W -> result A * W) :
  (forall ss resp, R ss [Call req resp] ss) -> holds R (call req inj op).
Proof.
  intros H s. unfold call.
  destruct (op (world s)) as [[a|e] w]; apply H.
Qed.

Lemma holds_bind {A B} (m : M W A) (f : A -> M W B) :
  holds R m -> (forall a, holds R (f a)) -> holds R (bind m f).
Proof.
  intros Hm Hf s. unfold bind. specialize (Hm s).
  destruct (m s) as [[[a|e|c|] l1] s1]; try exact Hm.
  specialize (Hf a s1). destruct (f a s1) as [[o l2] s2].
  eapply R_app; eassumption.
Qed.

Lemma holds_try_except {A} (body : M W A) (handler : Exception -> M W A) :
  holds R body -> (forall e, holds R (handler e)) ->
  holds R (try_except body handler).
Proof.
  intros Hb Hh s. unfold try_except. specialize (Hb s).
  destruct (body s) as [[[a|e|c|] l1] s1]; try exact Hb.
  specialize (Hh e s1). destruct (handler e s1) as [[o l2] s2].
  eapply R_app; eassumption.
Qed.

Lemma holds_for_each {A B} (f : A -> M W B) (xs : list A) :
  (forall x, holds R (f x)) -> holds R (for_each f xs).
Proof.
  intros Hf. induction xs as [|x xs IH]; simpl.
  - apply holds_ret.
  - apply holds_bind; [apply Hf|]. intros y.
    apply holds_bind; [exact IH|]. intros ys. apply holds_ret.
Qed.

Lemma holds_finish (m : M W unit) : holds R m -> holds R (finish m).
Proof.
  intros Hm s. unfold finish. specialize (Hm s).
  destruct (m s) as [[[a|e|c|] l] s']; exact Hm.
Qed.

End Holds.

(** Walks down a computation for [holds R], given that [R] holds of the
    empty log and composes; leaves what is specific to [R]. *)
Ltac holds_step Rnil Rapp :=
  lazymatch goal with
  | |- holds _ (bind _ _) => apply holds_bind; [exact Rapp| |intros ?]
  | |- holds _ (try_except _ _) =>
      apply holds_try_except; [exact Rapp| |intros ?]
  | |- holds _ (for_each _ _) =>
      apply holds_for_each; [exact Rnil|exact Rapp|intros ?]
  | |- holds _ (if ?c then _ else _) => destruct c
  | |- holds _ (match ?x with [] => _ | _ :: _ => _ end) => destruct x
  | |- holds _ (match ?x with
                | TextContentBlock _ => _
                | ImageFileContentBlock _ => _
                end) => destruct x
  | |- holds _ (ret _) => apply holds_ret; exact Rnil
  | |- holds _ (raise _) => apply holds_raise; exact Rnil
  | |- holds _ (halt _) => apply holds_halt; exact Rnil
  | |- holds _ out_of_fuel => apply holds_out_of_fuel; exact Rnil
  | |- holds _ (session_get _) => apply holds_session_get; exact Rnil
  | |- holds _ (session_set _) => apply holds_session_set; intros ?
  | |- holds _ (emit _) => apply holds_emit; intros ?
  | |- holds _ st_experimental_rerun => apply holds_rerun; intros ?
  | |- holds _ (call _ _ _) => apply holds_call; intros ? ?
  end.

Ltac holds_walk Rnil Rapp :=
  unfold st_error, st_warning, st_info, st_markdown, st_sidebar_error,
    st_sidebar_success, st_sidebar_markdown, st_chat_message, st_stop,
    time_sleep, first, text_attr;
  repeat holds_step Rnil Rapp.

Lemma holds_bind_at {W A B}
    (R : SessionState -> list Event -> SessionState -> Prop)
    (m : M W A) (f : A -> M W B) (s : State W) :
  (forall ss l1 ss1 l2 ss2,
      R ss l1 ss1 -> R ss1 l2 ss2 -> R ss (l1 ++ l2) ss2) ->
  holds_at R m s ->
  (forall a l1 s1, m s = (Val a, l1, s1) -> holds_at R (f a) s1) ->
  holds_at R (bind m f) s.
Proof.
  intros Rapp Hm Hf. unfold holds_at, bind in *.
  destruct (m s) as [[[a|e|c|] l1] s1]; try exact Hm.
  specialize (Hf a l1 s1 eq_refl). destruct (f a s1) as [[o l2] s2].
  eapply Rapp; eassumption.
Qed.

(** The stored turns are rendered in order, one chat message each, and
    nothing else happens. *)
Lemma history_is_rendered {W} (history : list ChatTurn) (s : State W) :
  for_each (fun message => st_chat_message (role message) (content message))
           history s
  = (Val (map (fun _ => tt) history),
     map (fun message => Ui (StChatMessage (role message)) (content message))
         history,
     s).
Proof.
  induction history as [|turn history IH]; [reflexivity|].
  simpl. unfold bind at 1. unfold st_chat_message at 1. unfold emit at 1.
  unfold bind at 1. rewrite IH. unfold ret. cbn [app].
  rewrite app_nil_r. reflexivity.
Qed.

(** ** The history only grows, unless it is cleared *)

Lemma history_grows_same (ss : SessionState) (l : list Event) :
  history_grows ss l ss.
Proof. exists []. rewrite app_nil_r. reflexivity. Qed.

Lemma history_grows_nil (ss : SessionState) : history_grows ss [] ss.
Proof. apply history_grows_same. Qed.

Lemma history_grows_keeping (ss ss' : SessionState) (l : list Event) :
  messages ss' = messages ss -> history_grows ss l ss'.
Proof. intros H. exists []. rewrite app_nil_r. exact H. Qed.

Lemma history_grows_app (ss : SessionState) l1 ss1 l2 ss2 :
  history_grows ss l1 ss1 -> history_grows ss1 l2 ss2 ->
  history_grows ss (l1 ++ l2) ss2.
Proof.
  intros (a1 & H1) (a2 & H2). exists (a1 ++ a2).
  rewrite H2, H1, app_assoc. reflexivity.
Qed.

Section History.

Context {W : Type} (client : Client W).

Lemma chat_input_handler_history fuel input :
  holds history_grows (chat_input_handler client fuel input).
Proof.
  intros s.
  pose proof (chat_input_handler_any client fuel input s) as H.
  destruct (chat_input_handler client fuel input s) as [[o l] s'].
  destruct H as (_ & _ & _ & _ & Hm).
  destruct input as [[|c prompt]|].
  - apply history_grows_keeping. apply Hm.
  - destruct Hm as [Hm | (reply & _ & Hm & _)]; eexists; exact Hm.
  - apply history_grows_keeping. apply Hm.
Qed.

Lemma script_history fuel inp :
  clear_chat_button inp = false ->
  holds history_grows (script client fuel inp).
Proof.
  intros Hclear.
  unfold script, setup_handler, upload_files_to_vector_store,
    create_assistant, create_thread, clear_chat_handler, status_panel.
  rewrite Hclear.
  holds_walk history_grows_nil history_grows_app;
    try apply history_grows_same;
    try (apply history_grows_keeping; reflexivity).
  apply chat_input_handler_history.
Qed.

Lemma interact_history fuel inp :
  clear_chat_button inp = false ->
  holds history_grows (interact client fuel inp).
Proof.
  intros Hclear s. unfold interact.
  pose proof (script_history fuel inp Hclear s) as H1.
  destruct (script client fuel inp s) as [[[a|e|[|]|] l1] s1]; try exact H1.
  pose proof (holds_finish _ _ (script_history fuel (no_trigger inp) eq_refl)
                s1) as H2.
  destruct (finish (script client fuel (no_trigger inp)) s1) as [[o l2] s2].
  eapply history_grows_app; eassumption.
Qed.

Lemma user_session_history fuel inps :
  Forall (fun inp => clear_chat_button inp = false) inps ->
  holds history_grows (user_session client fuel inps).
Proof.
  induction 1 as [|inp rest Hinp _ IH]; simpl.
  - apply holds_ret. exact history_grows_nil.
  - apply holds_bind; [exact history_grows_app| |intros _; exact IH].
    apply interact_history. exact Hinp.
Qed.

End History.

(** X11.  As long as clear chat is not clicked, the chat history only
    grows: over any sequence of interactions and whatever the service does,
    the turns recorded before are still there, in place, and new turns come
    after them.  Setup, even when run again with success, leaves the
    recorded turns where they are. *)
Theorem history_is_append_only_until_cleared :
  forall (W : Type) (client : Client W) (fuel : nat) (inps : list Inputs)
         (s : State W),
    Forall (fun inp => clear_chat_button inp = false) inps ->
    let '(_, _, s') := user_session client fuel inps s in
    exists added, messages (session s') = messages (session s) ++ added.
Proof.
  intros W client fuel inps s Hclear.
  pose proof (user_session_history client fuel inps Hclear s) as H.
  destruct (user_session client fuel inps s) as [[o l] s'].
  exact H.
Qed.

Lemma history_is_append_only_witness :
  let s := {| session :=
                set_messages [user_turn "hello"; assistant_turn "hi there"]
                  Scripted.ready;
              world := Scripted.one_setup |} in
  let '(_, _, s') :=
    user_session Scripted.client 3 [Scripted.setup_click] s in
  exists added,
    messages (session s')
    = [user_turn "hello"; assistant_turn "hi there"] ++ added.
Proof.
  intros s.
  apply (history_is_append_only_until_cleared
           Scripted.World Scripted.client 3 [Scripted.setup_click] s).
  constructor; [reflexivity|constructor].
Defined.

(** ** Turns are only requested with ready handles *)

Lemma turns_ready_nil (ss : SessionState) : turns_ready ss [] ss.
Proof. constructor. Qed.

Lemma turns_ready_app (ss : SessionState) l1 ss1 l2 ss2 :
  turns_ready ss l1 ss1 -> turns_ready ss1 l2 ss2 ->
  turns_ready ss (l1 ++ l2) ss2.
Proof. intros H1 H2. apply Forall_app. split; assumption. Qed.

Lemma turn_request_with_ready tid aid (ev : Event) :
  truthy tid = true -> truthy aid = true ->
  turn_request_with tid aid ev -> turn_request_ready ev.
Proof.
  intros Ht Ha. destruct ev as [[] resp| | |]; cbn; auto.
  - intros ->. exact Ht.
  - intros [-> ->]. split; assumption.
  - intros ->. exact Ht.
  - intros ->. exact Ht.
Qed.

(** Discharges [turns_ready] of a single event that is no turn request. *)
Ltac other_event := unfold turns_ready; repeat constructor.

Section ReadyTurns.

Context {W : Type} (client : Client W).

Lemma chat_input_handler_ready fuel input (s : State W) :
  truthy (assistant_id (session s)) = true ->
  truthy (thread_id (session s)) = true ->
  holds_at turns_ready (chat_input_handler client fuel input) s.
Proof.
  intros Ha Ht. unfold holds_at.
  pose proof (chat_input_handler_any client fuel input s) as H.
  destruct (chat_input_handler client fuel input s) as [[o l] s'].
  destruct H as (_ & _ & _ & Hreq & _).
  unfold turns_ready. eapply Forall_impl; [|exact Hreq].
  intros ev. apply turn_request_with_ready; assumption.
Qed.

Lemma setup_handler_turns_ready inp :
  holds turns_ready (setup_handler client inp).
Proof.
  unfold setup_handler, upload_files_to_vector_store, create_assistant,
    create_thread.
  holds_walk turns_ready_nil turns_ready_app; other_event.
Qed.

Lemma clear_chat_handler_turns_ready clicked :
  holds turns_ready (clear_chat_handler client clicked).
Proof.
  unfold clear_chat_handler, create_thread.
  holds_walk turns_ready_nil turns_ready_app; other_event.
Qed.

Lemma status_panel_turns_ready : holds turns_ready (status_panel (W := W)).
Proof.
  unfold status_panel.
  holds_walk turns_ready_nil turns_ready_app; other_event.
Qed.

Lemma script_turns_ready fuel inp :
  holds turns_ready (script client fuel inp).
Proof.
  unfold script.
  apply holds_bind; [exact turns_ready_app| |intros _].
  { holds_walk turns_ready_nil turns_ready_app; other_event. }
  apply holds_bind; [exact turns_ready_app| |intros _].
  { holds_walk turns_ready_nil turns_ready_app; other_event. }
  apply holds_bind; [exact turns_ready_app| |intros _].
  { apply setup_handler_turns_ready. }
  intros s. unfold bind at 1. unfold session_get at 1.
  unfold bind at 1. unfold session_get at 1.
  destruct (truthy (assistant_id (session s))
            && truthy (thread_id (session s))) eqn:Hgate.
  - apply andb_prop in Hgate. destruct Hgate as [Ha Ht].
    match goal with
    | |- context [bind ?m ?f s] =>
        assert (Hrest : holds_at turns_ready (bind m f) s)
    end.
    { apply holds_bind_at; [exact turns_ready_app| |].
      - apply holds_bind_at; [exact turns_ready_app| |].
        { apply turns_ready_nil. }
        intros history l1 s1 Heq. unfold session_get in Heq.
        injection Heq as _ _ <-.
        apply holds_bind_at; [exact turns_ready_app| |].
        { unfold holds_at. rewrite history_is_rendered.
          unfold turns_ready. apply Forall_forall. intros ev Hin.
          apply in_map_iff in Hin. destruct Hin as (turn & <- & _).
          exact I. }
        intros u l2 s2 Heq. rewrite history_is_rendered in Heq.
        injection Heq as _ _ <-.
        apply holds_bind_at; [exact turns_ready_app| |].
        { apply chat_input_handler_ready; assumption. }
        intros u' l3 s3 _.
        apply (clear_chat_handler_turns_ready (clear_chat_button inp) s3).
      - intros u l1 s1 _. apply (status_panel_turns_ready s1). }
    unfold holds_at in Hrest.
    destruct (bind _ _ s) as [[o l] s'] in Hrest |- *.
    cbn. exact Hrest.
  - match goal with
    | |- context [bind ?m ?f s] =>
        assert (Hrest : holds turns_ready (bind m f))
    end.
    { apply holds_bind; [exact turns_ready_app| |intros _].
      - holds_walk turns_ready_nil turns_ready_app; other_event.
      - apply status_panel_turns_ready. }
    specialize (Hrest s).
    destruct (bind _ _ s) as [[o l] s'] in Hrest |- *.
    cbn. exact Hrest.
Qed.

Lemma interact_turns_ready fuel inp :
  holds turns_ready (interact client fuel inp).
Proof.
  intros s. unfold interact.
  pose proof (script_turns_ready fuel inp s) as H1.
  destruct (script client fuel inp s) as [[[a|e|[|]|] l1] s1]; try exact H1.
  pose proof (holds_finish _ _ (script_turns_ready fuel (no_trigger inp)) s1)
    as H2.
  destruct (finish (script client fuel (no_trigger inp)) s1) as [[o l2] s2].
  eapply turns_ready_app; eassumption.
Qed.

Lemma user_session_turns_ready fuel inps :
  holds turns_ready (user_session client fuel inps).
Proof.
  induction inps as [|inp rest IH]; simpl.
  - apply holds_ret. exact turns_ready_nil.
  - apply holds_bind; [exact turns_ready_app| |intros _; exact IH].
    apply interact_turns_ready.
Qed.

End ReadyTurns.

(** X12.  Whatever the widgets hold, whatever state the session is in and
    whatever the service does, every request of a turn that the script sends
    (the user's message, the run start, a status fetch, the message list)
    carries a conversation handle that passes the truthiness test of the
    chat interface, and the run is started with an assistant handle that
    passes it too: no turn is requested on an unset or empty handle. *)
Theorem turns_are_requested_with_ready_handles :
  forall (W : Type) (client : Client W) (fuel : nat) (inps : list Inputs)
         (s : State W),
    let '(_, l, _) := user_session client fuel inps s in
    Forall turn_request_ready l.
Proof.
  intros W client fuel inps s.
  pose proof (user_session_turns_ready client fuel inps s) as H.
  destruct (user_session client fuel inps s) as [[o l] s'].
  exact H.
Qed.

(** ** Before setup *)

(** X13.  While the assistant handle or the conversation handle is not
    ready and setup is not triggered, a run of the script with a working key
    only builds the client, shows the invitation to set up and the status
    panel: text submitted to the chat and a click on clear chat are dropped,
    no request of a turn is sent, and the session state is unchanged. *)
Theorem chat_is_closed_before_setup :
  forall (W : Type) (client : Client W) (fuel : nat) (inp : Inputs)
         (s : State W) (w' : W),
    api_key_input inp <> "" ->
    openai_client client (api_key_input inp) (world s) = (Ok tt, w') ->
    uploaded_files inp = [] \/ setup_button inp = false ->
    truthy (assistant_id (session s)) && truthy (thread_id (session s))
    = false ->
    script client fuel inp s
    = (Val tt,
       [Call (OpenAI (api_key_input inp)) (Ok RClient);
        Ui StInfo
           "👆 Upload your documents in the sidebar and click 'Setup RAG System' to get started!"]
         ++ map (Ui SidebarMarkdown) (status_lines (session s)),
       {| session := session s; world := w' |}).
Proof.
  intros W client fuel inp s w' Hkey Hinit Hidle Hgate.
  unfold script. rewrite (truthy_str_true _ Hkey). cbn [negb].
  unfold bind at 1. unfold ret at 1.
  unfold bind at 1. unfold try_except at 1. unfold call at 1.
  rewrite Hinit. cbn [session world].
  assert (Hsetup : setup_handler client inp = ret tt).
  { unfold setup_handler. destruct Hidle as [-> | ->]; [reflexivity|].
    rewrite Bool.andb_false_r. reflexivity. }
  rewrite Hsetup.
  unfold bind at 1. unfold ret at 1.
  unfold bind at 1. unfold session_get at 1. cbn [session world].
  unfold bind at 1. unfold session_get at 1. cbn [session world].
  rewrite Hgate.
  unfold bind, st_info, emit, status_panel, session_get, ret. cbn.
  reflexivity.
Qed.

Lemma chat_is_closed_before_setup_witness :
  let inp := {| api_key_input := "sk-test";
                uploaded_files := [];
                setup_button := false;
                chat_input := Some "hi";
                clear_chat_button := true |} in
  script Scripted.client 3 inp
    {| session := initial_session; world := Scripted.one_setup |}
  = (Val tt,
     [Call (OpenAI "sk-test") (Ok RClient);
      Ui StInfo
         "👆 Upload your documents in the sidebar and click 'Setup RAG System' to get started!";
      Ui SidebarMarkdown "**Assistant:** ❌ Not setup";
      Ui SidebarMarkdown "**Thread:** ❌ Not created";
      Ui SidebarMarkdown "**Vector Store:** ❌ Not setup"],
     {| session := initial_session; world := Scripted.one_setup |}).
Proof.
  intros inp.
  apply (chat_is_closed_before_setup
           Scripted.World Scripted.client 3 inp
           {| session := initial_session; world := Scripted.one_setup |}
           Scripted.one_setup).
  - discriminate.
  - reflexivity.
  - left. reflexivity.
  - reflexivity.
Defined.

(** ** Sleeping and provisioning *)

Lemma slept_app (l1 l2 : list Event) : slept (l1 ++ l2) = slept l1 ++ slept l2.
Proof.
  induction l1 as [|ev l1 IH]; simpl; [reflexivity|].
  destruct ev; simpl; rewrite ?IH; reflexivity.
Qed.

Lemma sleeps_match_nil (ss : SessionState) : sleeps_match_fetches ss [] ss.
Proof. reflexivity. Qed.

Lemma sleeps_match_app (ss : SessionState) l1 ss1 l2 ss2 :
  sleeps_match_fetches ss l1 ss1 -> sleeps_match_fetches ss1 l2 ss2 ->
  sleeps_match_fetches ss (l1 ++ l2) ss2.
Proof.
  unfold sleeps_match_fetches. intros H1 H2.
  rewrite slept_app, status_fetches_app, repeat_app, H1, H2. reflexivity.
Qed.

Lemma provisions_nothing_nil (ss : SessionState) : provisions_nothing ss [] ss.
Proof. reflexivity. Qed.

Lemma provisions_nothing_app (ss : SessionState) l1 ss1 l2 ss2 :
  provisions_nothing ss l1 ss1 -> provisions_nothing ss1 l2 ss2 ->
  provisions_nothing ss (l1 ++ l2) ss2.
Proof.
  unfold provisions_nothing. intros H1 H2.
  rewrite count_requests_app, H1, H2. reflexivity.
Qed.

(** Setup does nothing unless its button is clicked with files selected. *)
Lemma setup_handler_idle {W} (client : Client W) (inp : Inputs) :
  uploaded_files inp = [] \/ setup_button inp = false ->
  setup_handler client inp = ret tt.
Proof.
  intros Hidle. unfold setup_handler.
  destruct Hidle as [-> | ->]; [reflexivity|].
  rewrite Bool.andb_false_r. reflexivity.
Qed.

Section Resources.

Context {W : Type} (client : Client W).

Lemma wait_for_completion_sleeps (fuel : nat) :
  forall run, holds sleeps_match_fetches (wait_for_completion client fuel run).
Proof.
  induction fuel as [|fuel IH]; intros run s.
  - simpl. destruct (pending (status run)); reflexivity.
  - destruct (pending (status run)) eqn:Hp.
    + rewrite wait_for_completion_step by exact Hp. cbv zeta.
      destruct (threads_runs_retrieve client (thread_id (session s))
                  (run_id run) (world s)) as [[run'|e] w'].
      * specialize (IH run' {| session := session s; world := w' |}).
        destruct (wait_for_completion client fuel run' _) as [[o l] s'].
        unfold sleeps_match_fetches, status_fetches in *. cbn.
        rewrite IH. reflexivity.
      * reflexivity.
    + rewrite wait_for_completion_done by exact Hp. reflexivity.
Qed.

Lemma script_sleeps fuel inp :
  holds sleeps_match_fetches (script client fuel inp).
Proof.
  unfold script, setup_handler, clear_chat_handler, chat_input_handler,
    get_assistant_response, upload_files_to_vector_store, create_assistant,
    create_thread, status_panel.
  holds_walk sleeps_match_nil sleeps_match_app; try reflexivity.
  apply wait_for_completion_sleeps.
Qed.

Lemma user_session_sleeps fuel inps :
  holds sleeps_match_fetches (user_session client fuel inps).
Proof.
  induction inps as [|inp rest IH]; simpl.
  - apply holds_ret. exact sleeps_match_nil.
  - apply holds_bind; [exact sleeps_match_app| |intros _; exact IH].
    intros s. unfold interact.
    pose proof (script_sleeps fuel inp s) as H1.
    destruct (script client fuel inp s) as [[[a|e|[|]|] l1] s1]; try exact H1.
    pose proof (holds_finish _ _ (script_sleeps fuel (no_trigger inp)) s1)
      as H2.
    destruct (finish (script client fuel (no_trigger inp)) s1)
      as [[o l2] s2].
    eapply sleeps_match_app; eassumption.
Qed.

Lemma wait_for_completion_provisions_nothing (fuel : nat) :
  forall run,
    holds provisions_nothing (wait_for_completion client fuel run).
Proof.
  induction fuel as [|fuel IH]; intros run; simpl;
    holds_walk provisions_nothing_nil provisions_nothing_app;
    try reflexivity.
  apply IH.
Qed.

Lemma script_provisions_nothing fuel inp :
  uploaded_files inp = [] \/ setup_button inp = false ->
  clear_chat_button inp = false ->
  holds provisions_nothing (script client fuel inp).
Proof.
  intros Hidle Hclear.
  unfold script. rewrite (setup_handler_idle client inp Hidle).
  unfold chat_input_handler, get_assistant_response, clear_chat_handler,
    status_panel.
  rewrite Hclear.
  holds_walk provisions_nothing_nil provisions_nothing_app; try reflexivity.
  apply wait_for_completion_provisions_nothing.
Qed.

Lemma user_session_provisions_nothing fuel inps :
  Forall (fun inp =>
            (uploaded_files inp = [] \/ setup_button inp = false)
            /\ clear_chat_button inp = false) inps ->
  holds provisions_nothing (user_session client fuel inps).
Proof.
  induction 1 as [|inp rest [Hidle Hclear] _ IH]; simpl.
  - apply holds_ret. exact provisions_nothing_nil.
  - apply holds_bind; [exact provisions_nothing_app| |intros _; exact IH].
    intros s. unfold interact.
    pose proof (script_provisions_nothing fuel inp Hidle Hclear s) as H1.
    destruct (script client fuel inp s) as [[[a|e|[|]|] l1] s1]; try exact H1.
    pose proof (holds_finish _ _
                  (script_provisions_nothing fuel (no_trigger inp)
                     (or_intror eq_refl) eq_refl) s1) as H2.
    destruct (finish (script client fuel (no_trigger inp)) s1)
      as [[o l2] s2].
    eapply provisions_nothing_app; eassumption.
Qed.

End Resources.

(** X14.  The script sleeps in the polling loop only, one second before
    each status fetch: over any sequence of interactions and whatever the
    service does, every sleep lasts one second and there are as many sleeps
    as status fetches issued. *)
Theorem one_second_is_slept_per_status_fetch :
  forall (W : Type) (client : Client W) (fuel : nat) (inps : list Inputs)
         (s : State W),
    let '(_, l, _) := user_session client fuel inps s in
    slept l = repeat 1 (status_fetches l).
Proof.
  intros W client fuel inps s.
  pose proof (user_session_sleeps client fuel inps s) as H.
  destruct (user_session client fuel inps s) as [[o l] s'].
  exact H.
Qed.

(** X15.  Chatting provisions nothing: over any sequence of interactions in
    which neither setup is triggered nor clear chat clicked, and whatever
    the service does, no request to create a store, a file, a batch, an
    assistant or a conversation is sent. *)
Theorem chatting_provisions_nothing :
  forall (W : Type) (client : Client W) (fuel : nat) (inps : list Inputs)
         (s : State W),
    Forall (fun inp =>
              (uploaded_files inp = [] \/ setup_button inp = false)
              /\ clear_chat_button inp = false) inps ->
    let '(_, l, _) := user_session client fuel inps s in
    count_requests is_provisioning_request l = 0.
Proof.
  intros W client fuel inps s Hinps.
  pose proof (user_session_provisions_nothing client fuel inps Hinps s) as H.
  destruct (user_session client fuel inps s) as [[o l] s'].
  exact H.
Qed.

Lemma chatting_provisions_nothing_witness :
  let inp := {| api_key_input := "sk-test";
                uploaded_files := uploaded_files Scripted.setup_click;
                setup_button := false;
                chat_input := Some "hi";
                clear_chat_button := false |} in
  let '(_, l, _) := user_session Scripted.client 3 [inp; inp] scripted_turn in
  count_requests is_provisioning_request l = 0.
Proof.
  intros inp.
  apply (chatting_provisions_nothing
           Scripted.World Scripted.client 3 [inp; inp] scripted_turn).
  assert (Hinp : (uploaded_files inp = [] \/ setup_button inp = false)
                 /\ clear_chat_button inp = false).
  { split; [right|]; reflexivity. }
  constructor; [exact Hinp|]. constructor; [exact Hinp|constructor].
Defined.
